(** * ubl-ts: the UBL invoice parser and the DTO normalizer

    A shallow embedding of [parser.ts], [normalize.ts] and [types.ts].
    The ECMAScript built-ins and the DOM interface the code calls are
    modelled first ([JS], [Dom]); the source functions follow under their
    own names. The XML parser and [Date.parse] belong to the host and are
    parameters of the functions that call them. The byte decoding in front
    of the normalizer ([decodeXmlBytes], [parseUblInvoiceDocument]) is left
    out. *)

From Stdlib Require Import ZArith List String Ascii Bool Floats Lia.
Import ListNotations.

Set Warnings "-inexact-float,-register-all".

Local Open Scope string_scope.
Local Open Scope Z_scope.

(** ** ECMAScript built-ins *)

Module JS.

(** A JavaScript string is taken as its sequence of code units; the model
    covers the code units below 256. The white space of [trim] and of the
    regular expression class [\s] in that range: TAB, LF, VT, FF, CR, SP
    and NBSP. *)
Definition isWhiteSpace (c : ascii) : bool :=
  let n := nat_of_ascii c in
  ((9 <=? n) && (n <=? 13) || (n =? 32) || (n =? 160))%nat.

Fixpoint trimStart (s : string) : string :=
  match s with
  | String c r => if isWhiteSpace c then trimStart r else s
  | EmptyString => EmptyString
  end.

Fixpoint trimEnd (s : string) : string :=
  match s with
  | String c r =>
      let r' := trimEnd r in
      if isWhiteSpace c && (r' =? "")%string then EmptyString else String c r'
  | EmptyString => EmptyString
  end.

(** [String.prototype.trim] *)
Definition trim (s : string) : string := trimEnd (trimStart s).

(** [String.prototype.toUpperCase] and [toLowerCase]. The letters below
    256 are those of ASCII and of Latin-1: 192 to 222 without 215 are the
    upper case of 224 to 254 without 247, as A to Z is of a to z. The upper
    case of 223 (sharp s) is the two letters SS. The code units 170 and 186
    have no upper case. The upper case of 181 (micro sign) and of 255 lies
    above 255: [toUpperCase] is modelled on the texts that hold neither
    ([upperCaseInRange]) and leaves the two as they are. *)
Definition lowerChar (c : ascii) : ascii :=
  let n := nat_of_ascii c in
  if ((65 <=? n) && (n <=? 90)
      || (192 <=? n) && (n <=? 222) && negb (n =? 215))%nat
  then ascii_of_nat (n + 32) else c.

Definition upperChar (c : ascii) : ascii :=
  let n := nat_of_ascii c in
  if ((97 <=? n) && (n <=? 122)
      || (224 <=? n) && (n <=? 254) && negb (n =? 247))%nat
  then ascii_of_nat (n - 32) else c.

(** The upper case of one code unit. *)
Definition upperUnit (c : ascii) : string :=
  if (nat_of_ascii c =? 223)%nat then "SS" else String (upperChar c) EmptyString.

Fixpoint mapString (f : ascii -> ascii) (s : string) : string :=
  match s with
  | String c r => String (f c) (mapString f r)
  | EmptyString => EmptyString
  end.

Fixpoint toUpperCase (s : string) : string :=
  match s with
  | String c r => upperUnit c ++ toUpperCase r
  | EmptyString => EmptyString
  end.

Definition toLowerCase : string -> string := mapString lowerChar.

Fixpoint upperCaseInRange (s : string) : bool :=
  match s with
  | String c r =>
      negb (nat_of_ascii c =? 181)%nat && negb (nat_of_ascii c =? 255)%nat
      && upperCaseInRange r
  | EmptyString => true
  end.

(** [s.replace(/\s+/g, "")]: every run of white space is removed. *)
Fixpoint removeWhiteSpace (s : string) : string :=
  match s with
  | String c r =>
      if isWhiteSpace c then removeWhiteSpace r else String c (removeWhiteSpace r)
  | EmptyString => EmptyString
  end.

(** [String.prototype.endsWith] *)
Definition endsWith (s suffix : string) : bool :=
  let n := String.length s in
  let k := String.length suffix in
  ((k <=? n)%nat && (substring (n - k) k s =? suffix)%string).

(** [s.slice(0, n)] *)
Definition sliceTo (n : nat) (s : string) : string := substring 0 n s.

(** [Array.prototype.join] *)
Fixpoint join (sep : string) (parts : list string) : string :=
  match parts with
  | [] => ""
  | [p] => p
  | p :: rest => p ++ sep ++ join sep rest
  end.

Definition newline : string := String (ascii_of_nat 10) EmptyString.

(** A string in a condition: the empty string is falsy. *)
Definition nonEmpty (s : string) : bool := negb (s =? "")%string.

(** [s || undefined] *)
Definition orUndefined (s : string) : option string :=
  if nonEmpty s then Some s else None.

(** [a ?? b] *)
Definition nullish {A : Type} (a : option A) (b : option A) : option A :=
  match a with
  | Some x => Some x
  | None => b
  end.

(** [a ?? b] with a default that is always there *)
Definition nullishOr {A : Type} (a : option A) (b : A) : A :=
  match a with
  | Some x => x
  | None => b
  end.

(** *** Numbers

    The Number type is IEEE 754 binary64, which is the kernel's [float]. *)

Definition Number := float.

Definition Number_isNaN (x : Number) : bool := PrimFloat.is_nan x.
Definition Number_isFinite (x : Number) : bool := PrimFloat.is_finite x.
Definition Math_abs (x : Number) : Number := PrimFloat.abs x.

(** A number in a condition: [+0], [-0] and [NaN] are falsy. *)
Definition truthyNumber (x : Number) : bool :=
  negb (PrimFloat.is_zero x || PrimFloat.is_nan x).

(** [x || undefined] on a number *)
Definition numberOrUndefined (x : Number) : option Number :=
  if truthyNumber x then Some x else None.

(** [a > b] *)
Definition gt (a b : Number) : bool := PrimFloat.ltb b a.

(** The Number value of [(-1)^neg * m * 10^e], rounded to nearest, ties to
    even, from the exact decimal value. *)
Definition numberOfDecimal (neg : bool) (m : Z) (e : Z) : Number :=
  match m with
  | Zpos p =>
      if 0 <=? e
      then SF2Prim (binary_normalize prec emax
                      (if neg then Z.opp (Zpos p * 10 ^ e) else Zpos p * 10 ^ e)
                      0 false)
      else SF2Prim (SFdiv prec emax
                      (S754_finite neg p 0)
                      (S754_finite false (Z.to_pos (10 ^ (- e))) 0))
  | _ => if neg then PrimFloat.neg_zero else PrimFloat.zero
  end.

Definition digitValue (c : ascii) : option Z :=
  let n := Z.of_nat (nat_of_ascii c) in
  if (48 <=? n) && (n <=? 57) then Some (n - 48) else None.

(** DecimalDigits: the longest run of digits at the head of [s], read after
    the digits already in [value]; the result is the value, the number of
    digits read and the rest of the string. *)
Fixpoint decimalDigits (s : string) (value count : Z) : Z * Z * string :=
  match s with
  | String c r =>
      match digitValue c with
      | Some d => decimalDigits r (10 * value + d) (count + 1)
      | None => (value, count, s)
      end
  | EmptyString => (value, count, s)
  end.

(** ExponentPart at the head of [s]; 0 when there is none (an exponent
    indicator that no digit follows is not part of the literal). *)
Definition exponentPart (s : string) : Z :=
  match s with
  | String c r =>
      if (c =? "e")%char || (c =? "E")%char then
        let '(neg, r') :=
          match r with
          | String "+"%char r2 => (false, r2)
          | String "-"%char r2 => (true, r2)
          | _ => (false, r)
          end in
        let '(v, n, _) := decimalDigits r' 0 0 in
        if n =? 0 then 0 else if neg then - v else v
      else 0
  | EmptyString => 0
  end.

(** StrUnsignedDecimalLiteral: the value of the longest prefix of [s] that is
    one, [NaN] when no prefix is. *)
Definition unsignedDecimalLiteral (neg : bool) (s : string) : Number :=
  if prefix "Infinity" s
  then (if neg then PrimFloat.neg_infinity else PrimFloat.infinity)
  else
    let '(ip, ni, r1) := decimalDigits s 0 0 in
    match r1 with
    | String "."%char r2 =>
        let '(m, nf, r3) := decimalDigits r2 ip 0 in
        if (ni =? 0) && (nf =? 0) then PrimFloat.nan
        else numberOfDecimal neg m (exponentPart r3 - nf)
    | _ =>
        if ni =? 0 then PrimFloat.nan
        else numberOfDecimal neg ip (exponentPart r1)
    end.

(** [Number.parseFloat]: leading white space is skipped, then the longest
    prefix that is a StrDecimalLiteral is read; what follows is ignored. *)
Definition parseFloat (s : string) : Number :=
  match trimStart s with
  | String "+"%char r => unsignedDecimalLiteral false r
  | String "-"%char r => unsignedDecimalLiteral true r
  | t => unsignedDecimalLiteral false t
  end.

(** [Number(x.toFixed(digits))]. [toFixed] prints a value that is not
    finite, or whose magnitude is at least 10^21, as [ToString] does, and
    [Number] reads that back as [x]. Otherwise it prints [n / 10^digits] for
    the integer [n] closest to [|x| * 10^digits], the larger one on a tie,
    after the sign of a negative [x]; [Number] reads the decimal back. *)
Definition Number_toFixed (x : Number) (digits : Z) : Number :=
  if negb (Number_isFinite x) || negb (PrimFloat.ltb (PrimFloat.abs x) 1e21%float)
  then x
  else
    match Prim2SF x with
    | S754_finite s m e =>
        let scaled := Zpos m * 10 ^ digits in
        let n :=
          if 0 <=? e then scaled * 2 ^ e
          else (2 * scaled + 2 ^ (- e)) / (2 * 2 ^ (- e)) in
        numberOfDecimal s n (- digits)
    | _ => PrimFloat.zero
    end.

(** *** Completions

    A call either returns a value or throws; [message] is the message of
    the thrown error. *)
Inductive Completion (A : Type) : Type :=
| Normal (value : A)
| Throw (message : string).

Arguments Normal {A} value.
Arguments Throw {A} message.

Definition bind {A B : Type} (c : Completion A) (k : A -> Completion B)
  : Completion B :=
  match c with
  | Normal a => k a
  | Throw m => Throw m
  end.

(** [try { c } catch { handler }] *)
Definition tryCatch {A : Type} (c : Completion A) (handler : string -> Completion A)
  : Completion A :=
  match c with
  | Normal a => Normal a
  | Throw m => handler m
  end.

(** Reading a property of [null] or [undefined] throws a TypeError. *)
Definition deref {A : Type} (o : option A) : Completion A :=
  match o with
  | Some a => Normal a
  | None => Throw "TypeError: Cannot read properties of null"
  end.

End JS.

Notation "x <- c ;; k" := (JS.bind c (fun x => k))
  (at level 61, c at next level, right associativity).

(** ** The DOM interface *)

Module Dom.

(** A node of the tree. [Text] stands for text and CDATA sections,
    [Comment] for comments and processing instructions, whose data is no
    part of an element's text content. *)
Inductive Node : Type :=
| Elem (namespaceURI : option string) (prefix : option string)
       (localName : string) (attributes : list (string * string))
       (childNodes : list Node)
| Text (data : string)
| Comment (data : string).

(** The source's functions take an [Element]; they are applied to element
    nodes. *)
Definition Element := Node.

Definition nodeType (n : Node) : Z :=
  match n with
  | Elem _ _ _ _ _ => 1
  | Text _ => 3
  | Comment _ => 8
  end.

Definition namespaceURI (n : Node) : option string :=
  match n with
  | Elem ns _ _ _ _ => ns
  | _ => None
  end.

Definition localName (n : Node) : string :=
  match n with
  | Elem _ _ l _ _ => l
  | _ => ""
  end.

(** The qualified name. *)
Definition tagName (n : Node) : string :=
  match n with
  | Elem _ (Some p) l _ _ => p ++ ":" ++ l
  | Elem _ None l _ _ => l
  | _ => ""
  end.

Definition childNodes (n : Node) : list Node :=
  match n with
  | Elem _ _ _ _ cs => cs
  | _ => []
  end.

Fixpoint lookupAttribute (name : string) (attrs : list (string * string))
  : option string :=
  match attrs with
  | [] => None
  | (k, v) :: rest => if (k =? name)%string then Some v else lookupAttribute name rest
  end.

Definition getAttribute (n : Node) (name : string) : option string :=
  match n with
  | Elem _ _ _ attrs _ => lookupAttribute name attrs
  | _ => None
  end.

Fixpoint textContent (n : Node) : string :=
  match n with
  | Elem _ _ _ _ cs =>
      String.concat ""
        (map (fun c => match c with Comment _ => "" | _ => textContent c end) cs)
  | Text d => d
  | Comment d => d
  end.

(** The elements below [n] in document order, [n] itself left out. *)
Fixpoint descendants (n : Node) : list Node :=
  match n with
  | Elem _ _ _ _ cs =>
      flat_map (fun c => match c with
                         | Elem _ _ _ _ _ => c :: descendants c
                         | _ => []
                         end) cs
  | _ => []
  end.

Definition isNamed (namespace tag : string) (n : Node) : bool :=
  match namespaceURI n with
  | Some ns => (ns =? namespace)%string && (localName n =? tag)%string
  | None => false
  end.

Definition getElementsByTagNameNS (parent : Element) (namespace tag : string)
  : list Element :=
  filter (isNamed namespace tag) (descendants parent).

Record Document := { documentElement : option Element }.

(** [Document.getElementsByTagName]: the elements of the document, its root
    included, with that qualified name. *)
Definition getElementsByTagName (doc : Document) (qualifiedName : string)
  : list Element :=
  match documentElement doc with
  | Some root =>
      filter (fun e => (tagName e =? qualifiedName)%string) (root :: descendants root)
  | None => []
  end.

(** What [DOMParser.parseFromString(xml, "text/xml")] does with a text:
    it returns a document with a root element ([WellFormed], the tree of a
    well-formed text; which other texts a parser still reads as a tree is
    up to the parser), it throws ([FatalError]), it returns a document
    without a root element ([NoRootElement]), or, in a browser, it returns
    a document that holds a [parsererror] element with its report
    ([ErrorDocument]). *)
Inductive ParseOutcome : Type :=
| WellFormed (root : Element)
| FatalError (message : string)
| NoRootElement
| ErrorDocument (report : string).

Definition parsererrorElement (report : string) : Element :=
  Elem (Some "http://www.mozilla.org/newlayout/xml/parsererror.xml") None
       "parsererror" [] [Text report].

Definition documentOf (o : ParseOutcome) : JS.Completion Document :=
  match o with
  | WellFormed root => JS.Normal {| documentElement := Some root |}
  | FatalError message => JS.Throw message
  | NoRootElement => JS.Normal {| documentElement := None |}
  | ErrorDocument report =>
      JS.Normal {| documentElement := Some (parsererrorElement report) |}
  end.

End Dom.

(** ** [types.ts] *)

Module UblAddress.
Record t := mk {
  street : string;
  additionalStreet : option string;
  city : string;
  postalZone : string;
  countrySubentity : option string;
  countryCode : string }.
End UblAddress.

Module UblContact.
Record t := mk {
  name : option string;
  phone : option string;
  email : option string }.
End UblContact.

Module UblParty.
Record t := mk {
  name : string;
  registrationName : option string;
  companyLegalForm : option string;
  vatId : option string;
  taxSchemeId : option string;
  companyId : option string;
  endpointId : option string;
  endpointSchemeId : option string;
  address : option UblAddress.t;
  contact : option UblContact.t }.
End UblParty.

Module UblAllowanceCharge.
Record t := mk {
  chargeIndicator : bool;
  amount : JS.Number;
  baseAmount : option JS.Number;
  multiplierFactorNumeric : option JS.Number;
  reason : option string;
  reasonCode : option string;
  taxPercent : option JS.Number;
  taxCategoryId : option string;
  taxSchemeId : option string }.
End UblAllowanceCharge.

Module UblTaxSubtotal.
Record t := mk {
  taxableAmount : JS.Number;
  taxAmount : JS.Number;
  taxPercent : JS.Number;
  taxCategoryId : option string;
  taxSchemeId : option string;
  taxExemptionReason : option string }.
End UblTaxSubtotal.

Module UblLine.
Record t := mk {
  id : string;
  description : string;
  quantity : JS.Number;
  unitCode : string;
  unitPrice : JS.Number;
  lineExtensionAmount : JS.Number;
  taxPercent : option JS.Number;
  taxAmount : option JS.Number;
  taxCategoryId : option string;
  taxSchemeId : option string;
  taxSubtotals : option (list UblTaxSubtotal.t);
  allowanceCharges : option (list UblAllowanceCharge.t);
  discountAmount : option JS.Number;
  chargeAmount : option JS.Number;
  itemName : option string;
  sellersItemId : option string;
  buyersItemId : option string }.
End UblLine.

Module UblMonetaryTotal.
Record t := mk {
  lineExtensionAmount : JS.Number;
  taxExclusiveAmount : JS.Number;
  taxInclusiveAmount : JS.Number;
  allowanceTotalAmount : option JS.Number;
  chargeTotalAmount : option JS.Number;
  prepaidAmount : option JS.Number;
  payableRoundingAmount : option JS.Number;
  payableAmount : JS.Number }.
End UblMonetaryTotal.

Module UblPaymentMeans.
Record t := mk {
  code : string;
  codeName : option string;
  paymentId : option string;
  iban : option string;
  bic : option string;
  accountName : option string }.
End UblPaymentMeans.

Module UblInvoicePeriod.
Record t := mk {
  startDate : option string;
  endDate : option string;
  descriptionCode : option string }.
End UblInvoicePeriod.

Module UblAttachment.
Record t := mk {
  id : string;
  filename : option string;
  mimeCode : option string;
  description : option string;
  base64Content : string }.
End UblAttachment.

Module UblDelivery.
Record t := mk {
  actualDeliveryDate : option string;
  address : option UblAddress.t }.
End UblDelivery.

Inductive DocumentType := Invoice | CreditNote.

(** [UblInvoice], with the type of its [attachments] property left open:
    the parser fills it with an optional list of attachments, the raw echo
    of the normalizer with the sanitized list. *)
Module UblInvoice.
Record shape (Attachments : Type) := mk {
  documentType : DocumentType;
  customizationId : option string;
  profileId : option string;
  id : string;
  invoiceTypeCode : option string;
  issueDate : string;
  dueDate : option string;
  taxPointDate : option string;
  currency : string;
  buyerReference : option string;
  orderReference : option string;
  salesOrderId : option string;
  contractReference : option string;
  projectReference : option string;
  seller : UblParty.t;
  buyer : UblParty.t;
  delivery : option UblDelivery.t;
  lines : list UblLine.t;
  taxSubtotals : list UblTaxSubtotal.t;
  monetaryTotal : UblMonetaryTotal.t;
  paymentMeans : option UblPaymentMeans.t;
  paymentMeansList : option (list UblPaymentMeans.t);
  invoicePeriod : option UblInvoicePeriod.t;
  note : option string;
  paymentTermsNote : option string;
  attachments : Attachments;
  allowanceCharges : option (list UblAllowanceCharge.t) }.
Arguments mk {Attachments}.
Arguments documentType {Attachments}.
Arguments customizationId {Attachments}.
Arguments profileId {Attachments}.
Arguments id {Attachments}.
Arguments invoiceTypeCode {Attachments}.
Arguments issueDate {Attachments}.
Arguments dueDate {Attachments}.
Arguments taxPointDate {Attachments}.
Arguments currency {Attachments}.
Arguments buyerReference {Attachments}.
Arguments orderReference {Attachments}.
Arguments salesOrderId {Attachments}.
Arguments contractReference {Attachments}.
Arguments projectReference {Attachments}.
Arguments seller {Attachments}.
Arguments buyer {Attachments}.
Arguments delivery {Attachments}.
Arguments lines {Attachments}.
Arguments taxSubtotals {Attachments}.
Arguments monetaryTotal {Attachments}.
Arguments paymentMeans {Attachments}.
Arguments paymentMeansList {Attachments}.
Arguments invoicePeriod {Attachments}.
Arguments note {Attachments}.
Arguments paymentTermsNote {Attachments}.
Arguments attachments {Attachments}.
Arguments allowanceCharges {Attachments}.
Definition t := shape (option (list UblAttachment.t)).
End UblInvoice.

(** ** [parser.ts] *)

Module Parser.
Import Dom.

Definition CBC_NS : string :=
  "urn:oasis:names:specification:ubl:schema:xsd:CommonBasicComponents-2".
Definition CAC_NS : string :=
  "urn:oasis:names:specification:ubl:schema:xsd:CommonAggregateComponents-2".

(** *** DOM helpers *)

(** [el?.textContent?.trim() ?? ""] *)
Definition trimmedTextOf (el : option Element) : string :=
  match el with
  | Some e => JS.trim (textContent e)
  | None => ""
  end.

Definition cbcText (parent : Element) (tag : string) : string :=
  let el := hd_error (getElementsByTagNameNS parent CBC_NS tag) in
  trimmedTextOf el.

Definition cacElement (parent : Element) (tag : string) : option Element :=
  hd_error (getElementsByTagNameNS parent CAC_NS tag).

Definition cacElements (parent : Element) (tag : string) : list Element :=
  getElementsByTagNameNS parent CAC_NS tag.

Definition cbcNumber (parent : Element) (tag : string) : JS.Number :=
  let n := JS.parseFloat (cbcText parent tag) in
  if JS.Number_isNaN n then 0%float else n.

(** The loop of [childElementsByTagNs] over the child nodes that are left,
    [elements] being the array built so far. *)
Fixpoint childElementsLoop (namespace tag : string) (nodes : list Node)
  (elements : list Element) : list Element :=
  match nodes with
  | [] => elements
  | node :: rest =>
      if negb (nodeType node =? 1)
      then childElementsLoop namespace tag rest elements
      else
        let element := node in
        if match namespaceURI element with
           | Some ns => (ns =? namespace)%string
           | None => false
           end && (localName element =? tag)%string
        then childElementsLoop namespace tag rest (elements ++ [element])
        else childElementsLoop namespace tag rest elements
  end.

Definition childElementsByTagNs (parent : Element) (namespace tag : string)
  : list Element :=
  childElementsLoop namespace tag (childNodes parent) [].

Definition cbcDirectText (parent : Element) (tag : string) : string :=
  let el := hd_error (childElementsByTagNs parent CBC_NS tag) in
  trimmedTextOf el.

Definition cbcDirectNumber (parent : Element) (tag : string) : option JS.Number :=
  let value := cbcDirectText parent tag in
  if negb (JS.nonEmpty value) then None
  else
    let parsed := JS.parseFloat value in
    if JS.Number_isNaN parsed then None else Some parsed.

Definition cacDirectElement (parent : Element) (tag : string) : option Element :=
  hd_error (childElementsByTagNs parent CAC_NS tag).

Definition cacDirectElements (parent : Element) (tag : string) : list Element :=
  childElementsByTagNs parent CAC_NS tag.

(** [el?.getAttribute(name) || undefined] *)
Definition attributeOrUndefined (el : option Element) (name : string)
  : option string :=
  match el with
  | Some e =>
      match getAttribute e name with
      | Some v => JS.orUndefined v
      | None => None
      end
  | None => None
  end.

(** *** Section parsers *)

Definition parseAddressFromElement (address : option Element)
  : option UblAddress.t :=
  match address with
  | None => None
  | Some address =>
      let country := cacElement address "Country" in
      Some {|
        UblAddress.street := cbcText address "StreetName";
        UblAddress.additionalStreet :=
          JS.orUndefined (cbcText address "AdditionalStreetName");
        UblAddress.city := cbcText address "CityName";
        UblAddress.postalZone := cbcText address "PostalZone";
        UblAddress.countrySubentity :=
          JS.orUndefined (cbcText address "CountrySubentity");
        UblAddress.countryCode :=
          match country with
          | Some country => cbcText country "IdentificationCode"
          | None => ""
          end |}
  end.

Definition parseAddress (party : Element) : option UblAddress.t :=
  let postal := cacElement party "PostalAddress" in
  parseAddressFromElement postal.

Definition parseTaxSchemeId (parent : option Element) : option string :=
  match parent with
  | None => None
  | Some parent =>
      match cacElement parent "TaxScheme" with
      | None => None
      | Some taxScheme => JS.orUndefined (cbcText taxScheme "ID")
      end
  end.

Definition parseContact (party : Element) : option UblContact.t :=
  match cacElement party "Contact" with
  | None => None
  | Some contact =>
      let name := cbcText contact "Name" in
      let phone := cbcText contact "Telephone" in
      let email := cbcText contact "ElectronicMail" in
      if negb (JS.nonEmpty name) && negb (JS.nonEmpty phone) && negb (JS.nonEmpty email)
      then None
      else Some {|
        UblContact.name := JS.orUndefined name;
        UblContact.phone := JS.orUndefined phone;
        UblContact.email := JS.orUndefined email |}
  end.

Definition unknownParty : UblParty.t :=
  {| UblParty.name := "Unknown";
     UblParty.registrationName := None;
     UblParty.companyLegalForm := None;
     UblParty.vatId := None;
     UblParty.taxSchemeId := None;
     UblParty.companyId := None;
     UblParty.endpointId := None;
     UblParty.endpointSchemeId := None;
     UblParty.address := None;
     UblParty.contact := None |}.

Definition parseParty (root : Element) (role : string) : UblParty.t :=
  let wrapper := cacElement root role in
  let party :=
    match wrapper with
    | Some wrapper => cacElement wrapper "Party"
    | None => None
    end in
  match party with
  | None => unknownParty
  | Some party =>
      let partyName := cacElement party "PartyName" in
      let legalEntity := cacElement party "PartyLegalEntity" in
      let taxScheme := cacElement party "PartyTaxScheme" in
      let partyId := cacElement party "PartyIdentification" in
      let endpointEl := hd_error (getElementsByTagNameNS party CBC_NS "EndpointID") in
      {| UblParty.name :=
           match partyName with
           | Some partyName => cbcText partyName "Name"
           | None => ""
           end;
         UblParty.registrationName :=
           match legalEntity with
           | Some legalEntity => JS.orUndefined (cbcText legalEntity "RegistrationName")
           | None => None
           end;
         UblParty.companyLegalForm :=
           match legalEntity with
           | Some legalEntity => JS.orUndefined (cbcText legalEntity "CompanyLegalForm")
           | None => None
           end;
         UblParty.vatId :=
           match taxScheme with
           | Some taxScheme => JS.orUndefined (cbcText taxScheme "CompanyID")
           | None => None
           end;
         UblParty.taxSchemeId := parseTaxSchemeId taxScheme;
         UblParty.companyId :=
           match legalEntity with
           | Some legalEntity => JS.orUndefined (cbcText legalEntity "CompanyID")
           | None =>
               match partyId with
               | Some partyId => JS.orUndefined (cbcText partyId "ID")
               | None => None
               end
           end;
         UblParty.endpointId :=
           match endpointEl with
           | Some el => JS.orUndefined (JS.trim (textContent el))
           | None => None
           end;
         UblParty.endpointSchemeId := attributeOrUndefined endpointEl "schemeID";
         UblParty.address := parseAddress party;
         UblParty.contact := parseContact party |}
  end.

Definition parseTaxSubtotal (sub : Element) : UblTaxSubtotal.t :=
  let cat := cacElement sub "TaxCategory" in
  {| UblTaxSubtotal.taxableAmount := cbcNumber sub "TaxableAmount";
     UblTaxSubtotal.taxAmount := cbcNumber sub "TaxAmount";
     UblTaxSubtotal.taxPercent :=
       match cat with
       | Some cat => cbcNumber cat "Percent"
       | None => 0%float
       end;
     UblTaxSubtotal.taxCategoryId :=
       match cat with
       | Some cat => JS.orUndefined (cbcText cat "ID")
       | None => None
       end;
     UblTaxSubtotal.taxSchemeId := parseTaxSchemeId cat;
     UblTaxSubtotal.taxExemptionReason :=
       match cat with
       | Some cat => JS.orUndefined (cbcText cat "TaxExemptionReason")
       | None => None
       end |}.

Definition parseTaxSubtotalsFromTaxTotal (taxTotal : Element)
  : list UblTaxSubtotal.t :=
  map parseTaxSubtotal (cacDirectElements taxTotal "TaxSubtotal").

Definition parseTaxSubtotals (root : Element) : list UblTaxSubtotal.t :=
  let taxTotals := cacDirectElements root "TaxTotal" in
  if (List.length taxTotals =? 0)%nat then []
  else flat_map parseTaxSubtotalsFromTaxTotal taxTotals.

Definition parseAllowanceCharge (charge : Element) : UblAllowanceCharge.t :=
  let taxCategory := cacElement charge "TaxCategory" in
  let indicatorRaw := JS.toLowerCase (cbcDirectText charge "ChargeIndicator") in
  let chargeIndicator :=
    (indicatorRaw =? "true")%string || (indicatorRaw =? "1")%string in
  {| UblAllowanceCharge.chargeIndicator := chargeIndicator;
     UblAllowanceCharge.amount := cbcNumber charge "Amount";
     UblAllowanceCharge.baseAmount := cbcDirectNumber charge "BaseAmount";
     UblAllowanceCharge.multiplierFactorNumeric :=
       cbcDirectNumber charge "MultiplierFactorNumeric";
     UblAllowanceCharge.reason :=
       JS.orUndefined (cbcText charge "AllowanceChargeReason");
     UblAllowanceCharge.reasonCode :=
       JS.orUndefined (cbcText charge "AllowanceChargeReasonCode");
     UblAllowanceCharge.taxPercent :=
       match taxCategory with
       | Some taxCategory => Some (cbcNumber taxCategory "Percent")
       | None => None
       end;
     UblAllowanceCharge.taxCategoryId :=
       match taxCategory with
       | Some taxCategory => JS.orUndefined (cbcText taxCategory "ID")
       | None => None
       end;
     UblAllowanceCharge.taxSchemeId := parseTaxSchemeId taxCategory |}.

Definition parseAllowanceCharges (parent : Element) : list UblAllowanceCharge.t :=
  map parseAllowanceCharge (cacDirectElements parent "AllowanceCharge").

(** [list.length > 0 ? list : undefined] *)
Definition nonEmptyList {A : Type} (l : list A) : option (list A) :=
  if (0 <? List.length l)%nat then Some l else None.

(** [amount > 0 ? amount : undefined] *)
Definition positiveOrUndefined (amount : JS.Number) : option JS.Number :=
  if JS.gt amount 0%float then Some amount else None.

(** The arrow function that [parseLines] maps over the line elements. *)
Definition parseLine (qtyTag : string) (line : Element) : UblLine.t :=
  let item := cacElement line "Item" in
  let price := cacElement line "Price" in
  let taxCategory :=
    match item with
    | Some item => cacElement item "ClassifiedTaxCategory"
    | None => None
    end in
  let sellersId :=
    match item with
    | Some item => cacElement item "SellersItemIdentification"
    | None => None
    end in
  let buyersId :=
    match item with
    | Some item => cacElement item "BuyersItemIdentification"
    | None => None
    end in
  let qtyEl := hd_error (getElementsByTagNameNS line CBC_NS qtyTag) in
  let lineExtensionAmount := cbcNumber line "LineExtensionAmount" in
  let lineTaxTotal := cacDirectElement line "TaxTotal" in
  let lineTaxSubtotals :=
    match lineTaxTotal with
    | Some lineTaxTotal => parseTaxSubtotalsFromTaxTotal lineTaxTotal
    | None => []
    end in
  let taxAmountFromSubtotals :=
    fold_left (fun sum subtotal => (sum + UblTaxSubtotal.taxAmount subtotal)%float)
              lineTaxSubtotals 0%float in
  let taxAmountFromLineTotal :=
    match lineTaxTotal with
    | Some lineTaxTotal => cbcDirectNumber lineTaxTotal "TaxAmount"
    | None => None
    end in
  let taxPercent :=
    JS.nullish
      (option_map UblTaxSubtotal.taxPercent (hd_error lineTaxSubtotals))
      (match taxCategory with
       | Some taxCategory => Some (cbcNumber taxCategory "Percent")
       | None => None
       end) in
  let computedTaxAmount :=
    match taxPercent with
    | Some taxPercent =>
        Some (JS.Number_toFixed ((lineExtensionAmount * taxPercent) / 100)%float 2)
    | None => None
    end in
  let allowanceCharges := parseAllowanceCharges line in
  let discountAmount :=
    fold_left (fun sum charge =>
                 if UblAllowanceCharge.chargeIndicator charge then sum
                 else (sum + JS.Math_abs (UblAllowanceCharge.amount charge))%float)
              allowanceCharges 0%float in
  let chargeAmount :=
    fold_left (fun sum charge =>
                 if UblAllowanceCharge.chargeIndicator charge
                 then (sum + JS.Math_abs (UblAllowanceCharge.amount charge))%float
                 else sum)
              allowanceCharges 0%float in
  {| UblLine.id := cbcText line "ID";
     UblLine.description :=
       match item with
       | Some item => cbcText item "Description"
       | None => ""
       end;
     UblLine.quantity := cbcNumber line qtyTag;
     UblLine.unitCode :=
       match qtyEl with
       | Some qtyEl => JS.nullishOr (getAttribute qtyEl "unitCode") ""
       | None => ""
       end;
     UblLine.unitPrice :=
       match price with
       | Some price => cbcNumber price "PriceAmount"
       | None => 0%float
       end;
     UblLine.lineExtensionAmount := lineExtensionAmount;
     UblLine.taxPercent := taxPercent;
     UblLine.taxAmount :=
       JS.nullish taxAmountFromLineTotal
         (if (0 <? List.length lineTaxSubtotals)%nat
          then Some taxAmountFromSubtotals
          else computedTaxAmount);
     UblLine.taxCategoryId :=
       JS.nullish
         (match hd_error lineTaxSubtotals with
          | Some first => UblTaxSubtotal.taxCategoryId first
          | None => None
          end)
         (match taxCategory with
          | Some taxCategory => JS.orUndefined (cbcText taxCategory "ID")
          | None => None
          end);
     UblLine.taxSchemeId :=
       JS.nullish
         (match hd_error lineTaxSubtotals with
          | Some first => UblTaxSubtotal.taxSchemeId first
          | None => None
          end)
         (parseTaxSchemeId taxCategory);
     UblLine.taxSubtotals := nonEmptyList lineTaxSubtotals;
     UblLine.allowanceCharges := nonEmptyList allowanceCharges;
     UblLine.discountAmount := positiveOrUndefined discountAmount;
     UblLine.chargeAmount := positiveOrUndefined chargeAmount;
     UblLine.itemName :=
       match item with
       | Some item => JS.orUndefined (cbcText item "Name")
       | None => None
       end;
     UblLine.sellersItemId :=
       match sellersId with
       | Some sellersId => JS.orUndefined (cbcText sellersId "ID")
       | None => None
       end;
     UblLine.buyersItemId :=
       match buyersId with
       | Some buyersId => JS.orUndefined (cbcText buyersId "ID")
       | None => None
       end |}.

Definition qtyTagOf (isCreditNote : bool) : string :=
  if isCreditNote then "CreditedQuantity" else "InvoicedQuantity".

Definition lineTagOf (isCreditNote : bool) : string :=
  if isCreditNote then "CreditNoteLine" else "InvoiceLine".

Definition parseLines (root : Element) (isCreditNote : bool) : list UblLine.t :=
  let qtyTag := qtyTagOf isCreditNote in
  let lineTag := lineTagOf isCreditNote in
  map (parseLine qtyTag) (cacElements root lineTag).

Definition parseMonetaryTotal (root : Element) : UblMonetaryTotal.t :=
  match cacDirectElement root "LegalMonetaryTotal" with
  | None =>
      {| UblMonetaryTotal.lineExtensionAmount := 0%float;
         UblMonetaryTotal.taxExclusiveAmount := 0%float;
         UblMonetaryTotal.taxInclusiveAmount := 0%float;
         UblMonetaryTotal.allowanceTotalAmount := None;
         UblMonetaryTotal.chargeTotalAmount := None;
         UblMonetaryTotal.prepaidAmount := None;
         UblMonetaryTotal.payableRoundingAmount := None;
         UblMonetaryTotal.payableAmount := 0%float |}
  | Some total =>
      {| UblMonetaryTotal.lineExtensionAmount := cbcNumber total "LineExtensionAmount";
         UblMonetaryTotal.taxExclusiveAmount := cbcNumber total "TaxExclusiveAmount";
         UblMonetaryTotal.taxInclusiveAmount := cbcNumber total "TaxInclusiveAmount";
         UblMonetaryTotal.allowanceTotalAmount :=
           JS.numberOrUndefined (cbcNumber total "AllowanceTotalAmount");
         UblMonetaryTotal.chargeTotalAmount :=
           JS.numberOrUndefined (cbcNumber total "ChargeTotalAmount");
         UblMonetaryTotal.prepaidAmount :=
           JS.numberOrUndefined (cbcNumber total "PrepaidAmount");
         UblMonetaryTotal.payableRoundingAmount :=
           JS.numberOrUndefined (cbcNumber total "PayableRoundingAmount");
         UblMonetaryTotal.payableAmount := cbcNumber total "PayableAmount" |}
  end.

Definition parsePaymentMeansElement (pm : Element) : UblPaymentMeans.t :=
  let account := cacElement pm "PayeeFinancialAccount" in
  let branch :=
    match account with
    | Some account => cacElement account "FinancialInstitutionBranch"
    | None => None
    end in
  let paymentMeansCodeEl :=
    hd_error (getElementsByTagNameNS pm CBC_NS "PaymentMeansCode") in
  {| UblPaymentMeans.code := cbcText pm "PaymentMeansCode";
     UblPaymentMeans.codeName := attributeOrUndefined paymentMeansCodeEl "name";
     UblPaymentMeans.paymentId := JS.orUndefined (cbcText pm "PaymentID");
     UblPaymentMeans.iban :=
       match account with
       | Some account => JS.orUndefined (cbcText account "ID")
       | None => None
       end;
     UblPaymentMeans.bic :=
       match branch with
       | Some branch => JS.orUndefined (cbcText branch "ID")
       | None => None
       end;
     UblPaymentMeans.accountName :=
       match account with
       | Some account => JS.orUndefined (cbcText account "Name")
       | None => None
       end |}.

Definition parsePaymentMeansList (root : Element)
  : option (list UblPaymentMeans.t) :=
  let list := map parsePaymentMeansElement (cacElements root "PaymentMeans") in
  nonEmptyList list.

Definition parseInvoicePeriod (root : Element) : option UblInvoicePeriod.t :=
  match cacElement root "InvoicePeriod" with
  | None => None
  | Some period =>
      let start := cbcText period "StartDate" in
      let end_ := cbcText period "EndDate" in
      if negb (JS.nonEmpty start) && negb (JS.nonEmpty end_) then None
      else Some {|
        UblInvoicePeriod.startDate := JS.orUndefined start;
        UblInvoicePeriod.endDate := JS.orUndefined end_;
        UblInvoicePeriod.descriptionCode :=
          JS.orUndefined (cbcText period "DescriptionCode") |}
  end.

Definition parseDelivery (root : Element) : option UblDelivery.t :=
  match cacElement root "Delivery" with
  | None => None
  | Some delivery =>
      let actualDeliveryDate :=
        JS.orUndefined (cbcText delivery "ActualDeliveryDate") in
      let deliveryLocation := cacElement delivery "DeliveryLocation" in
      let address :=
        parseAddressFromElement
          match deliveryLocation with
          | Some deliveryLocation => cacElement deliveryLocation "Address"
          | None => None
          end in
      match actualDeliveryDate, address with
      | None, None => None
      | _, _ => Some {|
          UblDelivery.actualDeliveryDate := actualDeliveryDate;
          UblDelivery.address := address |}
      end
  end.

Definition parsePaymentTermsNote (root : Element) : option string :=
  match cacElement root "PaymentTerms" with
  | None => None
  | Some paymentTerms =>
      let note := cbcText paymentTerms "Note" in
      JS.orUndefined note
  end.

(** The loop of [parseNotes] over the elements that pass its parent test. *)
Fixpoint parseNotesLoop (noteEls : list Element) (notes : list string)
  : list string :=
  match noteEls with
  | [] => notes
  | el :: rest =>
      let text := JS.trim (textContent el) in
      if JS.nonEmpty text then parseNotesLoop rest (notes ++ [text])
      else parseNotesLoop rest notes
  end.

(** The tree has no parent pointers: of the [Note] elements below [root],
    those whose [parentNode] is [root] are its child nodes of that name, in
    the same order. *)
Definition parseNotes (root : Element) : option string :=
  let notes := parseNotesLoop (filter (isNamed CBC_NS "Note") (childNodes root)) [] in
  if (0 <? List.length notes)%nat then Some (JS.join JS.newline notes) else None.

(** The loop of [parseAttachments] over the references that are left. *)
Fixpoint parseAttachmentsLoop (refs : list Element)
  (attachments : list UblAttachment.t) : list UblAttachment.t :=
  match refs with
  | [] => attachments
  | ref :: rest =>
      match cacElement ref "Attachment" with
      | None => parseAttachmentsLoop rest attachments
      | Some attachment =>
          match hd_error (getElementsByTagNameNS attachment CBC_NS
                            "EmbeddedDocumentBinaryObject") with
          | None => parseAttachmentsLoop rest attachments
          | Some binaryEl =>
              let content := JS.trim (textContent binaryEl) in
              if negb (JS.nonEmpty content)
              then parseAttachmentsLoop rest attachments
              else parseAttachmentsLoop rest
                     (attachments ++
                      [{| UblAttachment.id := cbcText ref "ID";
                          UblAttachment.filename :=
                            attributeOrUndefined (Some binaryEl) "filename";
                          UblAttachment.mimeCode :=
                            attributeOrUndefined (Some binaryEl) "mimeCode";
                          UblAttachment.description :=
                            JS.orUndefined (cbcText ref "DocumentDescription");
                          UblAttachment.base64Content := content |}])
          end
      end
  end.

Definition parseAttachments (root : Element) : option (list UblAttachment.t) :=
  let refs := cacElements root "AdditionalDocumentReference" in
  let attachments := parseAttachmentsLoop refs [] in
  nonEmptyList attachments.

(** *** Main parser *)

Definition documentTypeOf (localName : string) : option DocumentType :=
  if (localName =? "Invoice")%string then Some Invoice
  else if (localName =? "CreditNote")%string then Some CreditNote
  else None.

Section MainParser.

(** [DOMParser.prototype.parseFromString] of the host, with the MIME type
    "text/xml". *)
Variable parseFromString : string -> ParseOutcome.

(** The block under [try]. *)
Definition parseUblInvoice_try (xml : string) : JS.Completion (option UblInvoice.t) :=
  doc <- documentOf (parseFromString xml) ;;
  if (0 <? List.length (getElementsByTagName doc "parsererror"))%nat
  then JS.Normal None
  else
    root <- JS.deref (documentElement doc) ;;
    let localName := Dom.localName root in
    match documentTypeOf localName with
    | None => JS.Normal None
    | Some documentType =>
        let isCreditNote :=
          match documentType with
          | CreditNote => true
          | Invoice => false
          end in
        let id := cbcText root "ID" in
        if negb (JS.nonEmpty id) then JS.Normal None
        else
          let paymentMeansList := parsePaymentMeansList root in
          let orderReference := cacElement root "OrderReference" in
          let contractReference := cacElement root "ContractDocumentReference" in
          let projectReference := cacElement root "ProjectReference" in
          JS.Normal (Some {|
            UblInvoice.documentType := documentType;
            UblInvoice.customizationId := JS.orUndefined (cbcText root "CustomizationID");
            UblInvoice.profileId := JS.orUndefined (cbcText root "ProfileID");
            UblInvoice.id := id;
            UblInvoice.invoiceTypeCode := JS.orUndefined (cbcText root "InvoiceTypeCode");
            UblInvoice.issueDate := cbcText root "IssueDate";
            UblInvoice.dueDate := JS.orUndefined (cbcText root "DueDate");
            UblInvoice.taxPointDate := JS.orUndefined (cbcText root "TaxPointDate");
            UblInvoice.currency := cbcText root "DocumentCurrencyCode";
            UblInvoice.buyerReference := JS.orUndefined (cbcText root "BuyerReference");
            UblInvoice.orderReference :=
              match orderReference with
              | Some orderReference => Some (cbcText orderReference "ID")
              | None => None
              end;
            UblInvoice.salesOrderId :=
              match orderReference with
              | Some orderReference => JS.orUndefined (cbcText orderReference "SalesOrderID")
              | None => None
              end;
            UblInvoice.contractReference :=
              match contractReference with
              | Some contractReference => Some (cbcText contractReference "ID")
              | None => None
              end;
            UblInvoice.projectReference :=
              match projectReference with
              | Some projectReference => Some (cbcText projectReference "ID")
              | None => None
              end;
            UblInvoice.seller := parseParty root "AccountingSupplierParty";
            UblInvoice.buyer := parseParty root "AccountingCustomerParty";
            UblInvoice.delivery := parseDelivery root;
            UblInvoice.lines := parseLines root isCreditNote;
            UblInvoice.taxSubtotals := parseTaxSubtotals root;
            UblInvoice.monetaryTotal := parseMonetaryTotal root;
            UblInvoice.paymentMeansList := paymentMeansList;
            UblInvoice.paymentMeans :=
              match paymentMeansList with
              | Some list => hd_error list
              | None => None
              end;
            UblInvoice.invoicePeriod := parseInvoicePeriod root;
            UblInvoice.note := parseNotes root;
            UblInvoice.paymentTermsNote := parsePaymentTermsNote root;
            UblInvoice.attachments := parseAttachments root;
            UblInvoice.allowanceCharges := Some (parseAllowanceCharges root) |})
    end.

(** [try { ... } catch { return null; }] *)
Definition parseUblInvoice (xml : string) : JS.Completion (option UblInvoice.t) :=
  JS.tryCatch (parseUblInvoice_try xml) (fun _ => JS.Normal None).

End MainParser.

End Parser.

(** ** The normalized DTO of [types.ts] and the results of [normalize.ts]

    The open [extra] maps are records of the keys [normalizeUblResponse]
    writes. *)

Module SanitizedAttachment.
(** Lengths and byte counts are integers far below 2^53, where the Number
    arithmetic of the source is exact; they are kept in [Z]. *)
Record t := mk {
  id : option string;
  filename : option string;
  mime_code : option string;
  description : option string;
  size_bytes : Z }.
End SanitizedAttachment.

Module SanitizedAllowanceCharge.
Record t := mk {
  charge_indicator : bool;
  amount : option JS.Number;
  base_amount : option JS.Number;
  multiplier_factor_numeric : option JS.Number;
  reason : option string;
  reason_code : option string;
  tax_percent : option JS.Number;
  tax_category_id : option string;
  tax_scheme_id : option string }.
End SanitizedAllowanceCharge.

Module StructuredAddress.
Record t := mk {
  line1 : option string;
  line2 : option string;
  city : option string;
  state : option string;
  postal_code : option string;
  country : option string }.
End StructuredAddress.

Module PaymentMeansDto.
Record t := mk {
  code : option string;
  code_name : option string;
  payment_id : option string;
  iban : option string;
  bic : option string;
  account_name : option string }.
End PaymentMeansDto.

Module DeliveryDto.
Record t := mk {
  actual_delivery_date : option string;
  address : option StructuredAddress.t }.
End DeliveryDto.

Module PartyExtra.
Record t := mk {
  endpoint_id : option string;
  endpoint_scheme_id : option string;
  registration_name : option string;
  company_legal_form : option string;
  tax_scheme_id : option string;
  contact_name : option string;
  contact_phone : option string;
  contact_email : option string }.
End PartyExtra.

Module InvoiceExtra.
Record t := mk {
  document_type : DocumentType;
  customization_id : option string;
  profile_id : option string;
  invoice_type_code : option string;
  buyer_reference : option string;
  order_reference_id : option string;
  sales_order_id : option string;
  contract_reference : option string;
  project_reference : option string;
  tax_point_date : option string;
  invoice_period : option UblInvoicePeriod.t;
  note : option string;
  payment_means : option PaymentMeansDto.t;
  payment_means_list : list PaymentMeansDto.t;
  delivery : option DeliveryDto.t;
  supplier : PartyExtra.t;
  receiver : PartyExtra.t;
  supplier_address_structured : option StructuredAddress.t;
  receiver_address_structured : option StructuredAddress.t;
  tax_subtotals : list UblTaxSubtotal.t;
  allowance_charges : list SanitizedAllowanceCharge.t;
  attachments : list SanitizedAttachment.t }.
End InvoiceExtra.

Module SupplierDto.
Record t := mk {
  name : option string;
  address : option string;
  tax_id : option string;
  iban : option string;
  bic : option string }.
End SupplierDto.

Module ReceiverDto.
Record t := mk {
  name : option string;
  address : option string;
  tax_id : option string }.
End ReceiverDto.

Module InvoiceDto.
Record t := mk {
  invoice_number : option string;
  invoice_date : option string;
  due_date : option string;
  currency : option string;
  subtotal : option JS.Number;
  tax_total : option JS.Number;
  total : option JS.Number;
  amount_due : option JS.Number;
  amount_paid : option JS.Number;
  discount_total : option JS.Number;
  shipping_total : option JS.Number;
  payment_terms : option string;
  po_number : option string;
  supplier : SupplierDto.t;
  receiver : ReceiverDto.t;
  extra : InvoiceExtra.t }.
End InvoiceDto.

Module LineExtra.
Record t := mk {
  ubl_line_id : option string;
  item_name : option string;
  sellers_item_id : option string;
  buyers_item_id : option string;
  tax_category_id : option string;
  tax_scheme_id : option string;
  tax_subtotals : list UblTaxSubtotal.t;
  allowance_charges : list SanitizedAllowanceCharge.t;
  charge_amount : option JS.Number }.
End LineExtra.

Module LineItem.
Record t := mk {
  description : string;
  quantity : option JS.Number;
  unit : option string;
  unit_price : option JS.Number;
  amount : option JS.Number;
  tax_amount : option JS.Number;
  tax_rate : option JS.Number;
  product_code : option string;
  discount_amount : option JS.Number;
  extra : LineExtra.t }.
End LineItem.

Module Confidence.
Record t := mk {
  overall : option JS.Number;
  fields : list (string * JS.Number) }.
End Confidence.

Module InvoiceExtractionDTO.
Record t := mk {
  provider : string;
  document_id : string;
  invoice : InvoiceDto.t;
  line_items : list LineItem.t;
  confidence : Confidence.t }.
End InvoiceExtractionDTO.

Module RawPayload.
Record t := mk {
  format : string;
  invoice : UblInvoice.shape (list SanitizedAttachment.t) }.
End RawPayload.

Module NormalizeResult.
Record t := mk {
  extracted : InvoiceExtractionDTO.t;
  rawPayload : RawPayload.t }.
End NormalizeResult.

(** ** [normalize.ts] *)

Module Normalize.

(** *** Utility helpers *)

Definition normalizeText (value : option string) : option string :=
  match value with
  | None => None
  | Some value =>
      if negb (JS.nonEmpty value) then None
      else
        let trimmed := JS.trim value in
        if negb (JS.nonEmpty trimmed) then None
        else
          let upper := JS.toUpperCase trimmed in
          if (upper =? "NA")%string || (upper =? "N/A")%string then None
          else Some trimmed
  end.

Definition toNumberOrNull (value : option JS.Number) : option JS.Number :=
  if JS.Number_isFinite (JS.nullishOr value PrimFloat.nan) then value else None.

Definition normalizeCurrency (value : option string) : option string :=
  match value with
  | None => None
  | Some value =>
      if negb (JS.nonEmpty value) then None
      else
        let trimmed := JS.trim value in
        if negb (JS.nonEmpty trimmed) then None
        else Some (JS.toUpperCase trimmed)
  end.

Section Dates.

(** [Date.parse], whose reading of a text that is not in the ISO format is
    left to the host, and [new Date(timestamp).toISOString()]. *)
Variable Date_parse : string -> JS.Number.
Variable Date_toISOString : JS.Number -> string.

Definition parseDate (value : option string) : option string :=
  match value with
  | None => None
  | Some value =>
      if negb (JS.nonEmpty value) then None
      else
        let trimmed := JS.trim value in
        if negb (JS.nonEmpty trimmed) then None
        else
          let timestamp := Date_parse trimmed in
          if JS.Number_isNaN timestamp then None
          else
            let iso := Date_toISOString timestamp in
            Some (JS.sliceTo 10 iso)
  end.

End Dates.

(** *** Address helpers *)

(** [parts.filter((part) => part && part.trim().length > 0)] *)
Fixpoint filledParts (parts : list (option string)) : list string :=
  match parts with
  | [] => []
  | Some part :: rest =>
      if JS.nonEmpty part && (0 <? String.length (JS.trim part))%nat
      then part :: filledParts rest
      else filledParts rest
  | None :: rest => filledParts rest
  end.

Definition addressToString (address : option UblAddress.t) : option string :=
  match address with
  | None => None
  | Some address =>
      let street :=
        JS.join " " (filledParts [Some (UblAddress.street address);
                                  UblAddress.additionalStreet address]) in
      let cityLine :=
        JS.join " " (filledParts [Some (UblAddress.postalZone address);
                                  Some (UblAddress.city address)]) in
      let countryLine :=
        JS.join " " (filledParts [UblAddress.countrySubentity address;
                                  Some (UblAddress.countryCode address)]) in
      let lines :=
        filter (fun line => (0 <? String.length line)%nat)
               [street; cityLine; countryLine] in
      if (0 <? List.length lines)%nat then Some (JS.join JS.newline lines) else None
  end.

(** A text or null in a condition. *)
Definition truthyText (value : option string) : bool :=
  match value with
  | Some s => JS.nonEmpty s
  | None => false
  end.

Definition addressToStructured (address : option UblAddress.t)
  : option StructuredAddress.t :=
  match address with
  | None => None
  | Some address =>
      let line1 :=
        JS.join " " (filledParts [Some (UblAddress.street address);
                                  UblAddress.additionalStreet address]) in
      let result :=
        {| StructuredAddress.line1 := normalizeText (Some line1);
           StructuredAddress.line2 := None;
           StructuredAddress.city := normalizeText (Some (UblAddress.city address));
           StructuredAddress.state := normalizeText (UblAddress.countrySubentity address);
           StructuredAddress.postal_code :=
             normalizeText (Some (UblAddress.postalZone address));
           StructuredAddress.country :=
             normalizeText (Some (UblAddress.countryCode address)) |} in
      let hasValue :=
        existsb truthyText
          [StructuredAddress.line1 result; StructuredAddress.line2 result;
           StructuredAddress.city result; StructuredAddress.state result;
           StructuredAddress.postal_code result; StructuredAddress.country result] in
      if hasValue then Some result else None
  end.

(** *** Attachment and charge sanitizers *)

Definition base64ByteLength (content : string) : Z :=
  let sanitized := JS.removeWhiteSpace content in
  if negb (JS.nonEmpty sanitized) then 0
  else
    let paddingLength :=
      if JS.endsWith sanitized "==" then 2
      else if JS.endsWith sanitized "=" then 1
      else 0 in
    (Z.of_nat (String.length sanitized) * 3) / 4 - paddingLength.

Definition sanitizeAttachment (attachment : UblAttachment.t) : SanitizedAttachment.t :=
  {| SanitizedAttachment.id := normalizeText (Some (UblAttachment.id attachment));
     SanitizedAttachment.filename := normalizeText (UblAttachment.filename attachment);
     SanitizedAttachment.mime_code := normalizeText (UblAttachment.mimeCode attachment);
     SanitizedAttachment.description :=
       normalizeText (UblAttachment.description attachment);
     SanitizedAttachment.size_bytes :=
       base64ByteLength (UblAttachment.base64Content attachment) |}.

Definition sanitizeAttachments (attachments : option (list UblAttachment.t))
  : list SanitizedAttachment.t :=
  map sanitizeAttachment (JS.nullishOr attachments []).

Definition sanitizeAllowanceCharge (charge : UblAllowanceCharge.t)
  : SanitizedAllowanceCharge.t :=
  {| SanitizedAllowanceCharge.charge_indicator :=
       UblAllowanceCharge.chargeIndicator charge;
     SanitizedAllowanceCharge.amount :=
       toNumberOrNull (Some (UblAllowanceCharge.amount charge));
     SanitizedAllowanceCharge.base_amount :=
       toNumberOrNull (UblAllowanceCharge.baseAmount charge);
     SanitizedAllowanceCharge.multiplier_factor_numeric :=
       toNumberOrNull (UblAllowanceCharge.multiplierFactorNumeric charge);
     SanitizedAllowanceCharge.reason := normalizeText (UblAllowanceCharge.reason charge);
     SanitizedAllowanceCharge.reason_code :=
       normalizeText (UblAllowanceCharge.reasonCode charge);
     SanitizedAllowanceCharge.tax_percent :=
       toNumberOrNull (UblAllowanceCharge.taxPercent charge);
     SanitizedAllowanceCharge.tax_category_id :=
       normalizeText (UblAllowanceCharge.taxCategoryId charge);
     SanitizedAllowanceCharge.tax_scheme_id :=
       normalizeText (UblAllowanceCharge.taxSchemeId charge) |}.

Definition sanitizeAllowanceCharges (charges : option (list UblAllowanceCharge.t))
  : list SanitizedAllowanceCharge.t :=
  map sanitizeAllowanceCharge (JS.nullishOr charges []).

(** [{ ...ubl, attachments: sanitizeAttachments(ubl.attachments) }] *)
Definition sanitizeRawUbl (ubl : UblInvoice.t)
  : UblInvoice.shape (list SanitizedAttachment.t) :=
  {| UblInvoice.documentType := UblInvoice.documentType ubl;
     UblInvoice.customizationId := UblInvoice.customizationId ubl;
     UblInvoice.profileId := UblInvoice.profileId ubl;
     UblInvoice.id := UblInvoice.id ubl;
     UblInvoice.invoiceTypeCode := UblInvoice.invoiceTypeCode ubl;
     UblInvoice.issueDate := UblInvoice.issueDate ubl;
     UblInvoice.dueDate := UblInvoice.dueDate ubl;
     UblInvoice.taxPointDate := UblInvoice.taxPointDate ubl;
     UblInvoice.currency := UblInvoice.currency ubl;
     UblInvoice.buyerReference := UblInvoice.buyerReference ubl;
     UblInvoice.orderReference := UblInvoice.orderReference ubl;
     UblInvoice.salesOrderId := UblInvoice.salesOrderId ubl;
     UblInvoice.contractReference := UblInvoice.contractReference ubl;
     UblInvoice.projectReference := UblInvoice.projectReference ubl;
     UblInvoice.seller := UblInvoice.seller ubl;
     UblInvoice.buyer := UblInvoice.buyer ubl;
     UblInvoice.delivery := UblInvoice.delivery ubl;
     UblInvoice.lines := UblInvoice.lines ubl;
     UblInvoice.taxSubtotals := UblInvoice.taxSubtotals ubl;
     UblInvoice.monetaryTotal := UblInvoice.monetaryTotal ubl;
     UblInvoice.paymentMeans := UblInvoice.paymentMeans ubl;
     UblInvoice.paymentMeansList := UblInvoice.paymentMeansList ubl;
     UblInvoice.invoicePeriod := UblInvoice.invoicePeriod ubl;
     UblInvoice.note := UblInvoice.note ubl;
     UblInvoice.paymentTermsNote := UblInvoice.paymentTermsNote ubl;
     UblInvoice.attachments := sanitizeAttachments (UblInvoice.attachments ubl);
     UblInvoice.allowanceCharges := UblInvoice.allowanceCharges ubl |}.

(** *** Summation helpers *)

Definition sumTaxTotal (ubl : UblInvoice.t) : JS.Number :=
  let subtotalSum :=
    fold_left (fun sum subtotal => (sum + UblTaxSubtotal.taxAmount subtotal)%float)
              (UblInvoice.taxSubtotals ubl) 0%float in
  if (0 <? List.length (UblInvoice.taxSubtotals ubl))%nat
     && JS.Number_isFinite subtotalSum
  then subtotalSum
  else (UblMonetaryTotal.taxInclusiveAmount (UblInvoice.monetaryTotal ubl)
        - UblMonetaryTotal.taxExclusiveAmount (UblInvoice.monetaryTotal ubl))%float.

Definition sumAllowanceChargesByType (charges : option (list UblAllowanceCharge.t))
  (chargeIndicator : bool) : JS.Number :=
  fold_left (fun sum charge =>
               if negb (Bool.eqb (UblAllowanceCharge.chargeIndicator charge) chargeIndicator)
               then sum
               else (sum + JS.Math_abs (UblAllowanceCharge.amount charge))%float)
            (JS.nullishOr charges []) 0%float.

(** *** Public API *)

Definition paymentMeansDto (item : UblPaymentMeans.t) : PaymentMeansDto.t :=
  {| PaymentMeansDto.code := normalizeText (Some (UblPaymentMeans.code item));
     PaymentMeansDto.code_name := normalizeText (UblPaymentMeans.codeName item);
     PaymentMeansDto.payment_id := normalizeText (UblPaymentMeans.paymentId item);
     PaymentMeansDto.iban := normalizeText (UblPaymentMeans.iban item);
     PaymentMeansDto.bic := normalizeText (UblPaymentMeans.bic item);
     PaymentMeansDto.account_name := normalizeText (UblPaymentMeans.accountName item) |}.

(** [party.contact?.field] *)
Definition contactField (party : UblParty.t) (field : UblContact.t -> option string)
  : option string :=
  match UblParty.contact party with
  | Some contact => field contact
  | None => None
  end.

Definition partyExtra (party : UblParty.t) : PartyExtra.t :=
  {| PartyExtra.endpoint_id := normalizeText (UblParty.endpointId party);
     PartyExtra.endpoint_scheme_id := normalizeText (UblParty.endpointSchemeId party);
     PartyExtra.registration_name := normalizeText (UblParty.registrationName party);
     PartyExtra.company_legal_form := normalizeText (UblParty.companyLegalForm party);
     PartyExtra.tax_scheme_id := normalizeText (UblParty.taxSchemeId party);
     PartyExtra.contact_name := normalizeText (contactField party UblContact.name);
     PartyExtra.contact_phone := normalizeText (contactField party UblContact.phone);
     PartyExtra.contact_email := normalizeText (contactField party UblContact.email) |}.

(** The arrow function that [normalizeUblResponse] maps over [ubl.lines]. *)
Definition lineItem (line : UblLine.t) : LineItem.t :=
  {| LineItem.description :=
       JS.nullishOr
         (JS.nullish (normalizeText (Some (UblLine.description line)))
                     (normalizeText (UblLine.itemName line)))
         "Line item";
     LineItem.quantity := toNumberOrNull (Some (UblLine.quantity line));
     LineItem.unit := normalizeText (Some (UblLine.unitCode line));
     LineItem.unit_price := toNumberOrNull (Some (UblLine.unitPrice line));
     LineItem.amount := toNumberOrNull (Some (UblLine.lineExtensionAmount line));
     LineItem.tax_amount := toNumberOrNull (UblLine.taxAmount line);
     LineItem.tax_rate := toNumberOrNull (UblLine.taxPercent line);
     LineItem.product_code :=
       JS.nullish (normalizeText (UblLine.sellersItemId line))
                  (normalizeText (UblLine.buyersItemId line));
     LineItem.discount_amount := toNumberOrNull (UblLine.discountAmount line);
     LineItem.extra :=
       {| LineExtra.ubl_line_id := normalizeText (Some (UblLine.id line));
          LineExtra.item_name := normalizeText (UblLine.itemName line);
          LineExtra.sellers_item_id := normalizeText (UblLine.sellersItemId line);
          LineExtra.buyers_item_id := normalizeText (UblLine.buyersItemId line);
          LineExtra.tax_category_id := normalizeText (UblLine.taxCategoryId line);
          LineExtra.tax_scheme_id := normalizeText (UblLine.taxSchemeId line);
          LineExtra.tax_subtotals := JS.nullishOr (UblLine.taxSubtotals line) [];
          LineExtra.allowance_charges :=
            sanitizeAllowanceCharges (UblLine.allowanceCharges line);
          LineExtra.charge_amount := toNumberOrNull (UblLine.chargeAmount line) |} |}.

Section PublicApi.

Variable parseFromString : string -> Dom.ParseOutcome.
Variable Date_parse : string -> JS.Number.
Variable Date_toISOString : JS.Number -> string.

Let parseDate := parseDate Date_parse Date_toISOString.

(** The statements of [normalizeUblResponse] below its guard, [ubl] being
    the parsed document. *)
Definition normalizeParsed (ubl : UblInvoice.t) (documentId : string)
  : NormalizeResult.t :=
  let monetaryTotal := UblInvoice.monetaryTotal ubl in
  let subtotal :=
    JS.nullish
      (toNumberOrNull (Some (UblMonetaryTotal.taxExclusiveAmount monetaryTotal)))
      (toNumberOrNull (Some (UblMonetaryTotal.lineExtensionAmount monetaryTotal))) in
  let total :=
    JS.nullish
      (toNumberOrNull (Some (UblMonetaryTotal.taxInclusiveAmount monetaryTotal)))
      (toNumberOrNull (Some (UblMonetaryTotal.payableAmount monetaryTotal))) in
  let amountDue := toNumberOrNull (Some (UblMonetaryTotal.payableAmount monetaryTotal)) in
  let prepaidAmount := toNumberOrNull (UblMonetaryTotal.prepaidAmount monetaryTotal) in
  let amountPaid :=
    JS.nullish prepaidAmount
      match total, amountDue with
      | Some total, Some amountDue =>
          if JS.gt total amountDue
          then toNumberOrNull (Some (total - amountDue)%float)
          else None
      | _, _ => None
      end in
  let taxTotal := toNumberOrNull (Some (sumTaxTotal ubl)) in
  let hasHeaderAllowanceCharges :=
    (0 <? JS.nullishOr (option_map (@List.length _) (UblInvoice.allowanceCharges ubl)) 0%nat)%nat in
  let headerDiscountTotal :=
    sumAllowanceChargesByType (UblInvoice.allowanceCharges ubl) false in
  let headerChargeTotal :=
    sumAllowanceChargesByType (UblInvoice.allowanceCharges ubl) true in
  let currency := normalizeCurrency (Some (UblInvoice.currency ubl)) in
  let paymentTerms := normalizeText (UblInvoice.paymentTermsNote ubl) in
  let poNumber :=
    JS.nullish (normalizeText (UblInvoice.orderReference ubl))
               (normalizeText (UblInvoice.salesOrderId ubl)) in
  let lineItems := map lineItem (UblInvoice.lines ubl) in
  let seller := UblInvoice.seller ubl in
  let buyer := UblInvoice.buyer ubl in
  let supplierAddress := addressToString (UblParty.address seller) in
  let receiverAddress := addressToString (UblParty.address buyer) in
  let supplierAddressStructured := addressToStructured (UblParty.address seller) in
  let receiverAddressStructured := addressToStructured (UblParty.address buyer) in
  let attachmentMetadata := sanitizeAttachments (UblInvoice.attachments ubl) in
  let paymentMeansList :=
    match UblInvoice.paymentMeansList ubl with
    | Some list =>
        if (0 <? List.length list)%nat then list
        else match UblInvoice.paymentMeans ubl with
             | Some paymentMeans => [paymentMeans]
             | None => []
             end
    | None =>
        match UblInvoice.paymentMeans ubl with
        | Some paymentMeans => [paymentMeans]
        | None => []
        end
    end in
  let paymentMeansField (field : UblPaymentMeans.t -> option string) :=
    match UblInvoice.paymentMeans ubl with
    | Some paymentMeans => field paymentMeans
    | None => None
    end in
  let extracted :=
    {| InvoiceExtractionDTO.provider := "ubl_xml";
       InvoiceExtractionDTO.document_id := documentId;
       InvoiceExtractionDTO.invoice :=
         {| InvoiceDto.invoice_number := normalizeText (Some (UblInvoice.id ubl));
            InvoiceDto.invoice_date := parseDate (Some (UblInvoice.issueDate ubl));
            InvoiceDto.due_date := parseDate (UblInvoice.dueDate ubl);
            InvoiceDto.currency := currency;
            InvoiceDto.subtotal := subtotal;
            InvoiceDto.tax_total := taxTotal;
            InvoiceDto.total := total;
            InvoiceDto.amount_due := amountDue;
            InvoiceDto.amount_paid := amountPaid;
            InvoiceDto.discount_total :=
              JS.nullish
                (toNumberOrNull (UblMonetaryTotal.allowanceTotalAmount monetaryTotal))
                (if hasHeaderAllowanceCharges
                 then toNumberOrNull (Some headerDiscountTotal)
                 else None);
            InvoiceDto.shipping_total :=
              JS.nullish
                (toNumberOrNull (UblMonetaryTotal.chargeTotalAmount monetaryTotal))
                (if hasHeaderAllowanceCharges
                 then toNumberOrNull (Some headerChargeTotal)
                 else None);
            InvoiceDto.payment_terms := paymentTerms;
            InvoiceDto.po_number := poNumber;
            InvoiceDto.supplier :=
              {| SupplierDto.name :=
                   JS.nullish (normalizeText (Some (UblParty.name seller)))
                              (normalizeText (UblParty.registrationName seller));
                 SupplierDto.address := supplierAddress;
                 SupplierDto.tax_id :=
                   JS.nullish (normalizeText (UblParty.vatId seller))
                              (normalizeText (UblParty.companyId seller));
                 SupplierDto.iban := normalizeText (paymentMeansField UblPaymentMeans.iban);
                 SupplierDto.bic := normalizeText (paymentMeansField UblPaymentMeans.bic) |};
            InvoiceDto.receiver :=
              {| ReceiverDto.name :=
                   JS.nullish (normalizeText (Some (UblParty.name buyer)))
                              (normalizeText (UblParty.registrationName buyer));
                 ReceiverDto.address := receiverAddress;
                 ReceiverDto.tax_id :=
                   JS.nullish (normalizeText (UblParty.vatId buyer))
                              (normalizeText (UblParty.companyId buyer)) |};
            InvoiceDto.extra :=
              {| InvoiceExtra.document_type := UblInvoice.documentType ubl;
                 InvoiceExtra.customization_id :=
                   normalizeText (UblInvoice.customizationId ubl);
                 InvoiceExtra.profile_id := normalizeText (UblInvoice.profileId ubl);
                 InvoiceExtra.invoice_type_code :=
                   normalizeText (UblInvoice.invoiceTypeCode ubl);
                 InvoiceExtra.buyer_reference :=
                   normalizeText (UblInvoice.buyerReference ubl);
                 InvoiceExtra.order_reference_id :=
                   normalizeText (UblInvoice.orderReference ubl);
                 InvoiceExtra.sales_order_id := normalizeText (UblInvoice.salesOrderId ubl);
                 InvoiceExtra.contract_reference :=
                   normalizeText (UblInvoice.contractReference ubl);
                 InvoiceExtra.project_reference :=
                   normalizeText (UblInvoice.projectReference ubl);
                 InvoiceExtra.tax_point_date := parseDate (UblInvoice.taxPointDate ubl);
                 InvoiceExtra.invoice_period := UblInvoice.invoicePeriod ubl;
                 InvoiceExtra.note := normalizeText (UblInvoice.note ubl);
                 InvoiceExtra.payment_means :=
                   option_map paymentMeansDto (UblInvoice.paymentMeans ubl);
                 InvoiceExtra.payment_means_list := map paymentMeansDto paymentMeansList;
                 InvoiceExtra.delivery :=
                   match UblInvoice.delivery ubl with
                   | Some delivery =>
                       Some {| DeliveryDto.actual_delivery_date :=
                                 parseDate (UblDelivery.actualDeliveryDate delivery);
                               DeliveryDto.address :=
                                 addressToStructured (UblDelivery.address delivery) |}
                   | None => None
                   end;
                 InvoiceExtra.supplier := partyExtra seller;
                 InvoiceExtra.receiver := partyExtra buyer;
                 InvoiceExtra.supplier_address_structured := supplierAddressStructured;
                 InvoiceExtra.receiver_address_structured := receiverAddressStructured;
                 InvoiceExtra.tax_subtotals := UblInvoice.taxSubtotals ubl;
                 InvoiceExtra.allowance_charges :=
                   sanitizeAllowanceCharges (UblInvoice.allowanceCharges ubl);
                 InvoiceExtra.attachments := attachmentMetadata |} |};
       InvoiceExtractionDTO.line_items := lineItems;
       InvoiceExtractionDTO.confidence :=
         {| Confidence.overall := Some 1%float;
            Confidence.fields :=
              [("invoice_id", 1%float); ("invoice_date", 1%float);
               ("due_date", 1%float); ("total_amount", 1%float);
               ("supplier_name", 1%float)] |} |} in
  {| NormalizeResult.extracted := extracted;
     NormalizeResult.rawPayload :=
       {| RawPayload.format := "ubl_xml";
          RawPayload.invoice := sanitizeRawUbl ubl |} |}.

Definition normalizeUblResponse (xml : string) (documentId : string)
  : JS.Completion NormalizeResult.t :=
  ubl <- Parser.parseUblInvoice parseFromString xml ;;
  match ubl with
  | None => JS.Throw "Failed to parse UBL invoice XML"
  | Some ubl => JS.Normal (normalizeParsed ubl documentId)
  end.

End PublicApi.

End Normalize.

(** ** Sample documents *)

Module Fixture.
Import Dom.

Definition INVOICE_NS : string :=
  "urn:oasis:names:specification:ubl:schema:xsd:Invoice-2".

Definition cbc (tag text : string) : Node :=
  Elem (Some Parser.CBC_NS) (Some "cbc") tag [] [Text text].

Definition cbcWith (tag : string) (attrs : list (string * string)) (text : string)
  : Node :=
  Elem (Some Parser.CBC_NS) (Some "cbc") tag attrs [Text text].

Definition cac (tag : string) (children : list Node) : Node :=
  Elem (Some Parser.CAC_NS) (Some "cac") tag [] children.

Definition invoice (children : list Node) : Node :=
  Elem (Some INVOICE_NS) None "Invoice" [] children.

Definition monetaryTotal (exclusive inclusive : string) (more : list Node) : Node :=
  cac "LegalMonetaryTotal"
    ([cbc "LineExtensionAmount" exclusive;
      cbc "TaxExclusiveAmount" exclusive;
      cbc "TaxInclusiveAmount" inclusive] ++ more ++
     [cbc "PayableAmount" inclusive]).

(** An invoice line of 100 at 21 percent; [taxTotal] is what the line
    carries as its own TaxTotal children. *)
Definition line (taxTotal : list Node) : Node :=
  cac "InvoiceLine"
    ([cbc "ID" "1";
      cbcWith "InvoicedQuantity" [("unitCode", "C62")] "2";
      cbc "LineExtensionAmount" "100.00"] ++ taxTotal ++
     [cac "Item"
        [cbc "Description" "Consulting services";
         cbc "Name" "Consulting";
         cac "ClassifiedTaxCategory"
           [cbc "ID" "S"; cbc "Percent" "21";
            cac "TaxScheme" [cbc "ID" "VAT"]]];
      cac "Price" [cbc "PriceAmount" "50.00"]]).

Definition taxSubtotal (taxable amount percent : string) : Node :=
  cac "TaxSubtotal"
    [cbc "TaxableAmount" taxable;
     cbc "TaxAmount" amount;
     cac "TaxCategory" [cbc "ID" "S"; cbc "Percent" percent]].

Definition allowanceCharge (indicator amount : string) : Node :=
  cac "AllowanceCharge"
    [cbc "ChargeIndicator" indicator;
     cbc "AllowanceChargeReason" "Discount";
     cbc "Amount" amount].

(** Scenario A of the specification: one line, no tax subtotal,
    tax-exclusive 100 and tax-inclusive 121. *)
Definition minimalInvoice : Node :=
  invoice
    [cbc "ID" "INV-1";
     cbc "IssueDate" "2026-02-25";
     cbc "DocumentCurrencyCode" "EUR";
     monetaryTotal "100.00" "121.00" [];
     line []].

(** A line whose own TaxTotal states 5.00 although 21 percent of its 100
    is 21. *)
Definition explicitTaxLine : Node :=
  line [cac "TaxTotal" [cbc "TaxAmount" "5.00"]].

(** A line whose TaxTotal has two subtotals and no amount of its own. *)
Definition subtotalsLine : Node :=
  line [cac "TaxTotal" [taxSubtotal "60" "12.60" "21"; taxSubtotal "40" "2.40" "6"]].

(** A header TaxTotal with two subtotals, a second one with one, and a
    line that carries a TaxTotal of its own. *)
Definition taxedInvoice : Node :=
  invoice
    [cbc "ID" "INV-2";
     cac "TaxTotal"
       [cbc "TaxAmount" "15.00";
        taxSubtotal "60" "12.60" "21"; taxSubtotal "40" "2.40" "6"];
     cac "TaxTotal" [taxSubtotal "10" "1.00" "10"];
     monetaryTotal "110.00" "126.00" [];
     line [cac "TaxTotal" [taxSubtotal "100" "21.00" "21"]]].

(** A well-formed invoice with an ID that carries an element named
    [parsererror]. *)
Definition parsererrorInvoice : Node :=
  invoice
    [cbc "ID" "INV-3";
     Elem (Some INVOICE_NS) None "parsererror" [] [Text "none"];
     monetaryTotal "100.00" "121.00" []].

(** No header tax subtotal and a tax-inclusive amount beyond the range of
    the Number type. *)
Definition overflowInvoice : Node :=
  invoice
    [cbc "ID" "INV-4";
     monetaryTotal "100.00" "1e999" []].

(** A header allowance whose amount is beyond the range of the Number
    type, and no AllowanceTotalAmount. *)
Definition overflowAllowanceInvoice : Node :=
  invoice
    [cbc "ID" "INV-5";
     allowanceCharge "false" "1e999";
     monetaryTotal "100.00" "121.00" []].

(** Header allowance of 10 and charge of 4; the totals are stated as 0. *)
Definition zeroTotalsInvoice : Node :=
  invoice
    [cbc "ID" "INV-6";
     allowanceCharge "false" "10.00";
     allowanceCharge "true" "4.00";
     monetaryTotal "100.00" "121.00"
       [cbc "AllowanceTotalAmount" "0.00";
        cbc "ChargeTotalAmount" "0";
        cbc "PrepaidAmount" "0.0";
        cbc "PayableRoundingAmount" "-0"]].

(** The same document without the four elements. *)
Definition missingTotalsInvoice : Node :=
  invoice
    [cbc "ID" "INV-6";
     allowanceCharge "false" "10.00";
     allowanceCharge "true" "4.00";
     monetaryTotal "100.00" "121.00" []].

Definition attachmentInvoice : Node :=
  invoice
    [cbc "ID" "INV-7";
     cac "AdditionalDocumentReference"
       [cbc "ID" "ATT-1";
        cac "Attachment"
          [cbcWith "EmbeddedDocumentBinaryObject"
             [("mimeCode", "application/pdf"); ("filename", "invoice.pdf")]
             "SGVsbG8="]];
     monetaryTotal "100.00" "121.00" []].

Definition helloAttachment : UblAttachment.t :=
  {| UblAttachment.id := "ATT-1";
     UblAttachment.filename := Some "invoice.pdf";
     UblAttachment.mimeCode := Some "application/pdf";
     UblAttachment.description := None;
     UblAttachment.base64Content := "SGVsbG8=" |}.

(** A line of 100 whose item has a tax category without a Percent, and
    which has no TaxTotal. *)
Definition noPercentLine : Node :=
  cac "InvoiceLine"
    [cbc "ID" "1";
     cbc "LineExtensionAmount" "100.00";
     cac "Item"
       [cbc "Name" "Consulting";
        cac "ClassifiedTaxCategory" [cbc "ID" "E"]]].

(** A line of 100 at 21 percent with two TaxTotal children: the first is
    empty, the second states 5.00. *)
Definition secondTaxTotalLine : Node :=
  line [cac "TaxTotal" []; cac "TaxTotal" [cbc "TaxAmount" "5.00"]].

(** A line of 100 at 21 percent with two TaxTotal children: the first is
    empty, the second has a subtotal of 7.00. *)
Definition secondSubtotalLine : Node :=
  line [cac "TaxTotal" []; cac "TaxTotal" [taxSubtotal "100" "7.00" "7"]].

(** A line of 10.25 at 21 percent, 2.1525 before the rounding, and no
    TaxTotal. *)
Definition fractionLine : Node :=
  cac "InvoiceLine"
    [cbc "LineExtensionAmount" "10.25";
     cac "Item" [cac "ClassifiedTaxCategory" [cbc "Percent" "21"]]].

(** An invoice whose root has no ID child; the only ID of the document is
    the identification of the supplier. *)
Definition nestedIdInvoice : Node :=
  invoice
    [cbc "IssueDate" "2026-02-25";
     cac "AccountingSupplierParty"
       [cac "Party" [cac "PartyIdentification" [cbc "ID" "SUP-7"]]];
     monetaryTotal "100.00" "121.00" []].

Definition secretPayload : string := "U0VDUkVUIFBBWUxPQUQ=".

(** A document reference whose DocumentDescription holds the Attachment
    element. *)
Definition describedAttachmentInvoice : Node :=
  invoice
    [cbc "ID" "INV-9";
     cac "AdditionalDocumentReference"
       [cbc "ID" "ATT-2";
        Elem (Some Parser.CBC_NS) (Some "cbc") "DocumentDescription" []
          [cac "Attachment"
             [cbcWith "EmbeddedDocumentBinaryObject"
                [("mimeCode", "text/plain"); ("filename", "secret.txt")]
                secretPayload]]];
     monetaryTotal "100.00" "121.00" []].

(** Currency, city of the supplier and start of the invoice period are
    given as N/A. *)
Definition notAvailableInvoice : Node :=
  invoice
    [cbc "ID" "INV-10";
     cbc "DocumentCurrencyCode" " n/a ";
     cac "InvoicePeriod" [cbc "StartDate" "N/A"];
     cac "AccountingSupplierParty"
       [cac "Party"
          [cac "PartyName" [cbc "Name" "NA"];
           cac "PostalAddress" [cbc "CityName" "N/A"]]];
     monetaryTotal "100.00" "121.00" []].

(** A total of 1e308 and an amount due of -1e308: their difference is
    beyond the range of the Number type. *)
Definition overflowDifferenceInvoice : Node :=
  invoice
    [cbc "ID" "INV-13";
     cac "LegalMonetaryTotal"
       [cbc "LineExtensionAmount" "100.00";
        cbc "TaxExclusiveAmount" "100.00";
        cbc "TaxInclusiveAmount" "1e308";
        cbc "PayableAmount" "-1e308"]].

Definition paymentMeans (code iban bic : string) : Node :=
  cac "PaymentMeans"
    [cbc "PaymentMeansCode" code;
     cac "PayeeFinancialAccount"
       [cbc "ID" iban;
        cac "FinancialInstitutionBranch" [cbc "ID" bic]]].

(** Two means of payment, a credit transfer before a SEPA transfer. *)
Definition twoPaymentMeansInvoice : Node :=
  invoice
    [cbc "ID" "INV-11";
     paymentMeans "30" "BE68539007547034" "GKCCBEBB";
     paymentMeans "58" "NL91ABNA0417164300" "ABNANL2A";
     monetaryTotal "100.00" "121.00" []].

(** A line whose item has a name and a description given as N/A. *)
Definition namedLine : Node :=
  cac "InvoiceLine"
    [cbc "ID" "1";
     cbc "LineExtensionAmount" "100.00";
     cac "Item" [cbc "Description" " N/A "; cbc "Name" " Consulting "]].

(** The text of a tree: every element declares its own namespace, and
    the sample documents have no character that needs escaping. *)
Fixpoint serialize (n : Node) : string :=
  match n with
  | Elem ns p l attrs cs =>
      let name := tagName n in
      let xmlns :=
        match ns, p with
        | Some uri, Some p => " xmlns:" ++ p ++ "='" ++ uri ++ "'"
        | Some uri, None => " xmlns='" ++ uri ++ "'"
        | None, _ => ""
        end in
      "<" ++ name ++ xmlns
      ++ String.concat "" (map (fun a => " " ++ fst a ++ "='" ++ snd a ++ "'") attrs)
      ++ ">" ++ String.concat "" (map serialize cs) ++ "</" ++ name ++ ">"
  | Text d => d
  | Comment d => "<!--" ++ d ++ "-->"
  end.

Definition documents : list Node :=
  [minimalInvoice; taxedInvoice; parsererrorInvoice; overflowInvoice;
   overflowAllowanceInvoice; zeroTotalsInvoice; missingTotalsInvoice;
   attachmentInvoice; nestedIdInvoice; describedAttachmentInvoice;
   notAvailableInvoice; twoPaymentMeansInvoice; overflowDifferenceInvoice].

(** A host parser on the texts used below: the tree of each sample
    document for its text, a browser's error document for the mismatched
    ["<a><b></a>"], no root element for the empty text, and a thrown error
    for every other text, such as the unfinished ["<bad"]. *)
Definition parseFromString (xml : string) : ParseOutcome :=
  match find (fun document => (xml =? serialize document)%string) documents with
  | Some document => WellFormed document
  | None =>
      if (xml =? "<a><b></a>")%string then ErrorDocument "mismatched tag"
      else if (xml =? "")%string then NoRootElement
      else FatalError "ParseError"
  end.

(** A host whose [Date.parse] reads no text as a date; the dates of the DTO
    play no part in the samples. *)
Definition Date_parse (text : string) : JS.Number := PrimFloat.nan.
Definition Date_toISOString (timestamp : JS.Number) : string := "".

Definition parseUblInvoice := Parser.parseUblInvoice parseFromString.
Definition normalizeUblResponse :=
  Normalize.normalizeUblResponse parseFromString Date_parse Date_toISOString.

(** The document model of a sample document. *)
Definition parsed (document : Node) : option UblInvoice.t :=
  match parseUblInvoice (serialize document) with
  | JS.Normal (Some ubl) => Some ubl
  | _ => None
  end.

End Fixture.

(** ** The properties in the words of the specification *)

Module Spec.
Import Dom.

(** The child elements of [parent] with a namespace and a local name, in
    document order. *)
Definition directChildren (parent : Element) (namespace tag : string)
  : list Element :=
  filter (isNamed namespace tag) (childNodes parent).

(** The trimmed text of the first child element of that name in the basic
    components namespace, empty when there is none. *)
Definition directText (parent : Element) (tag : string) : string :=
  match directChildren parent Parser.CBC_NS tag with
  | el :: _ => JS.trim (textContent el)
  | [] => ""
  end.

(** A sum of Numbers, taken from 0 in the order of the list. *)
Definition sumNumbers (amounts : list JS.Number) : JS.Number :=
  fold_left PrimFloat.add amounts 0%float.

(** *** Line tax amount *)

(** The line's own TaxTotal: its first child element of that name. *)
Definition lineTaxTotal (line : Element) : option Element :=
  hd_error (directChildren line Parser.CAC_NS "TaxTotal").

(** The number a text reads as, if it reads as one. *)
Definition numberOfText (text : string) : option JS.Number :=
  if (text =? "")%string then None
  else if PrimFloat.is_nan (JS.parseFloat text) then None
  else Some (JS.parseFloat text).

(** The explicit TaxAmount: a child of the line's own TaxTotal whose text
    reads as a number. *)
Definition explicitTaxAmount (line : Element) : option JS.Number :=
  match lineTaxTotal line with
  | Some taxTotal =>
      let text := directText taxTotal "TaxAmount" in
      if (text =? "")%string then None
      else if PrimFloat.is_nan (JS.parseFloat text) then None
      else Some (JS.parseFloat text)
  | None => None
  end.

(** The line-level tax subtotals: the TaxSubtotal children of the line's
    own TaxTotal. *)
Definition lineTaxSubtotals (line : Element) : list UblTaxSubtotal.t :=
  match lineTaxTotal line with
  | Some taxTotal =>
      map Parser.parseTaxSubtotal (directChildren taxTotal Parser.CAC_NS "TaxSubtotal")
  | None => []
  end.

(** The percent of the item's classified tax category, which is 0 when
    the category has no Percent that reads as a number. *)
Definition classifiedPercent (line : Element) : option JS.Number :=
  match Parser.cacElement line "Item" with
  | Some item =>
      match Parser.cacElement item "ClassifiedTaxCategory" with
      | Some category => Some (Parser.cbcNumber category "Percent")
      | None => None
      end
  | None => None
  end.

(** The tax percent: of the first line-level subtotal, else of the item's
    classified tax category. *)
Definition taxPercent (line : Element) : option JS.Number :=
  match lineTaxSubtotals line with
  | first :: _ => Some (UblTaxSubtotal.taxPercent first)
  | [] => classifiedPercent line
  end.

(** [n] is the integer nearest 100 * m * 2^e, the larger of the two on a
    tie: n - 1/2 <= 100 * m * 2^e < n + 1/2. *)
Definition nearestHundredth (m : positive) (e : Z) (n : Z) : Prop :=
  let numerator := 100 * Zpos m * 2 ^ Z.max 0 e in
  let denominator := 2 ^ Z.max 0 (- e) in
  (2 * n - 1) * denominator <= 2 * numerator < (2 * n + 1) * denominator.

(** That integer: the whole hundredths of 100 * m * 2^e, and one more when
    the rest is a half or above. *)
Definition hundredths (m : positive) (e : Z) : Z :=
  let numerator := 100 * Zpos m * 2 ^ Z.max 0 e in
  let denominator := 2 ^ Z.max 0 (- e) in
  let whole := numerator / denominator in
  if 2 * (numerator - whole * denominator) <? denominator then whole else whole + 1.

(** [x] rounded to two decimal places: the Number nearest n / 100 for the
    integer [n] nearest 100 * |x|, with the sign of [x]. A magnitude of
    10^21 or above is a whole number, and it, an infinity and NaN are left
    as they are; a zero gives 0. *)
Definition round2 (x : JS.Number) : JS.Number :=
  match Prim2SF x with
  | S754_finite s m e =>
      if PrimFloat.ltb (PrimFloat.abs x) 1e21%float
      then JS.numberOfDecimal s (hundredths m e) (- 2)
      else x
  | S754_zero _ => 0%float
  | _ => x
  end.

(** The resolution order of the line's tax amount, first match wins. *)
Definition resolvedTaxAmount (line : Element) : option JS.Number :=
  match explicitTaxAmount line with
  | Some amount => Some amount
  | None =>
      match lineTaxSubtotals line with
      | _ :: _ =>
          Some (sumNumbers (map UblTaxSubtotal.taxAmount (lineTaxSubtotals line)))
      | [] =>
          match taxPercent line with
          | Some percent =>
              Some (round2 (Parser.cbcNumber line "LineExtensionAmount" * percent / 100)%float)
          | None => None
          end
      end
  end.

(** The claim's own words, where they say more than the above: the
    explicit amount is a TaxAmount child of a TaxTotal child of the line,
    the subtotals are those of the line's TaxTotal children, and a percent
    comes from the Percent of the classified tax category. *)
Definition statedExplicitTaxAmount (line : Element) : option JS.Number :=
  hd_error
    (flat_map
       (fun taxTotal =>
          match numberOfText (directText taxTotal "TaxAmount") with
          | Some amount => [amount]
          | None => []
          end)
       (directChildren line Parser.CAC_NS "TaxTotal")).

Definition statedTaxSubtotals (line : Element) : list UblTaxSubtotal.t :=
  flat_map
    (fun taxTotal =>
       map Parser.parseTaxSubtotal
           (directChildren taxTotal Parser.CAC_NS "TaxSubtotal"))
    (directChildren line Parser.CAC_NS "TaxTotal").

Definition statedClassifiedPercent (line : Element) : option JS.Number :=
  match Parser.cacElement line "Item" with
  | Some item =>
      match Parser.cacElement item "ClassifiedTaxCategory" with
      | Some category =>
          match getElementsByTagNameNS category Parser.CBC_NS "Percent" with
          | percent :: _ => numberOfText (JS.trim (textContent percent))
          | [] => None
          end
      | None => None
      end
  | None => None
  end.

Definition statedTaxPercent (line : Element) : option JS.Number :=
  match statedTaxSubtotals line with
  | first :: _ => Some (UblTaxSubtotal.taxPercent first)
  | [] => statedClassifiedPercent line
  end.

Definition statedTaxAmount (line : Element) : option JS.Number :=
  match statedExplicitTaxAmount line with
  | Some amount => Some amount
  | None =>
      match statedTaxSubtotals line with
      | _ :: _ =>
          Some (sumNumbers (map UblTaxSubtotal.taxAmount (statedTaxSubtotals line)))
      | [] =>
          match statedTaxPercent line with
          | Some percent =>
              Some (round2 (Parser.cbcNumber line "LineExtensionAmount" * percent / 100)%float)
          | None => None
          end
      end
  end.

(** *** Results of the parse *)

(** The document holds an element whose qualified name is [parsererror]. *)
Definition holdsParsererror (root : Element) : bool :=
  existsb (fun e => (tagName e =? "parsererror")%string) (root :: descendants root).







(** *** Header tax subtotals *)

Definition headerTaxSubtotals (root : Element) : list UblTaxSubtotal.t :=
  List.concat
    (map (fun taxTotal =>
            map Parser.parseTaxSubtotal
                (directChildren taxTotal Parser.CAC_NS "TaxSubtotal"))
         (directChildren root Parser.CAC_NS "TaxTotal")).

(** *** Totals of the DTO *)

Definition finite (x : JS.Number) : bool :=
  negb (PrimFloat.is_nan x) && negb (PrimFloat.is_infinity x).

(** A Number of the DTO: null when it is not finite. *)
Definition numberOrNull (x : JS.Number) : option JS.Number :=
  if finite x then Some x else None.

Definition inclusiveMinusExclusive (ubl : UblInvoice.t) : JS.Number :=
  (UblMonetaryTotal.taxInclusiveAmount (UblInvoice.monetaryTotal ubl)
   - UblMonetaryTotal.taxExclusiveAmount (UblInvoice.monetaryTotal ubl))%float.

Definition headerTaxSum (ubl : UblInvoice.t) : JS.Number :=
  sumNumbers (map UblTaxSubtotal.taxAmount (UblInvoice.taxSubtotals ubl)).

(** [tax_total] as the claim states it: the sum of the header subtotals
    when there are some and the sum is finite, otherwise tax-inclusive
    minus tax-exclusive. *)
Definition statedTaxTotal (ubl : UblInvoice.t) : option JS.Number :=
  match UblInvoice.taxSubtotals ubl with
  | _ :: _ =>
      if finite (headerTaxSum ubl) then Some (headerTaxSum ubl)
      else Some (inclusiveMinusExclusive ubl)
  | [] => Some (inclusiveMinusExclusive ubl)
  end.

(** [tax_total] as amended: the difference only when it is finite. *)
Definition derivedTaxTotal (ubl : UblInvoice.t) : option JS.Number :=
  match UblInvoice.taxSubtotals ubl with
  | _ :: _ =>
      if finite (headerTaxSum ubl) then Some (headerTaxSum ubl)
      else numberOrNull (inclusiveMinusExclusive ubl)
  | [] => numberOrNull (inclusiveMinusExclusive ubl)
  end.

(** The sum of the absolute amounts of the allowance/charges with the
    indicator [indicator]. *)
Definition absoluteSum (charges : list UblAllowanceCharge.t) (indicator : bool)
  : JS.Number :=
  sumNumbers
    (map (fun charge => PrimFloat.abs (UblAllowanceCharge.amount charge))
         (filter (fun charge => Bool.eqb (UblAllowanceCharge.chargeIndicator charge) indicator)
                 charges)).

(** The header-level allowance/charges of the document. *)
Definition headerCharges (ubl : UblInvoice.t) : list UblAllowanceCharge.t :=
  match UblInvoice.allowanceCharges ubl with
  | Some charges => charges
  | None => []
  end.

(** [discount_total] ([indicator] false, [explicit] the allowance-total
    amount) and [shipping_total] ([indicator] true, [explicit] the
    charge-total amount) as the claim states them. *)
Definition statedChargeTotal (explicit : option JS.Number)
  (charges : list UblAllowanceCharge.t) (indicator : bool) : option JS.Number :=
  let fallback :=
    match charges with
    | _ :: _ => Some (absoluteSum charges indicator)
    | [] => None
    end in
  match explicit with
  | Some amount => if finite amount then Some amount else fallback
  | None => fallback
  end.

(** The fallback of the two totals as amended: the sum only when it is
    finite. *)
Definition summedCharges (charges : list UblAllowanceCharge.t) (indicator : bool)
  : option JS.Number :=
  match charges with
  | _ :: _ => numberOrNull (absoluteSum charges indicator)
  | [] => None
  end.

Definition derivedChargeTotal (explicit : option JS.Number)
  (charges : list UblAllowanceCharge.t) (indicator : bool) : option JS.Number :=
  match explicit with
  | Some amount =>
      if finite amount then Some amount else summedCharges charges indicator
  | None => summedCharges charges indicator
  end.

(** [amount_paid] without a prepaid amount: the total less the amount due
    when both are known, the total is the larger and the difference is
    finite; null otherwise. *)
Definition paidByDifference (ubl : UblInvoice.t) : option JS.Number :=
  let monetaryTotal := UblInvoice.monetaryTotal ubl in
  let total :=
    match numberOrNull (UblMonetaryTotal.taxInclusiveAmount monetaryTotal) with
    | Some total => Some total
    | None => numberOrNull (UblMonetaryTotal.payableAmount monetaryTotal)
    end in
  match total, numberOrNull (UblMonetaryTotal.payableAmount monetaryTotal) with
  | Some total, Some due =>
      if PrimFloat.ltb due total then numberOrNull (total - due)%float else None
  | _, _ => None
  end.

(** The [invoice] object of the extracted DTO. *)
Definition dtoInvoice (result : NormalizeResult.t) : InvoiceDto.t :=
  InvoiceExtractionDTO.invoice (NormalizeResult.extracted result).

(** *** Zero amounts of the monetary total *)

(** The monetary total carries an explicit value of 0 for [tag], or has no
    such element. *)
Definition zeroOrMissing (total : Element) (tag : string) : Prop :=
  PrimFloat.is_zero (JS.parseFloat (Parser.cbcText total tag)) = true
  \/ getElementsByTagNameNS total Parser.CBC_NS tag = [].

(** *** Attachments *)

Definition withoutWhiteSpace (content : string) : string :=
  string_of_list_ascii
    (filter (fun c => negb (JS.isWhiteSpace c)) (list_ascii_of_string content)).

(** 2 when the text ends with two [=], 1 when it ends with a single [=],
    0 otherwise. *)
Definition padding (text : string) : Z :=
  match rev (list_ascii_of_string text) with
  | "="%char :: "="%char :: _ => 2
  | "="%char :: _ => 1
  | _ => 0
  end.

Definition decodedLength (content : string) : Z :=
  let text := withoutWhiteSpace content in
  (Z.of_nat (String.length text) * 3) / 4 - padding text.

(** The attachment [attachment] with another payload. *)
Definition withPayload (attachment : UblAttachment.t) (content : string)
  : UblAttachment.t :=
  {| UblAttachment.id := UblAttachment.id attachment;
     UblAttachment.filename := UblAttachment.filename attachment;
     UblAttachment.mimeCode := UblAttachment.mimeCode attachment;
     UblAttachment.description := UblAttachment.description attachment;
     UblAttachment.base64Content := content |}.

(** *** Charge indicator *)

Definition oneOf (lower upper c : ascii) : bool :=
  (c =? lower)%char || (c =? upper)%char.

(** The text is the word [true] in small or capital letters. *)
Definition spellsTrue (text : string) : bool :=
  match text with
  | String c1 (String c2 (String c3 (String c4 EmptyString))) =>
      oneOf "t" "T" c1 && oneOf "r" "R" c2 && oneOf "u" "U" c3 && oneOf "e" "E" c4
  | _ => false
  end.

(** The text says true: it spells [true], or it is [1]. *)
Definition saysTrue (text : string) : bool :=
  spellsTrue text || (text =? "1")%string.

(** *** Text normalization *)

Definition sameLetter (a b : ascii) : bool :=
  (a =? b)%char || (JS.lowerChar a =? JS.lowerChar b)%char.

(** Equality of two texts that disregards the case of the letters. *)
Fixpoint equalsIgnoreCase (s t : string) : bool :=
  match s, t with
  | EmptyString, EmptyString => true
  | String a s', String b t' => sameLetter a b && equalsIgnoreCase s' t'
  | _, _ => false
  end.

Definition normalizedText (value : option string) : option string :=
  match value with
  | None => None
  | Some text =>
      let trimmed := JS.trim text in
      if (trimmed =? "")%string
         || equalsIgnoreCase trimmed "NA" || equalsIgnoreCase trimmed "N/A"
      then None
      else Some trimmed
  end.

End Spec.

(** ** Properties of the document model and of the DTO *)

Module Props.
Import Dom.

(** A Number that is not NaN. *)
Definition isNumber (x : JS.Number) : Prop := PrimFloat.is_nan x = false.

(** An optional Number that is absent, or neither NaN nor zero: what
    [x || undefined] leaves. *)
Definition absentOrNonZero (v : option JS.Number) : Prop :=
  match v with
  | Some x => PrimFloat.is_nan x = false /\ PrimFloat.is_zero x = false
  | None => True
  end.

(** An optional Number that is absent or not NaN. *)
Definition absentOrNumber (v : option JS.Number) : Prop :=
  match v with
  | Some x => isNumber x
  | None => True
  end.

(** A Number of the DTO: null or finite. *)
Definition nullOrFinite (v : option JS.Number) : Prop :=
  match v with
  | Some x => Spec.finite x = true
  | None => True
  end.

(** An optional text that is absent or not empty. *)
Definition absentOrFilled (v : option string) : Prop :=
  match v with
  | Some s => s <> ""
  | None => True
  end.

(** A text without white space at its ends. *)
Definition trimmed (s : string) : Prop := JS.trim s = s.

Definition numbersOfLine (line : UblLine.t) : Prop :=
  isNumber (UblLine.quantity line)
  /\ isNumber (UblLine.unitPrice line)
  /\ isNumber (UblLine.lineExtensionAmount line)
  /\ absentOrNumber (UblLine.taxPercent line).

Definition numbersOfSubtotal (subtotal : UblTaxSubtotal.t) : Prop :=
  isNumber (UblTaxSubtotal.taxableAmount subtotal)
  /\ isNumber (UblTaxSubtotal.taxAmount subtotal)
  /\ isNumber (UblTaxSubtotal.taxPercent subtotal).

Definition numbersOfCharge (charge : UblAllowanceCharge.t) : Prop :=
  isNumber (UblAllowanceCharge.amount charge)
  /\ absentOrNumber (UblAllowanceCharge.baseAmount charge)
  /\ absentOrNumber (UblAllowanceCharge.multiplierFactorNumeric charge)
  /\ absentOrNumber (UblAllowanceCharge.taxPercent charge).

Definition numbersOfTotal (total : UblMonetaryTotal.t) : Prop :=
  isNumber (UblMonetaryTotal.lineExtensionAmount total)
  /\ isNumber (UblMonetaryTotal.taxExclusiveAmount total)
  /\ isNumber (UblMonetaryTotal.taxInclusiveAmount total)
  /\ isNumber (UblMonetaryTotal.payableAmount total)
  /\ absentOrNonZero (UblMonetaryTotal.allowanceTotalAmount total)
  /\ absentOrNonZero (UblMonetaryTotal.chargeTotalAmount total)
  /\ absentOrNonZero (UblMonetaryTotal.prepaidAmount total)
  /\ absentOrNonZero (UblMonetaryTotal.payableRoundingAmount total).

(** A contact with at least one of its three texts, none of them empty. *)
Definition contactFilled (contact : UblContact.t) : Prop :=
  (UblContact.name contact <> None \/ UblContact.phone contact <> None
   \/ UblContact.email contact <> None)
  /\ absentOrFilled (UblContact.name contact)
  /\ absentOrFilled (UblContact.phone contact)
  /\ absentOrFilled (UblContact.email contact).

(** An attachment with a payload that is not empty and is trimmed. *)
Definition payloadKept (attachment : UblAttachment.t) : Prop :=
  UblAttachment.base64Content attachment <> ""
  /\ trimmed (UblAttachment.base64Content attachment).

Definition isCreditNote (documentType : DocumentType) : bool :=
  match documentType with
  | CreditNote => true
  | Invoice => false
  end.

(** [ubl] is what the section parsers read from [root]. *)
Record parsedFrom (root : Element) (ubl : UblInvoice.t) : Prop := {
  parsed_type :
    Parser.documentTypeOf (localName root) = Some (UblInvoice.documentType ubl);
  parsed_id : UblInvoice.id ubl = Parser.cbcText root "ID";
  parsed_seller :
    UblInvoice.seller ubl = Parser.parseParty root "AccountingSupplierParty";
  parsed_buyer :
    UblInvoice.buyer ubl = Parser.parseParty root "AccountingCustomerParty";
  parsed_lines :
    UblInvoice.lines ubl
    = Parser.parseLines root (isCreditNote (UblInvoice.documentType ubl));
  parsed_taxSubtotals : UblInvoice.taxSubtotals ubl = Parser.parseTaxSubtotals root;
  parsed_monetaryTotal : UblInvoice.monetaryTotal ubl = Parser.parseMonetaryTotal root;
  parsed_paymentMeansList :
    UblInvoice.paymentMeansList ubl = Parser.parsePaymentMeansList root;
  parsed_paymentMeans :
    UblInvoice.paymentMeans ubl
    = match Parser.parsePaymentMeansList root with
      | Some list => hd_error list
      | None => None
      end;
  parsed_attachments : UblInvoice.attachments ubl = Parser.parseAttachments root;
  parsed_allowanceCharges :
    UblInvoice.allowanceCharges ubl = Some (Parser.parseAllowanceCharges root);
  parsed_orderReference :
    UblInvoice.orderReference ubl
    = option_map (fun reference => Parser.cbcText reference "ID")
                 (Parser.cacElement root "OrderReference");
  parsed_salesOrderId :
    UblInvoice.salesOrderId ubl
    = match Parser.cacElement root "OrderReference" with
      | Some reference => JS.orUndefined (Parser.cbcText reference "SalesOrderID")
      | None => None
      end;
  parsed_note : UblInvoice.note ubl = Parser.parseNotes root;
  parsed_paymentTermsNote :
    UblInvoice.paymentTermsNote ubl = Parser.parsePaymentTermsNote root;
  parsed_issueDate : UblInvoice.issueDate ubl = Parser.cbcText root "IssueDate";
  parsed_dueDate :
    UblInvoice.dueDate ubl = JS.orUndefined (Parser.cbcText root "DueDate");
  parsed_currency :
    UblInvoice.currency ubl = Parser.cbcText root "DocumentCurrencyCode" }.

(** An optional list that is absent or not empty. *)
Definition absentOrNonEmpty {A : Type} (v : option (list A)) : Prop :=
  match v with
  | Some l => l <> []
  | None => True
  end.

(** A party whose contact, when there is one, has a text. *)
Definition contactOfPartyFilled (party : UblParty.t) : Prop :=
  match UblParty.contact party with
  | Some contact => contactFilled contact
  | None => True
  end.

Definition numbersOfItem (item : LineItem.t) : Prop :=
  nullOrFinite (LineItem.quantity item)
  /\ nullOrFinite (LineItem.unit_price item)
  /\ nullOrFinite (LineItem.amount item)
  /\ nullOrFinite (LineItem.tax_amount item)
  /\ nullOrFinite (LineItem.tax_rate item)
  /\ nullOrFinite (LineItem.discount_amount item)
  /\ nullOrFinite (LineExtra.charge_amount (LineItem.extra item)).

Definition numbersOfInvoice (dto : InvoiceDto.t) : Prop :=
  nullOrFinite (InvoiceDto.subtotal dto)
  /\ nullOrFinite (InvoiceDto.tax_total dto)
  /\ nullOrFinite (InvoiceDto.total dto)
  /\ nullOrFinite (InvoiceDto.amount_due dto)
  /\ nullOrFinite (InvoiceDto.amount_paid dto)
  /\ nullOrFinite (InvoiceDto.discount_total dto)
  /\ nullOrFinite (InvoiceDto.shipping_total dto).

(** [amount_paid]: the prepaid amount when it is present and finite, else
    the finite difference of the total and the amount due. *)
Definition paidAmount (ubl : UblInvoice.t) : option JS.Number :=
  match UblMonetaryTotal.prepaidAmount (UblInvoice.monetaryTotal ubl) with
  | Some prepaid =>
      if Spec.finite prepaid then Some prepaid else Spec.paidByDifference ubl
  | None => Spec.paidByDifference ubl
  end.

(** A text that is NA or N/A in any casing. *)
Definition notAvailable (text : string) : bool :=
  Spec.equalsIgnoreCase text "NA" || Spec.equalsIgnoreCase text "N/A".

(** The payment means of the document, in document order. *)
Definition paymentMeansOf (root : Element) : list UblPaymentMeans.t :=
  map Parser.parsePaymentMeansElement
      (getElementsByTagNameNS root Parser.CAC_NS "PaymentMeans").

(** The line-level allowance/charges: the AllowanceCharge children of the
    line. *)
Definition lineCharges (line : Element) : list UblAllowanceCharge.t :=
  map Parser.parseAllowanceCharge
      (Spec.directChildren line Parser.CAC_NS "AllowanceCharge").

(** A sum that is kept when it is above zero. *)
Definition aboveZero (sum : JS.Number) : option JS.Number :=
  if PrimFloat.ltb 0 sum then Some sum else None.

Definition extraOf (result : NormalizeResult.t) : InvoiceExtra.t :=
  InvoiceDto.extra (Spec.dtoInvoice result).

End Props.

(** ** More sample values *)

Module Sample.
Import Dom.

Definition address : UblAddress.t :=
  {| UblAddress.street := "Main Street 10";
     UblAddress.additionalStreet := None;
     UblAddress.city := "Brussels";
     UblAddress.postalZone := "1000";
     UblAddress.countrySubentity := None;
     UblAddress.countryCode := "BE" |}.

(** An address whose only text is a city given as NA. *)
Definition unavailableAddress : UblAddress.t :=
  {| UblAddress.street := "";
     UblAddress.additionalStreet := None;
     UblAddress.city := "NA";
     UblAddress.postalZone := "";
     UblAddress.countrySubentity := None;
     UblAddress.countryCode := "" |}.

(** A host that reads every text as 25 February 2026. *)
Definition Date_parse (text : string) : JS.Number := 1771977600000%float.
Definition Date_toISOString (timestamp : JS.Number) : string :=
  "2026-02-25T00:00:00.000Z".

(** A host parser that reads every text as the document [root]. *)
Definition host (root : Element) (xml : string) : ParseOutcome := WellFormed root.

(** An invoice without parties whose only LegalMonetaryTotal is not a child
    of the root, and whose OrderReference has a sales order id and an empty
    ID. *)
Definition bareInvoice : Node :=
  Fixture.invoice
    [Fixture.cbc "ID" " INV-8 ";
     Fixture.cbc "DocumentCurrencyCode" " eur ";
     Fixture.cac "OrderReference"
       [Fixture.cbc "ID" " "; Fixture.cbc "SalesOrderID" "SO-9988"];
     Fixture.cac "Wrapper" [Fixture.monetaryTotal "100.00" "121.00" []]].

Definition normalizeBare : JS.Completion NormalizeResult.t :=
  Normalize.normalizeUblResponse (host bareInvoice) Date_parse Date_toISOString
    "" "doc".

End Sample.
Example parseFloat_samples :
  JS.parseFloat "18.90" = 18.9%float /\ JS.parseFloat " 121" = 121%float /\
  JS.parseFloat "-0" = PrimFloat.neg_zero /\ JS.parseFloat "0.00" = 0%float /\
  JS.parseFloat "1e3x" = 1000%float /\ JS.parseFloat ".5" = 0.5%float /\
  JS.parseFloat "5." = 5%float /\ JS.parseFloat "1e" = 1%float /\
  JS.parseFloat "Infinity" = PrimFloat.infinity /\
  JS.parseFloat "1e999" = PrimFloat.infinity /\
  JS.parseFloat "0.1" = 0.1%float /\
  JS.parseFloat "123456789012345678901234567890" = 123456789012345678901234567890%float /\
  JS.parseFloat "2.2250738585072014e-308" = 2.2250738585072014e-308%float /\
  JS.parseFloat "5e-324" = 5e-324%float /\
  JS.parseFloat "1.7976931348623157e308" = 1.7976931348623157e308%float.
Proof. vm_compute. repeat split. Qed.

Example parseFloat_nan :
  PrimFloat.is_nan (JS.parseFloat "") = true /\
  PrimFloat.is_nan (JS.parseFloat "abc") = true /\
  PrimFloat.is_nan (JS.parseFloat ".") = true /\
  PrimFloat.is_nan (JS.parseFloat "-") = true.
Proof. vm_compute. repeat split. Qed.

Example toFixed_samples :
  JS.Number_toFixed 18.9%float 2 = 18.9%float /\
  JS.Number_toFixed 1.005%float 2 = 1%float /\
  JS.Number_toFixed 2.675%float 2 = 2.67%float /\
  JS.Number_toFixed 0.125%float 2 = 0.13%float /\
  JS.Number_toFixed (-0.125)%float 2 = (-0.13)%float /\
  JS.Number_toFixed 10.235%float 2 = 10.23%float /\
  JS.Number_toFixed 1e21%float 2 = 1e21%float /\
  JS.Number_toFixed (-0.001)%float 2 = PrimFloat.neg_zero /\
  JS.Number_toFixed 21%float 2 = 21%float.
Proof. vm_compute. repeat split. Qed.

Example trim_samples :
  JS.trim "  a b  " = "a b" /\ JS.trim "   " = "" /\ JS.trim "" = "" /\
  JS.toUpperCase "n/a" = "N/A" /\ JS.toLowerCase "TRUE" = "true" /\
  JS.removeWhiteSpace "SG Vs
bG8=" = "SGVsbG8=" /\ JS.endsWith "SGVsbG8=" "=" = true /\
  JS.endsWith "=" "==" = false.
Proof. vm_compute. repeat split. Qed.

Example minimalInvoice_dto :
  exists r, Fixture.normalizeUblResponse (Fixture.serialize Fixture.minimalInvoice) "doc" = JS.Normal r /\
    InvoiceDto.tax_total (InvoiceExtractionDTO.invoice (NormalizeResult.extracted r)) = Some 21%float /\
    map LineItem.tax_amount (InvoiceExtractionDTO.line_items (NormalizeResult.extracted r)) = [Some 21%float].
Proof. eexists. split; [vm_compute; reflexivity|]. vm_compute. split; reflexivity. Qed.

Example serialize_sample :
  Fixture.serialize
    (Fixture.invoice [Fixture.cbc "ID" "INV-1"; Fixture.cac "TaxTotal" []])
  = "<Invoice xmlns='urn:oasis:names:specification:ubl:schema:xsd:Invoice-2'><cbc:ID xmlns:cbc='urn:oasis:names:specification:ubl:schema:xsd:CommonBasicComponents-2'>INV-1</cbc:ID><cac:TaxTotal xmlns:cac='urn:oasis:names:specification:ubl:schema:xsd:CommonAggregateComponents-2'></cac:TaxTotal></Invoice>".
Proof. vm_compute. reflexivity. Qed.

(** ** Direct-child lookup *)

Section DirectChildren.
Import Dom.

Lemma childElementsLoop_spec (namespace tag : string) (nodes : list Node) :
  forall elements,
    Parser.childElementsLoop namespace tag nodes elements
    = (elements ++ filter (isNamed namespace tag) nodes)%list.
Proof.
  induction nodes as [|node rest IH]; intros elements; simpl.
  - now rewrite app_nil_r.
  - destruct node as [ns p l attrs cs| |]; simpl.
    + unfold isNamed; simpl.
      destruct ns as [ns|]; simpl.
      * destruct ((ns =? namespace)%string && (l =? tag)%string); rewrite IH.
        -- now rewrite <- app_assoc.
        -- reflexivity.
      * apply IH.
    + apply IH.
    + apply IH.
Qed.

Lemma childElementsByTagNs_spec (parent : Element) (namespace tag : string) :
  Parser.childElementsByTagNs parent namespace tag
  = Spec.directChildren parent namespace tag.
Proof.
  unfold Parser.childElementsByTagNs, Spec.directChildren.
  now rewrite childElementsLoop_spec.
Qed.

Lemma cbcDirectText_spec (parent : Element) (tag : string) :
  Parser.cbcDirectText parent tag = Spec.directText parent tag.
Proof.
  unfold Parser.cbcDirectText, Spec.directText.
  rewrite childElementsByTagNs_spec.
  now destruct (Spec.directChildren parent Parser.CBC_NS tag).
Qed.

Lemma directChildren_only (ns : option string) (p : option string) (l : string)
  (attrs : list (string * string)) (children : list Node) (namespace tag : string) :
  Spec.directChildren (Elem ns p l attrs children) namespace tag
  = Spec.directChildren
      (Elem ns p l attrs (filter (isNamed namespace tag) children)) namespace tag.
Proof.
  unfold Spec.directChildren; simpl.
  induction children as [|c cs IH]; simpl; [reflexivity|].
  destruct (isNamed namespace tag c) eqn:E; simpl; rewrite ?E; now rewrite <- ?IH.
Qed.

End DirectChildren.

(** ** Header tax subtotals *)

Lemma parseTaxSubtotals_flat (root : Dom.Element) :
  Parser.parseTaxSubtotals root = Spec.headerTaxSubtotals root.
Proof.
  unfold Parser.parseTaxSubtotals, Spec.headerTaxSubtotals, Parser.cacDirectElements.
  rewrite childElementsByTagNs_spec.
  assert (E : forall l,
             flat_map Parser.parseTaxSubtotalsFromTaxTotal l
             = List.concat (map (fun taxTotal =>
                              map Parser.parseTaxSubtotal
                                  (Spec.directChildren taxTotal Parser.CAC_NS "TaxSubtotal")) l)).
  { induction l as [|t l IH]; simpl; [reflexivity|].
    rewrite IH. unfold Parser.parseTaxSubtotalsFromTaxTotal, Parser.cacDirectElements.
    now rewrite childElementsByTagNs_spec. }
  destruct (Spec.directChildren root Parser.CAC_NS "TaxTotal") as [|t l] eqn:D.
  - reflexivity.
  - cbn [List.length Nat.eqb]. apply E.
Qed.

(** C6. The header-level tax subtotals are the TaxSubtotal entries of the
    TaxTotal elements that are children of the root, flattened in document
    order; what is not such a child (a line with its own TaxTotal, a
    TaxTotal nested deeper) can be taken out of the root without changing
    the list, and the sample invoice with a taxed line yields the three
    header entries only. *)
Theorem header_tax_subtotals_direct_children :
  (forall root : Dom.Element,
     Parser.parseTaxSubtotals root = Spec.headerTaxSubtotals root)
  /\ (forall ns p l attrs children,
        Parser.parseTaxSubtotals (Dom.Elem ns p l attrs children)
        = Parser.parseTaxSubtotals
            (Dom.Elem ns p l attrs
               (filter (Dom.isNamed Parser.CAC_NS "TaxTotal") children)))
  /\ map UblTaxSubtotal.taxAmount (Parser.parseTaxSubtotals Fixture.taxedInvoice)
     = [12.6%float; 2.4%float; 1%float].
Proof.
  split; [exact parseTaxSubtotals_flat|split].
  - intros. rewrite !parseTaxSubtotals_flat. unfold Spec.headerTaxSubtotals.
    now rewrite directChildren_only.
  - vm_compute. reflexivity.
Qed.

(** ** Charge indicator *)

(** A case for each of the 256 code units. *)
Ltac each_code_unit c := destruct c as [[] [] [] [] [] [] [] []].

Lemma lowerChar_t (c : ascii) :
  (JS.lowerChar c =? "t")%char = Spec.oneOf "t" "T" c.
Proof. each_code_unit c; reflexivity. Qed.

Lemma lowerChar_r (c : ascii) :
  (JS.lowerChar c =? "r")%char = Spec.oneOf "r" "R" c.
Proof. each_code_unit c; reflexivity. Qed.

Lemma lowerChar_u (c : ascii) :
  (JS.lowerChar c =? "u")%char = Spec.oneOf "u" "U" c.
Proof. each_code_unit c; reflexivity. Qed.

Lemma lowerChar_e (c : ascii) :
  (JS.lowerChar c =? "e")%char = Spec.oneOf "e" "E" c.
Proof. each_code_unit c; reflexivity. Qed.

Lemma lowerChar_1 (c : ascii) :
  (JS.lowerChar c =? "1")%char = (c =? "1")%char.
Proof. each_code_unit c; reflexivity. Qed.

Lemma toLowerCase_true (t : string) :
  (JS.toLowerCase t =? "true")%string = Spec.spellsTrue t.
Proof.
  destruct t as [|c1 [|c2 [|c3 [|c4 [|c5 t]]]]]; try reflexivity;
    cbn [JS.toLowerCase JS.mapString String.eqb Spec.spellsTrue];
    rewrite lowerChar_t; destruct (Spec.oneOf "t" "T" c1); try reflexivity;
    rewrite lowerChar_r; destruct (Spec.oneOf "r" "R" c2); try reflexivity;
    rewrite lowerChar_u; destruct (Spec.oneOf "u" "U" c3); try reflexivity;
    rewrite lowerChar_e; destruct (Spec.oneOf "e" "E" c4); reflexivity.
Qed.

Lemma toLowerCase_1 (t : string) :
  (JS.toLowerCase t =? "1")%string = (t =? "1")%string.
Proof.
  destruct t as [|c1 [|c2 t]]; try reflexivity;
    cbn [JS.toLowerCase JS.mapString String.eqb];
    rewrite lowerChar_1; reflexivity.
Qed.

(** C8. The charge indicator of an AllowanceCharge is read from the
    trimmed text of its first ChargeIndicator child: it is true exactly
    when that text spells [true] in small or capital letters, which is when
    its lower case is the literal [true], or is the literal [1]. Every
    other text gives false, and so does an element without such a
    child. *)
Theorem charge_indicator_literal :
  (forall charge : Dom.Element,
     UblAllowanceCharge.chargeIndicator (Parser.parseAllowanceCharge charge)
     = Spec.saysTrue (Spec.directText charge "ChargeIndicator"))
  /\ (forall charge : Dom.Element,
        Spec.directChildren charge Parser.CBC_NS "ChargeIndicator" = [] ->
        UblAllowanceCharge.chargeIndicator (Parser.parseAllowanceCharge charge) = false).
Proof.
  split.
  - intros charge. cbn [Parser.parseAllowanceCharge UblAllowanceCharge.chargeIndicator].
    rewrite cbcDirectText_spec, toLowerCase_true, toLowerCase_1. reflexivity.
  - intros charge H. cbn [Parser.parseAllowanceCharge UblAllowanceCharge.chargeIndicator].
    rewrite cbcDirectText_spec. unfold Spec.directText. rewrite H. reflexivity.
Qed.

Lemma charge_indicator_literal_witness :
  (Spec.directChildren (Fixture.cac "AllowanceCharge" [Fixture.cbc "Amount" "10"])
     Parser.CBC_NS "ChargeIndicator" = []
   /\ UblAllowanceCharge.chargeIndicator
        (Parser.parseAllowanceCharge
           (Fixture.cac "AllowanceCharge" [Fixture.cbc "Amount" "10"])) = false)
  /\ (Spec.directText (Fixture.allowanceCharge " TRue " "10") "ChargeIndicator" = "TRue"
      /\ UblAllowanceCharge.chargeIndicator
           (Parser.parseAllowanceCharge (Fixture.allowanceCharge " TRue " "10")) = true)
  /\ (Spec.directText (Fixture.allowanceCharge "1" "10") "ChargeIndicator" = "1"
      /\ UblAllowanceCharge.chargeIndicator
           (Parser.parseAllowanceCharge (Fixture.allowanceCharge "1" "10")) = true)
  /\ (Spec.directText (Fixture.allowanceCharge "yes" "10") "ChargeIndicator" = "yes"
      /\ UblAllowanceCharge.chargeIndicator
           (Parser.parseAllowanceCharge (Fixture.allowanceCharge "yes" "10")) = false).
Proof.
  split.
  { split; [reflexivity|]. apply (proj2 charge_indicator_literal). reflexivity. }
  repeat split; try reflexivity;
    rewrite (proj1 charge_indicator_literal); reflexivity.
Defined.

Example charge_indicator_samples :
  map (fun text => UblAllowanceCharge.chargeIndicator
                     (Parser.parseAllowanceCharge (Fixture.allowanceCharge text "10")))
      ["true"; " TRUE "; "1"; "True"; "false"; "0"; "yes"; ""; "01"; "true1"]
  = [true; true; true; true; false; false; false; false; false; false].
Proof. vm_compute. reflexivity. Qed.

(** ** Text normalization *)

Lemma upperUnit_N (c : ascii) (u v : string) :
  (JS.upperUnit c ++ u =? String "N" v)%string
  = Spec.sameLetter c "N" && (u =? v)%string.
Proof. each_code_unit c; reflexivity. Qed.

Lemma upperUnit_A (c : ascii) (u v : string) :
  (JS.upperUnit c ++ u =? String "A" v)%string
  = Spec.sameLetter c "A" && (u =? v)%string.
Proof. each_code_unit c; reflexivity. Qed.

Lemma upperUnit_slash (c : ascii) (u v : string) :
  (JS.upperUnit c ++ u =? String "/" v)%string
  = Spec.sameLetter c "/" && (u =? v)%string.
Proof. each_code_unit c; reflexivity. Qed.

Lemma upperUnit_filled (c : ascii) (u : string) :
  (JS.upperUnit c ++ u =? "")%string = false.
Proof. unfold JS.upperUnit. now destruct (_ =? _)%nat. Qed.

Lemma toUpperCase_empty (s : string) :
  (JS.toUpperCase s =? "")%string = (s =? "")%string.
Proof. destruct s as [|c r]; [reflexivity|]. cbn [JS.toUpperCase]. apply upperUnit_filled. Qed.

Lemma equalsIgnoreCase_empty (s : string) :
  Spec.equalsIgnoreCase s "" = (s =? "")%string.
Proof. now destruct s. Qed.

Lemma toUpperCase_NA (t : string) :
  (JS.toUpperCase t =? "NA")%string = Spec.equalsIgnoreCase t "NA".
Proof.
  destruct t as [|c1 [|c2 t]]; try reflexivity;
    cbn [JS.toUpperCase Spec.equalsIgnoreCase]; rewrite upperUnit_N.
  - now destruct (Spec.sameLetter c1 "N").
  - rewrite upperUnit_A, toUpperCase_empty, equalsIgnoreCase_empty. reflexivity.
Qed.

Lemma toUpperCase_N_A (t : string) :
  (JS.toUpperCase t =? "N/A")%string = Spec.equalsIgnoreCase t "N/A".
Proof.
  destruct t as [|c1 [|c2 [|c3 t]]]; try reflexivity;
    cbn [JS.toUpperCase Spec.equalsIgnoreCase]; rewrite upperUnit_N.
  - now destruct (Spec.sameLetter c1 "N").
  - rewrite upperUnit_slash. now destruct (Spec.sameLetter c1 "N"), (Spec.sameLetter c2 "/").
  - rewrite upperUnit_slash, upperUnit_A, toUpperCase_empty, equalsIgnoreCase_empty.
    reflexivity.
Qed.


Lemma normalizeText_normalized (value : option string) :
  Normalize.normalizeText value = Spec.normalizedText value.
Proof.
  destruct value as [text|]; [|reflexivity].
  unfold Normalize.normalizeText, Spec.normalizedText, JS.nonEmpty.
  destruct (text =? "")%string eqn:E.
  - apply String.eqb_eq in E. subst text. reflexivity.
  - cbn [negb]. destruct (JS.trim text =? "")%string; cbn [negb orb]; [reflexivity|].
    now rewrite toUpperCase_NA, toUpperCase_N_A.
Qed.



Example normalizeText_samples :
  map Normalize.normalizeText
    [None; Some ""; Some " "; Some "NA"; Some "n/a"; Some " N/a ";
     Some " Net 14 days "; Some "NAB"; Some "N A"; Some "na."]
  = [None; None; None; None; None; None;
     Some "Net 14 days"; Some "NAB"; Some "N A"; Some "na."].
Proof. vm_compute. reflexivity. Qed.

(** ** Attachments *)

Section Suffixes.

Lemma substring_all (s : string) : substring 0 (String.length s) s = s.
Proof. induction s as [|c s IH]; simpl; [reflexivity|now rewrite IH]. Qed.

Lemma substring_after (p s : string) (k : nat) :
  substring (String.length p) k (p ++ s) = substring 0 k s.
Proof. induction p as [|c p IH]; simpl; [reflexivity|exact IH]. Qed.

Lemma substring_split (s : string) :
  forall a b, (a + b = String.length s)%nat ->
    s = substring 0 a s ++ substring a b s.
Proof.
  induction s as [|c s IH]; intros a b H; simpl in H.
  - assert (a = 0%nat) by lia. assert (b = 0%nat) by lia. subst. reflexivity.
  - destruct a as [|a]; simpl.
    + simpl in H. subst b. simpl. now rewrite substring_all.
    + f_equal. apply IH. lia.
Qed.

Lemma length_append (p s : string) :
  String.length (p ++ s) = (String.length p + String.length s)%nat.
Proof. induction p as [|c p IH]; simpl; [reflexivity|now rewrite IH]. Qed.

Lemma endsWith_iff (s suffix : string) :
  JS.endsWith s suffix = true <-> exists p, s = p ++ suffix.
Proof.
  unfold JS.endsWith. rewrite andb_true_iff, Nat.leb_le, String.eqb_eq. split.
  - intros [L E]. exists (substring 0 (String.length s - String.length suffix) s).
    pose proof (substring_split s (String.length s - String.length suffix)
                  (String.length suffix)) as S.
    rewrite E in S. apply S. lia.
  - intros [p ->]. rewrite length_append. split; [lia|].
    replace (String.length p + String.length suffix - String.length suffix)%nat
      with (String.length p) by lia.
    rewrite substring_after. apply substring_all.
Qed.

Lemma list_ascii_of_append (p s : string) :
  list_ascii_of_string (p ++ s)
  = (list_ascii_of_string p ++ list_ascii_of_string s)%list.
Proof. induction p as [|c p IH]; simpl; [reflexivity|now rewrite IH]. Qed.

Lemma endsWith_rev (s suffix : string) :
  JS.endsWith s suffix = true
  <-> exists r, rev (list_ascii_of_string s)
                = (rev (list_ascii_of_string suffix) ++ r)%list.
Proof.
  rewrite endsWith_iff. split.
  - intros [p ->]. exists (rev (list_ascii_of_string p)).
    now rewrite list_ascii_of_append, rev_app_distr.
  - intros [r E]. exists (string_of_list_ascii (rev r)).
    assert (L : list_ascii_of_string s
                = list_ascii_of_string (string_of_list_ascii (rev r) ++ suffix)).
    { rewrite list_ascii_of_append, list_ascii_of_string_of_list_ascii.
      rewrite <- (rev_involutive (list_ascii_of_string s)), E, rev_app_distr.
      now rewrite rev_involutive. }
    apply (f_equal string_of_list_ascii) in L.
    now rewrite !string_of_list_ascii_of_string in L.
Qed.

Lemma endsWith_one (s : string) :
  JS.endsWith s "="
  = match rev (list_ascii_of_string s) with
    | "="%char :: _ => true
    | _ => false
    end.
Proof.
  destruct (JS.endsWith s "=") eqn:E.
  - apply endsWith_rev in E. destruct E as [r ->]. reflexivity.
  - destruct (rev (list_ascii_of_string s)) as [|c r] eqn:R; [reflexivity|].
    destruct (Ascii.eqb_spec c "="%char) as [->|N].
    + assert (T : JS.endsWith s "=" = true) by (apply endsWith_rev; exists r; now rewrite R).
      congruence.
    + each_code_unit c; try reflexivity. now elim N.
Qed.

Lemma endsWith_two (s : string) :
  JS.endsWith s "=="
  = match rev (list_ascii_of_string s) with
    | "="%char :: "="%char :: _ => true
    | _ => false
    end.
Proof.
  destruct (JS.endsWith s "==") eqn:E.
  - apply endsWith_rev in E. destruct E as [r ->]. reflexivity.
  - destruct (rev (list_ascii_of_string s)) as [|c [|d r]] eqn:R; try reflexivity.
    + each_code_unit c; reflexivity.
    + destruct (Ascii.eqb_spec c "="%char) as [->|N].
      * destruct (Ascii.eqb_spec d "="%char) as [->|M].
        -- assert (T : JS.endsWith s "==" = true)
             by (apply endsWith_rev; exists r; now rewrite R).
           congruence.
        -- each_code_unit d; try reflexivity. now elim M.
      * each_code_unit c; try reflexivity. now elim N.
Qed.

End Suffixes.

Lemma removeWhiteSpace_spec (content : string) :
  JS.removeWhiteSpace content = Spec.withoutWhiteSpace content.
Proof.
  unfold Spec.withoutWhiteSpace.
  induction content as [|c s IH]; simpl; [reflexivity|].
  destruct (JS.isWhiteSpace c); simpl; now rewrite IH.
Qed.

Lemma base64ByteLength_spec (content : string) :
  Normalize.base64ByteLength content = Spec.decodedLength content.
Proof.
  unfold Normalize.base64ByteLength, Spec.decodedLength, Spec.padding, JS.nonEmpty.
  rewrite removeWhiteSpace_spec.
  set (text := Spec.withoutWhiteSpace content).
  rewrite endsWith_two, endsWith_one.
  destruct (String.eqb_spec text "") as [->|N]; [reflexivity|].
  cbn [negb].
  destruct (rev (list_ascii_of_string text)) as [|c [|d r]]; try reflexivity.
  - each_code_unit c; reflexivity.
  - each_code_unit c; try reflexivity.
    each_code_unit d; reflexivity.
Qed.

(** C5, as stated, fails on a document reference whose DocumentDescription
    encloses the Attachment element: the description of the attachment is
    read as the text below that element, which is the payload, and the
    sanitized record keeps the description, in the metadata of the DTO and
    in the raw echo. *)
Lemma sanitized_attachment_stated_counterexample :
  exists (ubl : UblInvoice.t) (result : NormalizeResult.t),
    let xml := Fixture.serialize Fixture.describedAttachmentInvoice in
    Fixture.parseUblInvoice xml = JS.Normal (Some ubl)
    /\ option_map (map UblAttachment.base64Content) (UblInvoice.attachments ubl)
       = Some [Fixture.secretPayload]
    /\ Fixture.normalizeUblResponse xml "doc" = JS.Normal result
    /\ map SanitizedAttachment.description
           (InvoiceExtra.attachments (InvoiceDto.extra (Spec.dtoInvoice result)))
       = [Some Fixture.secretPayload]
    /\ map SanitizedAttachment.description
           (UblInvoice.attachments (RawPayload.invoice (NormalizeResult.rawPayload result)))
       = [Some Fixture.secretPayload].
Proof. do 2 eexists. cbv zeta. repeat split; vm_compute; reflexivity. Qed.

(** C5, amended. The attachments of the DTO's metadata and of the raw echo
    are both the sanitized list of the document's attachments. A sanitized
    record has no field for the payload: it holds the normalized id,
    filename, MIME code and description of the attachment, and a size,
    which is floor(L * 3 / 4) - pad for the payload without its white
    space. The payload enters the record through that size only: another
    payload of the same decoded length gives the same record. *)
Theorem sanitized_attachments_size_only :
  (forall Date_parse Date_toISOString (ubl : UblInvoice.t) (documentId : string),
     let result := Normalize.normalizeParsed Date_parse Date_toISOString ubl documentId in
     let sanitized :=
       map Normalize.sanitizeAttachment
           (match UblInvoice.attachments ubl with Some l => l | None => [] end) in
     InvoiceExtra.attachments
       (InvoiceDto.extra
          (InvoiceExtractionDTO.invoice (NormalizeResult.extracted result)))
     = sanitized
     /\ UblInvoice.attachments (RawPayload.invoice (NormalizeResult.rawPayload result))
        = sanitized)
  /\ (forall attachment : UblAttachment.t,
        SanitizedAttachment.size_bytes (Normalize.sanitizeAttachment attachment)
        = Spec.decodedLength (UblAttachment.base64Content attachment))
  /\ (forall (attachment : UblAttachment.t) (content : string),
        Spec.decodedLength content
        = Spec.decodedLength (UblAttachment.base64Content attachment) ->
        Normalize.sanitizeAttachment (Spec.withPayload attachment content)
        = Normalize.sanitizeAttachment attachment)
  /\ (forall attachment : UblAttachment.t,
        Normalize.sanitizeAttachment attachment
        = {| SanitizedAttachment.id :=
               Spec.normalizedText (Some (UblAttachment.id attachment));
             SanitizedAttachment.filename :=
               Spec.normalizedText (UblAttachment.filename attachment);
             SanitizedAttachment.mime_code :=
               Spec.normalizedText (UblAttachment.mimeCode attachment);
             SanitizedAttachment.description :=
               Spec.normalizedText (UblAttachment.description attachment);
             SanitizedAttachment.size_bytes :=
               Spec.decodedLength (UblAttachment.base64Content attachment) |}).
Proof.
  split; [|split; [|split]].
  - intros Date_parse Date_toISOString ubl documentId. cbv zeta. split; reflexivity.
  - intros attachment. apply base64ByteLength_spec.
  - intros attachment content H. unfold Normalize.sanitizeAttachment.
    cbn [Spec.withPayload UblAttachment.id UblAttachment.filename UblAttachment.mimeCode
         UblAttachment.description UblAttachment.base64Content].
    now rewrite !base64ByteLength_spec, H.
  - intros attachment. unfold Normalize.sanitizeAttachment.
    now rewrite !normalizeText_normalized, base64ByteLength_spec.
Qed.

Lemma sanitized_attachments_size_only_witness :
  Spec.decodedLength "V29y bGQ=" = Spec.decodedLength "SGVsbG8="
  /\ Normalize.sanitizeAttachment (Spec.withPayload Fixture.helloAttachment "V29y bGQ=")
     = Normalize.sanitizeAttachment Fixture.helloAttachment.
Proof.
  split; [reflexivity|].
  apply (proj1 (proj2 (proj2 sanitized_attachments_size_only))
           Fixture.helloAttachment "V29y bGQ=").
  reflexivity.
Defined.

Example base64ByteLength_samples :
  map Normalize.base64ByteLength
    ["SGVsbG8="; "SGVs bG8="; "QQ=="; "QUJD"; ""; "   "; "="; "=="; "QUJDRA=="]
  = [5; 5; 1; 3; 0; 0; -1; -1; 4].
Proof. vm_compute. reflexivity. Qed.

Example attachment_end_to_end :
  exists r, Fixture.normalizeUblResponse (Fixture.serialize Fixture.attachmentInvoice) "doc" = JS.Normal r /\
    UblInvoice.attachments (RawPayload.invoice (NormalizeResult.rawPayload r))
    = [{| SanitizedAttachment.id := Some "ATT-1";
          SanitizedAttachment.filename := Some "invoice.pdf";
          SanitizedAttachment.mime_code := Some "application/pdf";
          SanitizedAttachment.description := None;
          SanitizedAttachment.size_bytes := 5 |}].
Proof. eexists. split; vm_compute; reflexivity. Qed.

(** ** Line tax amount *)

Section LineTax.
Import Dom.

Lemma cacDirectElement_spec (parent : Element) (tag : string) :
  Parser.cacDirectElement parent tag
  = hd_error (Spec.directChildren parent Parser.CAC_NS tag).
Proof. unfold Parser.cacDirectElement. now rewrite childElementsByTagNs_spec. Qed.

Lemma cbcDirectNumber_spec (parent : Element) (tag : string) :
  Parser.cbcDirectNumber parent tag
  = let text := Spec.directText parent tag in
    if (text =? "")%string then None
    else if PrimFloat.is_nan (JS.parseFloat text) then None
    else Some (JS.parseFloat text).
Proof.
  unfold Parser.cbcDirectNumber, JS.nonEmpty, JS.Number_isNaN.
  rewrite cbcDirectText_spec. cbv zeta.
  now destruct (Spec.directText parent tag =? "")%string.
Qed.

Lemma parseTaxSubtotalsFromTaxTotal_spec (taxTotal : Element) :
  Parser.parseTaxSubtotalsFromTaxTotal taxTotal
  = map Parser.parseTaxSubtotal
        (Spec.directChildren taxTotal Parser.CAC_NS "TaxSubtotal").
Proof.
  unfold Parser.parseTaxSubtotalsFromTaxTotal, Parser.cacDirectElements.
  now rewrite childElementsByTagNs_spec.
Qed.

Lemma sum_fold {A : Type} (f : A -> JS.Number) (l : list A) :
  forall start,
    fold_left (fun sum x => (sum + f x)%float) l start
    = fold_left PrimFloat.add (map f l) start.
Proof. induction l as [|x l IH]; intros start; simpl; [reflexivity|apply IH]. Qed.

(** *** Rounding to two decimals *)

Lemma finite_of_mantissa (x : JS.Number) (s : bool) (m : positive) (e : Z) :
  Prim2SF x = S754_finite s m e -> PrimFloat.is_finite x = true.
Proof.
  intros H. unfold PrimFloat.is_finite, PrimFloat.is_nan, PrimFloat.is_infinity.
  rewrite !FloatAxioms.eqb_spec, FloatAxioms.abs_spec, H.
  unfold SFeqb. cbn [SFabs SFcompare].
  rewrite Z.compare_refl, Pos.compare_cont_refl.
  now destruct s.
Qed.

Lemma finite_of_zero (x : JS.Number) (s : bool) :
  Prim2SF x = S754_zero s ->
  PrimFloat.is_finite x = true /\ PrimFloat.ltb (PrimFloat.abs x) 1e21%float = true.
Proof.
  intros H. unfold PrimFloat.is_finite, PrimFloat.is_nan, PrimFloat.is_infinity.
  rewrite !FloatAxioms.eqb_spec, FloatAxioms.ltb_spec, FloatAxioms.abs_spec, H.
  split; reflexivity.
Qed.

Lemma not_finite_of_infinity (x : JS.Number) (s : bool) :
  Prim2SF x = S754_infinity s -> PrimFloat.is_finite x = false.
Proof.
  intros H. unfold PrimFloat.is_finite, PrimFloat.is_nan, PrimFloat.is_infinity.
  rewrite !FloatAxioms.eqb_spec, FloatAxioms.abs_spec, H.
  now destruct s.
Qed.

Lemma not_finite_of_nan (x : JS.Number) :
  Prim2SF x = S754_nan -> PrimFloat.is_finite x = false.
Proof.
  intros H. unfold PrimFloat.is_finite, PrimFloat.is_nan, PrimFloat.is_infinity.
  rewrite !FloatAxioms.eqb_spec, FloatAxioms.abs_spec, H.
  reflexivity.
Qed.

(** The integer that [toFixed] prints is the one of [Spec.hundredths]. *)
Lemma toFixed_hundredths (m : positive) (e : Z) :
  (if 0 <=? e then Zpos m * 10 ^ 2 * 2 ^ e
   else (2 * (Zpos m * 10 ^ 2) + 2 ^ (- e)) / (2 * 2 ^ (- e)))
  = Spec.hundredths m e.
Proof.
  unfold Spec.hundredths. change (10 ^ 2) with 100.
  destruct (Z.leb_spec 0 e) as [P|N].
  - rewrite (Z.max_r 0 e) by exact P. rewrite (Z.max_l 0 (- e)) by lia.
    change (2 ^ 0) with 1. rewrite Z.div_1_r.
    replace (100 * Z.pos m * 2 ^ e - 100 * Z.pos m * 2 ^ e * 1) with 0 by ring.
    change (2 * 0 <? 1) with true. cbv iota. ring.
  - rewrite (Z.max_l 0 e) by lia. rewrite (Z.max_r 0 (- e)) by lia.
    change (2 ^ 0) with 1. rewrite Z.mul_1_r.
    assert (D : 0 < 2 ^ (- e)) by (apply Z.pow_pos_nonneg; lia).
    set (d := 2 ^ (- e)) in *. set (n := 100 * Z.pos m).
    replace (Z.pos m * 100) with n by (unfold n; ring).
    pose proof (Z.div_mod n d ltac:(lia)) as Q.
    pose proof (Z.mod_pos_bound n d D) as R.
    set (q := n / d) in *. set (r := n mod d) in *.
    replace (n - q * d) with r by lia.
    destruct (Z.ltb_spec (2 * r) d) as [L|G].
    + symmetry. apply (Z.div_unique_pos _ _ q (2 * r + d)); lia.
    + symmetry. apply (Z.div_unique_pos _ _ (q + 1) (2 * r - d)); lia.
Qed.

Lemma toFixed_round2 (x : JS.Number) : JS.Number_toFixed x 2 = Spec.round2 x.
Proof.
  unfold JS.Number_toFixed, Spec.round2, JS.Number_isFinite.
  destruct (Prim2SF x) as [s|s| |s m e] eqn:H.
  - destruct (finite_of_zero x s H) as [F L]. now rewrite F, L.
  - now rewrite (not_finite_of_infinity x s H).
  - now rewrite (not_finite_of_nan x H).
  - rewrite (finite_of_mantissa x s m e H). cbn [negb orb].
    destruct (PrimFloat.ltb (PrimFloat.abs x) 1e21%float); cbn [negb]; [|reflexivity].
    cbv zeta. now rewrite toFixed_hundredths.
Qed.

(** [Spec.hundredths] is the nearest integer. *)
Lemma hundredths_nearest (m : positive) (e : Z) :
  Spec.nearestHundredth m e (Spec.hundredths m e).
Proof.
  unfold Spec.nearestHundredth, Spec.hundredths. cbv zeta.
  assert (D : 0 < 2 ^ Z.max 0 (- e)) by (apply Z.pow_pos_nonneg; lia).
  set (d := 2 ^ Z.max 0 (- e)) in *. set (n := 100 * Z.pos m * 2 ^ Z.max 0 e).
  pose proof (Z.div_mod n d ltac:(lia)) as Q.
  pose proof (Z.mod_pos_bound n d D) as R.
  set (q := n / d) in *. set (r := n mod d) in *.
  replace (n - q * d) with r by lia.
  destruct (Z.ltb_spec (2 * r) d) as [L|G]; nia.
Qed.

(** There is one nearest integer. *)
Lemma nearestHundredth_unique (m : positive) (e : Z) (n n' : Z) :
  Spec.nearestHundredth m e n -> Spec.nearestHundredth m e n' -> n = n'.
Proof.
  unfold Spec.nearestHundredth. cbv zeta.
  assert (D : 0 < 2 ^ Z.max 0 (- e)) by (apply Z.pow_pos_nonneg; lia).
  set (d := 2 ^ Z.max 0 (- e)) in *. set (v := 100 * Z.pos m * 2 ^ Z.max 0 e).
  intros [A B] [A' B']. nia.
Qed.

Lemma parseLine_taxPercent (qtyTag : string) (line : Element) :
  UblLine.taxPercent (Parser.parseLine qtyTag line) = Spec.taxPercent line.
Proof.
  cbn [Parser.parseLine UblLine.taxPercent].
  unfold Spec.taxPercent, Spec.lineTaxSubtotals, Spec.lineTaxTotal, Spec.classifiedPercent.
  rewrite cacDirectElement_spec.
  destruct (hd_error (Spec.directChildren line Parser.CAC_NS "TaxTotal")) as [taxTotal|].
  - rewrite parseTaxSubtotalsFromTaxTotal_spec.
    destruct (map Parser.parseTaxSubtotal _) as [|first rest]; [|reflexivity].
    cbn [hd_error option_map JS.nullish].
    now destruct (Parser.cacElement line "Item").
  - cbn [hd_error option_map JS.nullish].
    now destruct (Parser.cacElement line "Item").
Qed.

Lemma parseLine_taxAmount (qtyTag : string) (line : Element) :
  UblLine.taxAmount (Parser.parseLine qtyTag line) = Spec.resolvedTaxAmount line.
Proof.
  pose proof (parseLine_taxPercent qtyTag line) as P.
  cbn [Parser.parseLine UblLine.taxPercent] in P.
  cbn [Parser.parseLine UblLine.taxAmount]. rewrite P. clear P.
  unfold Spec.resolvedTaxAmount, Spec.explicitTaxAmount, Spec.lineTaxSubtotals,
    Spec.lineTaxTotal, Spec.sumNumbers.
  rewrite cacDirectElement_spec.
  destruct (hd_error (Spec.directChildren line Parser.CAC_NS "TaxTotal")) as [taxTotal|].
  - rewrite cbcDirectNumber_spec, parseTaxSubtotalsFromTaxTotal_spec. cbv zeta.
    rewrite sum_fold.
    destruct (Spec.directText taxTotal "TaxAmount" =? "")%string;
      [|destruct (PrimFloat.is_nan _); [|reflexivity]];
      cbn [JS.nullish];
      (destruct (map Parser.parseTaxSubtotal _); [|reflexivity]);
      cbn [List.length Nat.ltb Nat.leb];
      (destruct (Spec.taxPercent line); [rewrite toFixed_round2|]; reflexivity).
  - cbn [JS.nullish List.length Nat.ltb Nat.leb].
    destruct (Spec.taxPercent line); [rewrite toFixed_round2|]; reflexivity.
Qed.

End LineTax.

(** C1, as stated, fails on two lines. A line without TaxTotal whose item
    has a tax category without a Percent has no percent to compute from,
    yet its tax percent is read as 0 and its tax amount is 0, not absent.
    A line of 100 at 21 percent whose second TaxTotal states 5.00 has an
    explicit amount on a TaxTotal of its own, and one whose second TaxTotal
    has a subtotal of 7.00 has a line-level subtotal, yet the tax amount of
    both is the computed 21: only the first TaxTotal is read. *)
Lemma line_tax_amount_stated_counterexample :
  (Dom.getElementsByTagNameNS Fixture.noPercentLine Parser.CBC_NS "Percent" = []
   /\ Spec.statedTaxAmount Fixture.noPercentLine = None
   /\ UblLine.taxPercent (Parser.parseLine "InvoicedQuantity" Fixture.noPercentLine)
      = Some 0%float
   /\ UblLine.taxAmount (Parser.parseLine "InvoicedQuantity" Fixture.noPercentLine)
      = Some 0%float)
  /\ (Spec.statedTaxAmount Fixture.secondTaxTotalLine = Some 5%float
      /\ UblLine.taxAmount
           (Parser.parseLine "InvoicedQuantity" Fixture.secondTaxTotalLine)
         = Some 21%float)
  /\ (Spec.statedTaxAmount Fixture.secondSubtotalLine = Some 7%float
      /\ UblLine.taxAmount
           (Parser.parseLine "InvoicedQuantity" Fixture.secondSubtotalLine)
         = Some 21%float).
Proof. repeat split; vm_compute; reflexivity. Qed.

(** C1, amended. The tax amount of every parsed line is resolved in this
    order, first match wins: the explicit TaxAmount child of the line's
    first TaxTotal child; else the sum of the tax amounts of the
    TaxSubtotals of that TaxTotal; else the amount computed from the tax
    percent, which is that of the first of these subtotals, else the
    Percent of the item's classified tax category, read as 0 when the
    category has none; else nothing. An explicit amount wins over a percent
    also when the two disagree. The computed amount is
    lineExtensionAmount * taxPercent / 100 rounded to two decimals: for a
    finite product below 10^21 it is the Number n / 100 for the one integer
    [n] nearest 100 times the magnitude, the larger on a tie. *)
Theorem line_tax_amount_resolution :
  (forall (root : Dom.Element) (isCreditNote : bool),
     map UblLine.taxAmount (Parser.parseLines root isCreditNote)
     = map Spec.resolvedTaxAmount
           (Parser.cacElements root (Parser.lineTagOf isCreditNote)))
  /\ (forall (qtyTag : string) (line : Dom.Element) (amount percent : JS.Number),
        Spec.explicitTaxAmount line = Some amount ->
        Spec.taxPercent line = Some percent ->
        UblLine.taxAmount (Parser.parseLine qtyTag line) = Some amount
        /\ UblLine.taxPercent (Parser.parseLine qtyTag line) = Some percent)
  /\ (forall (qtyTag : string) (line : Dom.Element) (percent : JS.Number)
             (s : bool) (m : positive) (e : Z),
        Spec.explicitTaxAmount line = None ->
        Spec.lineTaxSubtotals line = [] ->
        Spec.taxPercent line = Some percent ->
        let computed :=
          (Parser.cbcNumber line "LineExtensionAmount" * percent / 100)%float in
        Prim2SF computed = S754_finite s m e ->
        PrimFloat.ltb (PrimFloat.abs computed) 1e21%float = true ->
        exists n : Z,
          Spec.nearestHundredth m e n
          /\ (forall n', Spec.nearestHundredth m e n' -> n' = n)
          /\ UblLine.taxAmount (Parser.parseLine qtyTag line)
             = Some (JS.numberOfDecimal s n (- 2))).
Proof.
  split; [|split].
  - intros root isCreditNote. unfold Parser.parseLines. rewrite map_map.
    apply map_ext. intros line. apply parseLine_taxAmount.
  - intros qtyTag line amount percent HA HP.
    rewrite parseLine_taxAmount, parseLine_taxPercent. split; [|exact HP].
    unfold Spec.resolvedTaxAmount. now rewrite HA.
  - intros qtyTag line percent s m e HA HS HP computed HM HL.
    exists (Spec.hundredths m e). split; [apply hundredths_nearest|]. split.
    + intros n' H. apply (nearestHundredth_unique m e); [exact H|apply hundredths_nearest].
    + rewrite parseLine_taxAmount. unfold Spec.resolvedTaxAmount.
      rewrite HA, HS, HP. fold computed. unfold Spec.round2. now rewrite HM, HL.
Qed.

Lemma line_tax_amount_resolution_witness :
  (Spec.explicitTaxAmount Fixture.explicitTaxLine = Some 5%float
   /\ Spec.taxPercent Fixture.explicitTaxLine = Some 21%float
   /\ UblLine.lineExtensionAmount
        (Parser.parseLine "InvoicedQuantity" Fixture.explicitTaxLine) = 100%float
   /\ UblLine.taxAmount (Parser.parseLine "InvoicedQuantity" Fixture.explicitTaxLine)
      = Some 5%float
   /\ UblLine.taxPercent (Parser.parseLine "InvoicedQuantity" Fixture.explicitTaxLine)
      = Some 21%float)
  /\ (Spec.explicitTaxAmount Fixture.fractionLine = None
      /\ Spec.lineTaxSubtotals Fixture.fractionLine = []
      /\ Spec.taxPercent Fixture.fractionLine = Some 21%float
      /\ Prim2SF (Parser.cbcNumber Fixture.fractionLine "LineExtensionAmount"
                  * 21 / 100)%float
         = S754_finite false 4846999098957496%positive (- 51)
      /\ Spec.nearestHundredth 4846999098957496%positive (- 51) 215
      /\ JS.numberOfDecimal false 215 (- 2) = 2.15%float
      /\ exists n : Z,
           Spec.nearestHundredth 4846999098957496%positive (- 51) n
           /\ (forall n', Spec.nearestHundredth 4846999098957496%positive (- 51) n' -> n' = n)
           /\ UblLine.taxAmount (Parser.parseLine "InvoicedQuantity" Fixture.fractionLine)
              = Some (JS.numberOfDecimal false n (- 2))).
Proof.
  split.
  { split; [vm_compute; reflexivity|].
    split; [vm_compute; reflexivity|].
    split; [vm_compute; reflexivity|].
    apply (proj1 (proj2 line_tax_amount_resolution) "InvoicedQuantity"
             Fixture.explicitTaxLine);
      vm_compute; reflexivity. }
  split; [vm_compute; reflexivity|].
  split; [vm_compute; reflexivity|].
  split; [vm_compute; reflexivity|].
  split; [vm_compute; reflexivity|].
  split; [unfold Spec.nearestHundredth; vm_compute; split; [discriminate|reflexivity]|].
  split; [vm_compute; reflexivity|].
  apply (proj2 (proj2 line_tax_amount_resolution) "InvoicedQuantity"
           Fixture.fractionLine 21%float false 4846999098957496%positive (- 51));
    vm_compute; reflexivity.
Defined.

Example line_tax_amount_samples :
  map (fun line => UblLine.taxAmount (Parser.parseLine "InvoicedQuantity" line))
      [Fixture.explicitTaxLine; Fixture.subtotalsLine; Fixture.line [];
       Fixture.cac "InvoiceLine" [Fixture.cbc "LineExtensionAmount" "100.00"];
       Fixture.cac "InvoiceLine"
         [Fixture.cbc "LineExtensionAmount" "10.25";
          Fixture.cac "Item"
            [Fixture.cac "ClassifiedTaxCategory" [Fixture.cbc "Percent" "21"]]]]
  = [Some 5%float; Some 15%float; Some 21%float; None; Some 2.15%float].
Proof. vm_compute. reflexivity. Qed.

(** ** Totals of the DTO *)

Section Totals.

Variable Date_parse : string -> JS.Number.
Variable Date_toISOString : JS.Number -> string.

Let normalizeParsed := Normalize.normalizeParsed Date_parse Date_toISOString.

Lemma is_finite_spec (x : JS.Number) : JS.Number_isFinite x = Spec.finite x.
Proof.
  unfold JS.Number_isFinite, PrimFloat.is_finite, Spec.finite.
  apply negb_orb.
Qed.

Lemma toNumberOrNull_some (x : JS.Number) :
  Normalize.toNumberOrNull (Some x) = Spec.numberOrNull x.
Proof.
  unfold Normalize.toNumberOrNull, Spec.numberOrNull. cbn [JS.nullishOr].
  now rewrite is_finite_spec.
Qed.

Lemma toNumberOrNull_option (value : option JS.Number) :
  Normalize.toNumberOrNull value
  = match value with
    | Some x => Spec.numberOrNull x
    | None => None
    end.
Proof.
  destruct value as [x|]; [apply toNumberOrNull_some|reflexivity].
Qed.

Lemma nonempty_length {A : Type} (l : list A) :
  (0 <? List.length l)%nat = match l with [] => false | _ :: _ => true end.
Proof. now destruct l. Qed.

Lemma sumTaxTotal_spec (ubl : UblInvoice.t) :
  Normalize.sumTaxTotal ubl
  = match UblInvoice.taxSubtotals ubl with
    | _ :: _ =>
        if Spec.finite (Spec.headerTaxSum ubl) then Spec.headerTaxSum ubl
        else Spec.inclusiveMinusExclusive ubl
    | [] => Spec.inclusiveMinusExclusive ubl
    end.
Proof.
  unfold Normalize.sumTaxTotal, Spec.headerTaxSum, Spec.sumNumbers.
  rewrite sum_fold, nonempty_length, is_finite_spec.
  now destruct (UblInvoice.taxSubtotals ubl).
Qed.

Lemma tax_total_derived (ubl : UblInvoice.t) (documentId : string) :
  InvoiceDto.tax_total (Spec.dtoInvoice (normalizeParsed ubl documentId))
  = Spec.derivedTaxTotal ubl.
Proof.
  unfold normalizeParsed, Spec.dtoInvoice.
  cbn [Normalize.normalizeParsed NormalizeResult.extracted InvoiceExtractionDTO.invoice
       InvoiceDto.tax_total].
  rewrite toNumberOrNull_some, sumTaxTotal_spec. unfold Spec.derivedTaxTotal.
  destruct (UblInvoice.taxSubtotals ubl); [reflexivity|].
  destruct (Spec.finite (Spec.headerTaxSum ubl)) eqn:F; [|reflexivity].
  unfold Spec.numberOrNull. now rewrite F.
Qed.

Lemma sumAllowanceChargesByType_spec (charges : option (list UblAllowanceCharge.t))
  (indicator : bool) :
  Normalize.sumAllowanceChargesByType charges indicator
  = Spec.absoluteSum (match charges with Some l => l | None => [] end) indicator.
Proof.
  unfold Normalize.sumAllowanceChargesByType, Spec.absoluteSum, Spec.sumNumbers,
    JS.nullishOr, JS.Math_abs.
  generalize 0%float.
  induction (match charges with Some l => l | None => [] end) as [|c l IH];
    intros start; simpl; [reflexivity|].
  destruct (Bool.eqb (UblAllowanceCharge.chargeIndicator c) indicator); simpl; apply IH.
Qed.

Lemma hasHeaderAllowanceCharges_spec (ubl : UblInvoice.t) :
  (0 <? JS.nullishOr (option_map (@List.length _) (UblInvoice.allowanceCharges ubl)) 0%nat)%nat
  = match Spec.headerCharges ubl with [] => false | _ :: _ => true end.
Proof.
  unfold Spec.headerCharges.
  destruct (UblInvoice.allowanceCharges ubl) as [l|]; [|reflexivity].
  now destruct l.
Qed.

Lemma charge_total_derived (explicit : option JS.Number) (ubl : UblInvoice.t)
  (indicator : bool) :
  JS.nullish (Normalize.toNumberOrNull explicit)
    (if (0 <? JS.nullishOr (option_map (@List.length _)
                              (UblInvoice.allowanceCharges ubl)) 0%nat)%nat
     then Normalize.toNumberOrNull
            (Some (Normalize.sumAllowanceChargesByType
                     (UblInvoice.allowanceCharges ubl) indicator))
     else None)
  = Spec.derivedChargeTotal explicit (Spec.headerCharges ubl) indicator.
Proof.
  rewrite hasHeaderAllowanceCharges_spec, toNumberOrNull_some, toNumberOrNull_option,
    sumAllowanceChargesByType_spec.
  unfold Spec.derivedChargeTotal, Spec.summedCharges. fold (Spec.headerCharges ubl).
  destruct explicit as [amount|]; cbn [JS.nullish].
  - unfold Spec.numberOrNull at 1. destruct (Spec.finite amount); [reflexivity|].
    now destruct (Spec.headerCharges ubl).
  - now destruct (Spec.headerCharges ubl).
Qed.

Lemma discount_total_derived (ubl : UblInvoice.t) (documentId : string) :
  InvoiceDto.discount_total (Spec.dtoInvoice (normalizeParsed ubl documentId))
  = Spec.derivedChargeTotal
      (UblMonetaryTotal.allowanceTotalAmount (UblInvoice.monetaryTotal ubl))
      (Spec.headerCharges ubl) false.
Proof. apply charge_total_derived. Qed.

Lemma shipping_total_derived (ubl : UblInvoice.t) (documentId : string) :
  InvoiceDto.shipping_total (Spec.dtoInvoice (normalizeParsed ubl documentId))
  = Spec.derivedChargeTotal
      (UblMonetaryTotal.chargeTotalAmount (UblInvoice.monetaryTotal ubl))
      (Spec.headerCharges ubl) true.
Proof. apply charge_total_derived. Qed.

Lemma amount_paid_derived (ubl : UblInvoice.t) (documentId : string) :
  InvoiceDto.amount_paid (Spec.dtoInvoice (normalizeParsed ubl documentId))
  = match UblMonetaryTotal.prepaidAmount (UblInvoice.monetaryTotal ubl) with
    | Some prepaid =>
        if Spec.finite prepaid then Some prepaid else Spec.paidByDifference ubl
    | None => Spec.paidByDifference ubl
    end.
Proof.
  unfold normalizeParsed, Spec.dtoInvoice.
  cbn [Normalize.normalizeParsed NormalizeResult.extracted InvoiceExtractionDTO.invoice
       InvoiceDto.amount_paid].
  rewrite !toNumberOrNull_some, toNumberOrNull_option.
  assert (D : match
                JS.nullish
                  (Spec.numberOrNull
                     (UblMonetaryTotal.taxInclusiveAmount (UblInvoice.monetaryTotal ubl)))
                  (Spec.numberOrNull
                     (UblMonetaryTotal.payableAmount (UblInvoice.monetaryTotal ubl)))
              with
              | Some total =>
                  match Spec.numberOrNull
                          (UblMonetaryTotal.payableAmount (UblInvoice.monetaryTotal ubl))
                  with
                  | Some amountDue =>
                      if JS.gt total amountDue
                      then Normalize.toNumberOrNull (Some (total - amountDue)%float)
                      else None
                  | None => None
                  end
              | None => None
              end = Spec.paidByDifference ubl).
  { unfold Spec.paidByDifference, JS.nullish, JS.gt. cbv zeta.
    destruct (Spec.numberOrNull (UblMonetaryTotal.taxInclusiveAmount _)) as [t|];
      destruct (Spec.numberOrNull (UblMonetaryTotal.payableAmount _)) as [d|];
      try reflexivity; now rewrite toNumberOrNull_some. }
  rewrite D.
  destruct (UblMonetaryTotal.prepaidAmount (UblInvoice.monetaryTotal ubl)) as [p|];
    [|reflexivity].
  unfold Spec.numberOrNull at 1. now destruct (Spec.finite p).
Qed.

End Totals.

(** C3, as stated, fails on a document without header tax subtotals whose
    tax-inclusive amount is beyond the range of the Number type: the
    difference is infinite and the DTO carries null. *)
Lemma tax_total_stated_counterexample :
  exists ubl result,
    Fixture.parsed Fixture.overflowInvoice = Some ubl
    /\ Fixture.normalizeUblResponse (Fixture.serialize Fixture.overflowInvoice) "doc"
       = JS.Normal result
    /\ UblInvoice.taxSubtotals ubl = []
    /\ Spec.statedTaxTotal ubl = Some PrimFloat.infinity
    /\ InvoiceDto.tax_total (Spec.dtoInvoice result) = None.
Proof.
  eexists. eexists. split; [vm_compute; reflexivity|].
  split; [vm_compute; reflexivity|].
  vm_compute. repeat split.
Qed.

(** C3, amended. The DTO's [tax_total] is the sum of the header tax
    subtotals when there are some and the sum is finite; otherwise it is
    tax-inclusive minus tax-exclusive when that difference is finite, and
    null when it is not. With no header subtotal, tax-exclusive 100 and
    tax-inclusive 121 it is 21, with [subtotal] 100 and [total] 121. *)
Theorem tax_total_sum_or_difference :
  forall (Date_parse : string -> JS.Number) (Date_toISOString : JS.Number -> string)
         (ubl : UblInvoice.t) (documentId : string),
    let dto :=
      Spec.dtoInvoice
        (Normalize.normalizeParsed Date_parse Date_toISOString ubl documentId) in
    InvoiceDto.tax_total dto = Spec.derivedTaxTotal ubl
    /\ (UblInvoice.taxSubtotals ubl = [] ->
        UblMonetaryTotal.taxExclusiveAmount (UblInvoice.monetaryTotal ubl) = 100%float ->
        UblMonetaryTotal.taxInclusiveAmount (UblInvoice.monetaryTotal ubl) = 121%float ->
        InvoiceDto.tax_total dto = Some 21%float
        /\ InvoiceDto.subtotal dto = Some 100%float
        /\ InvoiceDto.total dto = Some 121%float).
Proof.
  intros Date_parse Date_toISOString ubl documentId dto. subst dto.
  split; [apply tax_total_derived|].
  intros HS HE HI. rewrite tax_total_derived.
  unfold Spec.derivedTaxTotal, Spec.inclusiveMinusExclusive, Spec.dtoInvoice.
  cbn [Normalize.normalizeParsed NormalizeResult.extracted InvoiceExtractionDTO.invoice
       InvoiceDto.subtotal InvoiceDto.total].
  rewrite HS, HE, HI. repeat split.
Qed.

Lemma tax_total_sum_or_difference_witness :
  exists ubl,
    Fixture.parsed Fixture.minimalInvoice = Some ubl
    /\ UblInvoice.taxSubtotals ubl = []
    /\ InvoiceDto.tax_total
         (Spec.dtoInvoice
            (Normalize.normalizeParsed Fixture.Date_parse Fixture.Date_toISOString ubl "doc"))
       = Some 21%float.
Proof.
  eexists. split; [vm_compute; reflexivity|]. split; [reflexivity|].
  refine (proj1 (proj2 (tax_total_sum_or_difference
                          Fixture.Date_parse Fixture.Date_toISOString _ "doc") _ _ _));
    reflexivity.
Defined.

Example tax_total_samples :
  option_map Spec.derivedTaxTotal (Fixture.parsed Fixture.taxedInvoice) = Some (Some 16%float)
  /\ option_map Spec.derivedTaxTotal (Fixture.parsed Fixture.minimalInvoice)
     = Some (Some 21%float).
Proof. vm_compute. split; reflexivity. Qed.

(** C4, as stated, fails on a document without an allowance-total amount
    whose single header allowance has an amount beyond the range of the
    Number type: the sum is infinite and the DTO carries null. *)
Lemma discount_total_stated_counterexample :
  exists ubl result,
    Fixture.parsed Fixture.overflowAllowanceInvoice = Some ubl
    /\ Fixture.normalizeUblResponse
         (Fixture.serialize Fixture.overflowAllowanceInvoice) "doc"
       = JS.Normal result
    /\ UblMonetaryTotal.allowanceTotalAmount (UblInvoice.monetaryTotal ubl) = None
    /\ List.length (Spec.headerCharges ubl) = 1%nat
    /\ Spec.statedChargeTotal
         (UblMonetaryTotal.allowanceTotalAmount (UblInvoice.monetaryTotal ubl))
         (Spec.headerCharges ubl) false
       = Some PrimFloat.infinity
    /\ InvoiceDto.discount_total (Spec.dtoInvoice result) = None.
Proof.
  eexists. eexists. split; [vm_compute; reflexivity|].
  split; [vm_compute; reflexivity|].
  vm_compute. repeat split.
Qed.

(** C4, amended. The DTO's [discount_total] is the explicit allowance-total
    amount when that is present and finite; otherwise, when the document
    has header-level allowance/charges, the sum of the absolute amounts of
    those with a false indicator if that sum is finite and null if it is
    not; otherwise null. [shipping_total] is the same with the charge-total
    amount and the true indicator. *)
Theorem discount_and_shipping_totals :
  forall (Date_parse : string -> JS.Number) (Date_toISOString : JS.Number -> string)
         (ubl : UblInvoice.t) (documentId : string),
    let dto :=
      Spec.dtoInvoice
        (Normalize.normalizeParsed Date_parse Date_toISOString ubl documentId) in
    InvoiceDto.discount_total dto
    = Spec.derivedChargeTotal
        (UblMonetaryTotal.allowanceTotalAmount (UblInvoice.monetaryTotal ubl))
        (Spec.headerCharges ubl) false
    /\ InvoiceDto.shipping_total dto
       = Spec.derivedChargeTotal
           (UblMonetaryTotal.chargeTotalAmount (UblInvoice.monetaryTotal ubl))
           (Spec.headerCharges ubl) true.
Proof.
  intros Date_parse Date_toISOString ubl documentId dto. subst dto.
  split; [apply discount_total_derived|apply shipping_total_derived].
Qed.

(** ** Zero amounts of the monetary total *)

Lemma is_zero_not_nan (x : JS.Number) :
  PrimFloat.is_zero x = true -> PrimFloat.is_nan x = false.
Proof.
  unfold PrimFloat.is_zero, PrimFloat.is_nan. rewrite !FloatAxioms.eqb_spec.
  change (Prim2SF PrimFloat.zero) with (S754_zero false).
  destruct (Prim2SF x) as [s|s| |s m e]; try reflexivity; try discriminate;
    destruct s; discriminate.
Qed.

Lemma zeroOrMissing_absent (total : Dom.Element) (tag : string) :
  Spec.zeroOrMissing total tag ->
  JS.numberOrUndefined (Parser.cbcNumber total tag) = None.
Proof.
  unfold JS.numberOrUndefined, JS.truthyNumber, Parser.cbcNumber, JS.Number_isNaN.
  intros [Z|M].
  - rewrite (is_zero_not_nan _ Z), Z. reflexivity.
  - unfold Parser.cbcText. rewrite M. reflexivity.
Qed.

(** C9. A LegalMonetaryTotal whose AllowanceTotalAmount, ChargeTotalAmount,
    PrepaidAmount or PayableRoundingAmount is an explicit 0 is parsed with
    that field absent, as it is when the element is missing; and with the
    field absent [discount_total] and [shipping_total] are the sums over
    the header allowance/charges (null without any), and [amount_paid] is
    the total less the amount due. *)
Theorem zero_totals_read_as_absent :
  (forall root total : Dom.Element,
     Parser.cacDirectElement root "LegalMonetaryTotal" = Some total ->
     let monetaryTotal := Parser.parseMonetaryTotal root in
     (Spec.zeroOrMissing total "AllowanceTotalAmount" ->
      UblMonetaryTotal.allowanceTotalAmount monetaryTotal = None)
     /\ (Spec.zeroOrMissing total "ChargeTotalAmount" ->
         UblMonetaryTotal.chargeTotalAmount monetaryTotal = None)
     /\ (Spec.zeroOrMissing total "PrepaidAmount" ->
         UblMonetaryTotal.prepaidAmount monetaryTotal = None)
     /\ (Spec.zeroOrMissing total "PayableRoundingAmount" ->
         UblMonetaryTotal.payableRoundingAmount monetaryTotal = None))
  /\ (forall (Date_parse : string -> JS.Number) (Date_toISOString : JS.Number -> string)
             (ubl : UblInvoice.t) (documentId : string),
        let dto :=
          Spec.dtoInvoice
            (Normalize.normalizeParsed Date_parse Date_toISOString ubl documentId) in
        let monetaryTotal := UblInvoice.monetaryTotal ubl in
        (UblMonetaryTotal.allowanceTotalAmount monetaryTotal = None ->
         InvoiceDto.discount_total dto
         = Spec.summedCharges (Spec.headerCharges ubl) false)
        /\ (UblMonetaryTotal.chargeTotalAmount monetaryTotal = None ->
            InvoiceDto.shipping_total dto
            = Spec.summedCharges (Spec.headerCharges ubl) true)
        /\ (UblMonetaryTotal.prepaidAmount monetaryTotal = None ->
            InvoiceDto.amount_paid dto = Spec.paidByDifference ubl)).
Proof.
  split.
  - intros root total H monetaryTotal. subst monetaryTotal.
    unfold Parser.parseMonetaryTotal. rewrite H.
    cbn [UblMonetaryTotal.allowanceTotalAmount UblMonetaryTotal.chargeTotalAmount
         UblMonetaryTotal.prepaidAmount UblMonetaryTotal.payableRoundingAmount].
    repeat split; apply zeroOrMissing_absent.
  - intros Date_parse Date_toISOString ubl documentId dto monetaryTotal.
    subst dto monetaryTotal. repeat split; intros H.
    + now rewrite discount_total_derived, H.
    + now rewrite shipping_total_derived, H.
    + now rewrite amount_paid_derived, H.
Qed.

Lemma zero_totals_read_as_absent_witness :
  exists total,
    Parser.cacDirectElement Fixture.zeroTotalsInvoice "LegalMonetaryTotal" = Some total
    /\ Parser.cbcText total "AllowanceTotalAmount" = "0.00"
    /\ Spec.zeroOrMissing total "AllowanceTotalAmount"
    /\ UblMonetaryTotal.allowanceTotalAmount
         (Parser.parseMonetaryTotal Fixture.zeroTotalsInvoice) = None.
Proof.
  eexists. split; [vm_compute; reflexivity|].
  split; [vm_compute; reflexivity|].
  assert (Z : Spec.zeroOrMissing
                (Fixture.monetaryTotal "100.00" "121.00"
                   [Fixture.cbc "AllowanceTotalAmount" "0.00";
                    Fixture.cbc "ChargeTotalAmount" "0";
                    Fixture.cbc "PrepaidAmount" "0.0";
                    Fixture.cbc "PayableRoundingAmount" "-0"])
                "AllowanceTotalAmount") by (left; vm_compute; reflexivity).
  split; [exact Z|].
  refine (proj1 (proj1 zero_totals_read_as_absent Fixture.zeroTotalsInvoice _ _) Z).
  vm_compute. reflexivity.
Defined.

Example zero_totals_end_to_end :
  Fixture.parsed Fixture.zeroTotalsInvoice = Fixture.parsed Fixture.missingTotalsInvoice
  /\ exists result,
       Fixture.normalizeUblResponse (Fixture.serialize Fixture.zeroTotalsInvoice) "doc"
       = JS.Normal result
       /\ InvoiceDto.discount_total (Spec.dtoInvoice result) = Some 10%float
       /\ InvoiceDto.shipping_total (Spec.dtoInvoice result) = Some 4%float
       /\ InvoiceDto.amount_paid (Spec.dtoInvoice result) = None.
Proof.
  split; [vm_compute; reflexivity|].
  eexists. split; [vm_compute; reflexivity|]. vm_compute. repeat split.
Qed.

(** ** Results of the parse *)

Section ParseResults.
Import Dom.

Variable parseFromString : string -> ParseOutcome.

Lemma filter_nonempty {A : Type} (f : A -> bool) (l : list A) :
  (0 <? List.length (filter f l))%nat = existsb f l.
Proof.
  induction l as [|x l IH]; simpl; [reflexivity|].
  destruct (f x); simpl; [reflexivity|exact IH].
Qed.






Lemma parse_always_normal (xml : string) :
  exists result, Parser.parseUblInvoice parseFromString xml = JS.Normal result.
Proof.
  unfold Parser.parseUblInvoice.
  destruct (Parser.parseUblInvoice_try parseFromString xml) as [result|message];
    cbn [JS.tryCatch]; eauto.
Qed.

End ParseResults.




(** C10. [parseUblInvoice] returns on every text, a document model or
    null, and never throws: an error thrown under its [try], by the XML
    parser or by the code itself, is turned into null. *)
Theorem parseUblInvoice_never_throws :
  forall (parseFromString : string -> Dom.ParseOutcome) (xml : string),
    (exists result : option UblInvoice.t,
       Parser.parseUblInvoice parseFromString xml = JS.Normal result)
    /\ (forall message,
          Parser.parseUblInvoice_try parseFromString xml = JS.Throw message ->
          Parser.parseUblInvoice parseFromString xml = JS.Normal None)
    /\ (forall message,
          parseFromString xml = Dom.FatalError message ->
          Parser.parseUblInvoice_try parseFromString xml = JS.Throw message
          /\ Parser.parseUblInvoice parseFromString xml = JS.Normal None)
    /\ (parseFromString xml = Dom.NoRootElement ->
        (exists message,
           Parser.parseUblInvoice_try parseFromString xml = JS.Throw message)
        /\ Parser.parseUblInvoice parseFromString xml = JS.Normal None).
Proof.
  intros parseFromString xml.
  split; [apply parse_always_normal|]. split; [|split].
  - intros message H. unfold Parser.parseUblInvoice. now rewrite H.
  - intros message H. unfold Parser.parseUblInvoice, Parser.parseUblInvoice_try.
    rewrite H. split; reflexivity.
  - intros H. unfold Parser.parseUblInvoice, Parser.parseUblInvoice_try.
    rewrite H. split; [eexists|]; reflexivity.
Qed.

Lemma parseUblInvoice_never_throws_witness :
  Fixture.parseFromString "<bad" = Dom.FatalError "ParseError"
  /\ Parser.parseUblInvoice_try Fixture.parseFromString "<bad" = JS.Throw "ParseError"
  /\ Parser.parseUblInvoice Fixture.parseFromString "<bad" = JS.Normal None.
Proof.
  assert (E : Fixture.parseFromString "<bad" = Dom.FatalError "ParseError")
    by (vm_compute; reflexivity).
  split; [exact E|].
  exact (proj1 (proj2 (proj2 (parseUblInvoice_never_throws
                                Fixture.parseFromString "<bad"))) "ParseError" E).
Defined.

Example parse_failures :
  map Fixture.parseUblInvoice
    ["<bad"; ""; "<a><b></a>";
     Fixture.serialize (Fixture.invoice [Fixture.cbc "IssueDate" "2026-01-01"])]
  = [JS.Normal None; JS.Normal None; JS.Normal None; JS.Normal None]
  /\ Fixture.normalizeUblResponse "<bad" "doc" = JS.Throw "Failed to parse UBL invoice XML".
Proof. vm_compute. split; reflexivity. Qed.

(** ** Trimmed and normalized texts *)

Section Trimming.

Lemma trimEnd_idempotent (s : string) : JS.trimEnd (JS.trimEnd s) = JS.trimEnd s.
Proof.
  induction s as [|c r IH]; [reflexivity|].
  cbn [JS.trimEnd].
  destruct (JS.isWhiteSpace c && (JS.trimEnd r =? "")%string) eqn:E; [reflexivity|].
  cbn [JS.trimEnd]. now rewrite IH, E.
Qed.

Lemma trimStart_head (s : string) :
  match JS.trimStart s with
  | String c _ => JS.isWhiteSpace c = false
  | EmptyString => True
  end.
Proof.
  induction s as [|c r IH]; [exact I|].
  cbn [JS.trimStart]. now destruct (JS.isWhiteSpace c) eqn:E.
Qed.

Lemma trimStart_fixed (t : string) :
  match t with
  | String c _ => JS.isWhiteSpace c = false
  | EmptyString => True
  end ->
  JS.trimStart (JS.trimEnd t) = JS.trimEnd t.
Proof.
  destruct t as [|c r]; [reflexivity|]. intros H.
  cbn [JS.trimEnd]. rewrite H. cbn [andb JS.trimStart]. now rewrite H.
Qed.

Lemma trim_idempotent (s : string) : JS.trim (JS.trim s) = JS.trim s.
Proof.
  unfold JS.trim.
  rewrite (trimStart_fixed _ (trimStart_head s)). apply trimEnd_idempotent.
Qed.

Lemma upperUnit_trimStart (c : ascii) (u : string) :
  JS.trimStart (JS.upperUnit c ++ u)
  = if JS.isWhiteSpace c then JS.trimStart u else JS.upperUnit c ++ u.
Proof. each_code_unit c; reflexivity. Qed.

Lemma upperUnit_trimEnd (c : ascii) (u : string) :
  JS.trimEnd (JS.upperUnit c ++ u)
  = if JS.isWhiteSpace c && (JS.trimEnd u =? "")%string then ""
    else JS.upperUnit c ++ JS.trimEnd u.
Proof. each_code_unit c; reflexivity. Qed.

Lemma upperUnit_idempotent (c : ascii) :
  JS.toUpperCase (JS.upperUnit c) = JS.upperUnit c.
Proof. each_code_unit c; reflexivity. Qed.

Lemma append_associative (a b c : string) : ((a ++ b) ++ c = a ++ (b ++ c))%string.
Proof. induction a as [|x a IH]; [reflexivity|]. cbn [append]. now rewrite IH. Qed.

Lemma toUpperCase_append (s t : string) :
  JS.toUpperCase (s ++ t) = (JS.toUpperCase s ++ JS.toUpperCase t)%string.
Proof.
  induction s as [|c r IH]; [reflexivity|].
  cbn [append JS.toUpperCase]. now rewrite IH, append_associative.
Qed.

Lemma toUpperCase_idempotent (s : string) :
  JS.toUpperCase (JS.toUpperCase s) = JS.toUpperCase s.
Proof.
  induction s as [|c r IH]; [reflexivity|].
  cbn [JS.toUpperCase]. now rewrite toUpperCase_append, upperUnit_idempotent, IH.
Qed.

Lemma trimStart_upper (s : string) :
  JS.trimStart (JS.toUpperCase s) = JS.toUpperCase (JS.trimStart s).
Proof.
  induction s as [|c r IH]; [reflexivity|].
  cbn [JS.toUpperCase JS.trimStart]. rewrite upperUnit_trimStart.
  now destruct (JS.isWhiteSpace c).
Qed.

Lemma trimEnd_upper (s : string) :
  JS.trimEnd (JS.toUpperCase s) = JS.toUpperCase (JS.trimEnd s).
Proof.
  induction s as [|c r IH]; [reflexivity|].
  cbn [JS.toUpperCase JS.trimEnd]. rewrite upperUnit_trimEnd, IH, toUpperCase_empty.
  now destruct (JS.isWhiteSpace c && (JS.trimEnd r =? "")%string).
Qed.

Lemma trim_upper (s : string) :
  JS.trim (JS.toUpperCase s) = JS.toUpperCase (JS.trim s).
Proof. unfold JS.trim. now rewrite trimStart_upper, trimEnd_upper. Qed.

Lemma upperCaseInRange_append (s t : string) :
  JS.upperCaseInRange (s ++ t)
  = JS.upperCaseInRange s && JS.upperCaseInRange t.
Proof.
  induction s as [|c r IH]; [reflexivity|].
  cbn [append JS.upperCaseInRange]. rewrite IH. now rewrite andb_assoc.
Qed.

Lemma upperUnit_inRange (c : ascii) :
  JS.upperCaseInRange (String c "") = true ->
  JS.upperCaseInRange (JS.upperUnit c) = true.
Proof. each_code_unit c; intros H; try reflexivity; discriminate H. Qed.

Lemma toUpperCase_inRange (s : string) :
  JS.upperCaseInRange s = true -> JS.upperCaseInRange (JS.toUpperCase s) = true.
Proof.
  induction s as [|c r IH]; [reflexivity|].
  change (String c r) with (String c "" ++ r)%string at 1.
  rewrite upperCaseInRange_append. intros H. apply andb_prop in H as [C R].
  cbn [JS.toUpperCase]. rewrite upperCaseInRange_append, (upperUnit_inRange c C).
  now apply IH.
Qed.

Lemma trimStart_inRange (s : string) :
  JS.upperCaseInRange s = true -> JS.upperCaseInRange (JS.trimStart s) = true.
Proof.
  induction s as [|c r IH]; [reflexivity|]. intros H.
  cbn [JS.trimStart]. destruct (JS.isWhiteSpace c); [|exact H].
  apply IH. cbn [JS.upperCaseInRange] in H. now apply andb_prop in H as [_ R].
Qed.

Lemma trimEnd_inRange (s : string) :
  JS.upperCaseInRange s = true -> JS.upperCaseInRange (JS.trimEnd s) = true.
Proof.
  induction s as [|c r IH]; [reflexivity|]. intros H.
  cbn [JS.upperCaseInRange] in H. apply andb_prop in H as [C R].
  cbn [JS.trimEnd].
  destruct (JS.isWhiteSpace c && (JS.trimEnd r =? "")%string); [reflexivity|].
  cbn [JS.upperCaseInRange]. now rewrite C, (IH R).
Qed.

Lemma trim_inRange (s : string) :
  JS.upperCaseInRange s = true -> JS.upperCaseInRange (JS.trim s) = true.
Proof. intros H. unfold JS.trim. now apply trimEnd_inRange, trimStart_inRange. Qed.

End Trimming.

Lemma normalizeText_some (value : option string) (text : string) :
  Normalize.normalizeText value = Some text ->
  text <> "" /\ JS.trim text = text
  /\ JS.toUpperCase text <> "NA" /\ JS.toUpperCase text <> "N/A".
Proof.
  destruct value as [v|]; [|discriminate].
  unfold Normalize.normalizeText, JS.nonEmpty.
  destruct (v =? "")%string; cbn [negb]; [discriminate|].
  destruct (String.eqb_spec (JS.trim v) "") as [E|E]; cbn [negb]; [discriminate|].
  destruct (String.eqb_spec (JS.toUpperCase (JS.trim v)) "NA") as [A|A];
    cbn [orb]; [discriminate|].
  destruct (String.eqb_spec (JS.toUpperCase (JS.trim v)) "N/A") as [B|B];
    [discriminate|].
  intros H. injection H as <-. repeat split; try assumption. apply trim_idempotent.
Qed.

(** X1. A text that [normalizeText] returns is not empty, carries no white
    space at its ends, is neither NA nor N/A in any casing, and is returned
    unchanged when normalized again. *)
Theorem normalizeText_stable :
  forall (value : option string) (text : string),
    Normalize.normalizeText value = Some text ->
    text <> "" /\ JS.trim text = text
    /\ Spec.equalsIgnoreCase text "NA" = false
    /\ Spec.equalsIgnoreCase text "N/A" = false
    /\ Normalize.normalizeText (Some text) = Some text.
Proof.
  intros value text H.
  destruct (normalizeText_some value text H) as [N [T [A B]]].
  repeat split; try assumption.
  - rewrite <- toUpperCase_NA. now apply String.eqb_neq.
  - rewrite <- toUpperCase_N_A. now apply String.eqb_neq.
  - unfold Normalize.normalizeText, JS.nonEmpty. rewrite T.
    apply String.eqb_neq in N, A, B. now rewrite N, A, B.
Qed.

Lemma normalizeText_stable_witness :
  Normalize.normalizeText (Some "  Net 14 days ") = Some "Net 14 days"
  /\ Normalize.normalizeText (Some "Net 14 days") = Some "Net 14 days".
Proof.
  split; [reflexivity|].
  apply (normalizeText_stable (Some "  Net 14 days ") "Net 14 days"). reflexivity.
Defined.

(** X2. For a text whose letters have their upper case below 256: a
    currency that [normalizeCurrency] returns for it is not empty, in upper
    case and without white space at its ends, and is returned unchanged
    when normalized again; the casing of the text plays no part. Letters
    of Latin-1 are put in upper case as those of ASCII are, and a sharp s
    becomes SS. *)
Theorem normalizeCurrency_stable :
  (forall text code : string,
     JS.upperCaseInRange text = true ->
     Normalize.normalizeCurrency (Some text) = Some code ->
     code <> "" /\ JS.trim code = code /\ JS.toUpperCase code = code
     /\ JS.upperCaseInRange code = true
     /\ Normalize.normalizeCurrency (Some code) = Some code)
  /\ (forall text : string,
        JS.upperCaseInRange text = true ->
        Normalize.normalizeCurrency (Some (JS.toUpperCase text))
        = Normalize.normalizeCurrency (Some text))
  /\ Normalize.normalizeCurrency
       (Some (String (ascii_of_nat 233) (String (ascii_of_nat 223) "x")))
     = Some (String (ascii_of_nat 201) "SSX").
Proof.
  split; [|split].
  - intros v code R.
    unfold Normalize.normalizeCurrency, JS.nonEmpty.
    destruct (v =? "")%string; cbn [negb]; [discriminate|].
    destruct (String.eqb_spec (JS.trim v) "") as [E|E]; cbn [negb]; [discriminate|].
    intros H. injection H as <-.
    assert (N : JS.toUpperCase (JS.trim v) <> "").
    { intros Z. apply E. apply String.eqb_eq. rewrite <- toUpperCase_empty.
      now apply String.eqb_eq. }
    assert (T : JS.trim (JS.toUpperCase (JS.trim v)) = JS.toUpperCase (JS.trim v))
      by now rewrite trim_upper, trim_idempotent.
    repeat split; try assumption.
    + apply toUpperCase_idempotent.
    + now apply toUpperCase_inRange, trim_inRange.
    + rewrite T. apply String.eqb_neq in N. rewrite N. cbn [negb].
      now rewrite toUpperCase_idempotent.
  - intros text _. unfold Normalize.normalizeCurrency, JS.nonEmpty.
    rewrite toUpperCase_empty, trim_upper, toUpperCase_empty, toUpperCase_idempotent.
    reflexivity.
  - vm_compute. reflexivity.
Qed.

Lemma normalizeCurrency_stable_witness :
  JS.upperCaseInRange " eur " = true
  /\ Normalize.normalizeCurrency (Some " eur ") = Some "EUR"
  /\ Normalize.normalizeCurrency (Some "EUR") = Some "EUR".
Proof.
  split; [reflexivity|]. split; [reflexivity|].
  apply (proj1 normalizeCurrency_stable " eur " "EUR"); reflexivity.
Defined.

(** ** Invariants of the document model *)

Section ModelInvariants.
Import Dom.

Lemma cbcText_trimmed (parent : Element) (tag : string) :
  Props.trimmed (Parser.cbcText parent tag).
Proof.
  unfold Props.trimmed, Parser.cbcText, Parser.trimmedTextOf.
  destruct (hd_error _); [apply trim_idempotent|reflexivity].
Qed.

Lemma orUndefined_some (s t : string) :
  JS.orUndefined s = Some t -> t = s /\ s <> "".
Proof.
  unfold JS.orUndefined, JS.nonEmpty.
  destruct (String.eqb_spec s "") as [E|E]; cbn [negb]; [discriminate|].
  intros H. injection H as <-. now split.
Qed.

Lemma orUndefined_filled (s : string) : Props.absentOrFilled (JS.orUndefined s).
Proof.
  destruct (JS.orUndefined s) as [t|] eqn:E; [|exact I].
  destruct (orUndefined_some s t E) as [-> N]. exact N.
Qed.

Lemma cbcNumber_isNumber (parent : Element) (tag : string) :
  Props.isNumber (Parser.cbcNumber parent tag).
Proof.
  unfold Props.isNumber, Parser.cbcNumber, JS.Number_isNaN.
  destruct (PrimFloat.is_nan (JS.parseFloat (Parser.cbcText parent tag))) eqn:E;
    [reflexivity|exact E].
Qed.

Lemma cbcDirectNumber_isNumber (parent : Element) (tag : string) :
  Props.absentOrNumber (Parser.cbcDirectNumber parent tag).
Proof.
  unfold Props.absentOrNumber, Props.isNumber, Parser.cbcDirectNumber, JS.Number_isNaN.
  destruct (negb _); [exact I|].
  destruct (PrimFloat.is_nan _) eqn:E; [exact I|exact E].
Qed.

Lemma numberOrUndefined_nonZero (x : JS.Number) :
  Props.absentOrNonZero (JS.numberOrUndefined x).
Proof.
  unfold Props.absentOrNonZero, JS.numberOrUndefined, JS.truthyNumber.
  destruct (PrimFloat.is_zero x) eqn:Z; destruct (PrimFloat.is_nan x) eqn:N; cbn;
    rewrite ?Z, ?N; auto.
Qed.

Lemma parseTaxSubtotal_numbers (sub : Element) :
  Props.numbersOfSubtotal (Parser.parseTaxSubtotal sub).
Proof.
  unfold Props.numbersOfSubtotal.
  cbn [Parser.parseTaxSubtotal UblTaxSubtotal.taxableAmount UblTaxSubtotal.taxAmount
       UblTaxSubtotal.taxPercent].
  repeat split; try apply cbcNumber_isNumber.
  destruct (Parser.cacElement sub "TaxCategory"); [apply cbcNumber_isNumber|reflexivity].
Qed.

Lemma parseAllowanceCharge_numbers (charge : Element) :
  Props.numbersOfCharge (Parser.parseAllowanceCharge charge).
Proof.
  unfold Props.numbersOfCharge.
  cbn [Parser.parseAllowanceCharge UblAllowanceCharge.amount UblAllowanceCharge.baseAmount
       UblAllowanceCharge.multiplierFactorNumeric UblAllowanceCharge.taxPercent].
  repeat split; try apply cbcNumber_isNumber; try apply cbcDirectNumber_isNumber.
  destruct (Parser.cacElement charge "TaxCategory"); [apply cbcNumber_isNumber|exact I].
Qed.

Lemma parseLine_numbers (qtyTag : string) (line : Element) :
  Props.numbersOfLine (Parser.parseLine qtyTag line).
Proof.
  unfold Props.numbersOfLine. rewrite parseLine_taxPercent.
  cbn [Parser.parseLine UblLine.quantity UblLine.unitPrice UblLine.lineExtensionAmount].
  repeat split; try apply cbcNumber_isNumber.
  - destruct (Parser.cacElement line "Price"); [apply cbcNumber_isNumber|reflexivity].
  - unfold Spec.taxPercent, Spec.classifiedPercent.
    destruct (Spec.lineTaxSubtotals line) as [|first rest] eqn:L.
    + destruct (Parser.cacElement line "Item") as [item|]; [|exact I].
      destruct (Parser.cacElement item "ClassifiedTaxCategory");
        [apply cbcNumber_isNumber|exact I].
    + unfold Spec.lineTaxSubtotals in L.
      destruct (Spec.lineTaxTotal line) as [taxTotal|]; [|discriminate].
      destruct (Spec.directChildren taxTotal Parser.CAC_NS "TaxSubtotal") as [|e es];
        [discriminate|].
      cbn [map] in L. injection L as <- _. apply parseTaxSubtotal_numbers.
Qed.

Lemma parseMonetaryTotal_numbers (root : Element) :
  Props.numbersOfTotal (Parser.parseMonetaryTotal root).
Proof.
  unfold Props.numbersOfTotal, Parser.parseMonetaryTotal.
  destruct (Parser.cacDirectElement root "LegalMonetaryTotal") as [total|];
    cbn [UblMonetaryTotal.lineExtensionAmount UblMonetaryTotal.taxExclusiveAmount
         UblMonetaryTotal.taxInclusiveAmount UblMonetaryTotal.payableAmount
         UblMonetaryTotal.allowanceTotalAmount UblMonetaryTotal.chargeTotalAmount
         UblMonetaryTotal.prepaidAmount UblMonetaryTotal.payableRoundingAmount].
  - repeat (apply conj); try apply cbcNumber_isNumber; apply numberOrUndefined_nonZero.
  - repeat split; try reflexivity; exact I.
Qed.

End ModelInvariants.

(** ** What a returned document holds *)

Section ParsedDocument.
Import Dom.

Variable parseFromString : string -> ParseOutcome.

Lemma parse_some (xml : string) (ubl : UblInvoice.t) :
  Parser.parseUblInvoice parseFromString xml = JS.Normal (Some ubl) ->
  exists root,
    parseFromString xml = WellFormed root
    /\ Spec.holdsParsererror root = false
    /\ Props.parsedFrom root ubl
    /\ UblInvoice.id ubl <> "".
Proof.
  unfold Parser.parseUblInvoice, Parser.parseUblInvoice_try.
  destruct (parseFromString xml) as [root| | |report]; try discriminate.
  cbn [documentOf JS.bind JS.deref documentElement].
  unfold getElementsByTagName. cbn [documentElement].
    rewrite filter_nonempty.
    change (existsb _ (root :: descendants root)) with (Spec.holdsParsererror root).
    destruct (Spec.holdsParsererror root) eqn:P; [discriminate|].
    destruct (Parser.documentTypeOf (localName root)) as [documentType|] eqn:D;
      [|discriminate].
    unfold JS.nonEmpty.
    destruct (String.eqb_spec (Parser.cbcText root "ID") "") as [I|I]; cbn [negb];
      [discriminate|].
    cbn [JS.tryCatch]. intros H. injection H as <-.
    exists root. split; [reflexivity|]. split; [exact P|]. split; [|exact I].
    constructor; cbn; try reflexivity; try exact D; now destruct documentType.
Qed.

End ParsedDocument.

Lemma parseContact_filled (party : Dom.Element) (contact : UblContact.t) :
  Parser.parseContact party = Some contact -> Props.contactFilled contact.
Proof.
  unfold Parser.parseContact.
  destruct (Parser.cacElement party "Contact") as [el|]; [|discriminate].
  unfold JS.nonEmpty.
  destruct (String.eqb_spec (Parser.cbcText el "Name") "") as [N|N];
    destruct (String.eqb_spec (Parser.cbcText el "Telephone") "") as [P|P];
    destruct (String.eqb_spec (Parser.cbcText el "ElectronicMail") "") as [E|E];
    cbn [negb andb]; try discriminate; intros H; injection H as <-;
    unfold Props.contactFilled;
    cbn [UblContact.name UblContact.phone UblContact.email];
    (split; [|repeat split; apply orUndefined_filled]);
    unfold JS.orUndefined, JS.nonEmpty.
  all: match goal with
       | H : Parser.cbcText _ "Name" <> "" |- _ =>
           left; apply String.eqb_neq in H; rewrite H; discriminate
       | H : Parser.cbcText _ "Telephone" <> "" |- _ =>
           right; left; apply String.eqb_neq in H; rewrite H; discriminate
       | H : Parser.cbcText _ "ElectronicMail" <> "" |- _ =>
           right; right; apply String.eqb_neq in H; rewrite H; discriminate
       end.
Qed.

Lemma parseParty_contact (root : Dom.Element) (role : string) :
  Props.contactOfPartyFilled (Parser.parseParty root role).
Proof.
  unfold Props.contactOfPartyFilled, Parser.parseParty.
  destruct (Parser.cacElement root role) as [wrapper|]; [|exact I].
  destruct (Parser.cacElement wrapper "Party") as [party|]; [|exact I].
  cbn [UblParty.contact].
  destruct (Parser.parseContact party) as [contact|] eqn:C; [|exact I].
  now apply (parseContact_filled party).
Qed.

Lemma nonEmptyList_some {A : Type} (l : list A) :
  Props.absentOrNonEmpty (Parser.nonEmptyList l)
  /\ (Parser.nonEmptyList l = None <-> l = [])
  /\ (forall k, Parser.nonEmptyList l = Some k -> k = l).
Proof.
  unfold Parser.nonEmptyList. destruct l as [|x l]; cbn.
  - repeat split; try discriminate; auto.
  - repeat split; try discriminate. now intros k [= <-].
Qed.

Lemma parseAttachmentsLoop_kept (refs : list Dom.Element) :
  forall attachments,
    Forall Props.payloadKept attachments ->
    Forall Props.payloadKept (Parser.parseAttachmentsLoop refs attachments)
    /\ (List.length (Parser.parseAttachmentsLoop refs attachments)
        <= List.length attachments + List.length refs)%nat.
Proof.
  induction refs as [|ref rest IH]; intros attachments F; cbn [Parser.parseAttachmentsLoop].
  - split; [exact F|cbn; lia].
  - assert (S : Forall Props.payloadKept (Parser.parseAttachmentsLoop rest attachments)
                /\ (List.length (Parser.parseAttachmentsLoop rest attachments)
                    <= List.length attachments + List.length (ref :: rest))%nat).
    { destruct (IH attachments F) as [A B]. split; [exact A|cbn; lia]. }
    destruct (Parser.cacElement ref "Attachment") as [attachment|]; [|exact S].
    destruct (hd_error _) as [binaryEl|]; [|exact S].
    unfold JS.nonEmpty.
    destruct (String.eqb_spec (JS.trim (Dom.textContent binaryEl)) "") as [E|E];
      cbn [negb]; [exact S|].
    match goal with
    | |- Forall _ (Parser.parseAttachmentsLoop rest (attachments ++ [?a])%list) /\ _ =>
        destruct (IH (attachments ++ [a])%list) as [A B]
    end.
    + apply Forall_app. split; [exact F|]. constructor; [|constructor].
      split; cbn [UblAttachment.base64Content]; [exact E|apply trim_idempotent].
    + split; [exact A|]. rewrite length_app in B. cbn in *. lia.
Qed.

(** X4. In a document that [parseUblInvoice] returns no amount is NaN: the
    four required amounts of the monetary total, the quantity, unit price,
    line extension amount and tax percent of every line, the three numbers
    of every header tax subtotal and the amounts of every header
    allowance/charge; and an optional amount of the monetary total that is
    present is not zero. *)
Theorem parsed_numbers_never_nan :
  forall (parseFromString : string -> Dom.ParseOutcome) (xml : string)
         (ubl : UblInvoice.t),
    Parser.parseUblInvoice parseFromString xml = JS.Normal (Some ubl) ->
    Props.numbersOfTotal (UblInvoice.monetaryTotal ubl)
    /\ Forall Props.numbersOfLine (UblInvoice.lines ubl)
    /\ Forall Props.numbersOfSubtotal (UblInvoice.taxSubtotals ubl)
    /\ Forall Props.numbersOfCharge (Spec.headerCharges ubl).
Proof.
  intros parseFromString xml ubl H.
  destruct (parse_some parseFromString xml ubl H) as [root [_ [_ [F _]]]].
  destruct F. unfold Spec.headerCharges.
  rewrite parsed_monetaryTotal, parsed_lines, parsed_taxSubtotals, parsed_allowanceCharges.
  split; [apply parseMonetaryTotal_numbers|]. split; [|split].
  - unfold Parser.parseLines. apply Forall_forall. intros line I.
    apply in_map_iff in I. destruct I as [el [<- _]]. apply parseLine_numbers.
  - rewrite parseTaxSubtotals_flat. unfold Spec.headerTaxSubtotals.
    apply Forall_forall. intros sub I. apply in_concat in I.
    destruct I as [l [L I]]. apply in_map_iff in L. destruct L as [taxTotal [<- _]].
    apply in_map_iff in I. destruct I as [el [<- _]]. apply parseTaxSubtotal_numbers.
  - unfold Parser.parseAllowanceCharges. apply Forall_forall. intros charge I.
    apply in_map_iff in I. destruct I as [el [<- _]]. apply parseAllowanceCharge_numbers.
Qed.

Lemma parsed_numbers_never_nan_witness :
  exists ubl,
    Fixture.parseUblInvoice (Fixture.serialize Fixture.zeroTotalsInvoice)
    = JS.Normal (Some ubl)
    /\ Props.numbersOfTotal (UblInvoice.monetaryTotal ubl).
Proof.
  eexists.
  assert (H : Fixture.parseUblInvoice (Fixture.serialize Fixture.zeroTotalsInvoice)
              = JS.Normal (Some ?[ubl])) by (vm_compute; reflexivity).
  split; [exact H|].
  exact (proj1 (parsed_numbers_never_nan Fixture.parseFromString _ _ H)).
Defined.

(** X5. In a document that [parseUblInvoice] returns, an attachment list
    that is present is not empty and every attachment in it has a payload
    that is not empty and has no white space at its ends; a list of payment
    means that is present is not empty, and [paymentMeans] is its first
    entry; the contact of the seller and of the buyer, when present, has
    at least one text, and none of its texts is empty. *)
Theorem parsed_optionals_filled :
  forall (parseFromString : string -> Dom.ParseOutcome) (xml : string)
         (ubl : UblInvoice.t),
    Parser.parseUblInvoice parseFromString xml = JS.Normal (Some ubl) ->
    Props.absentOrNonEmpty (UblInvoice.attachments ubl)
    /\ Forall Props.payloadKept
         (match UblInvoice.attachments ubl with Some l => l | None => [] end)
    /\ Props.absentOrNonEmpty (UblInvoice.paymentMeansList ubl)
    /\ UblInvoice.paymentMeans ubl
       = match UblInvoice.paymentMeansList ubl with
         | Some l => hd_error l
         | None => None
         end
    /\ (UblInvoice.paymentMeans ubl = None <-> UblInvoice.paymentMeansList ubl = None)
    /\ Props.contactOfPartyFilled (UblInvoice.seller ubl)
    /\ Props.contactOfPartyFilled (UblInvoice.buyer ubl).
Proof.
  intros parseFromString xml ubl H.
  destruct (parse_some parseFromString xml ubl H) as [root [_ [_ [F _]]]].
  destruct F.
  rewrite parsed_attachments, parsed_paymentMeans, parsed_paymentMeansList,
    parsed_seller, parsed_buyer.
  unfold Parser.parseAttachments, Parser.parsePaymentMeansList.
  split; [apply nonEmptyList_some|]. split; [|split; [apply nonEmptyList_some|]].
  - destruct (parseAttachmentsLoop_kept
                (Parser.cacElements root "AdditionalDocumentReference") []
                (Forall_nil _)) as [K _].
    unfold Parser.nonEmptyList. now destruct (0 <? List.length _)%nat.
  - split; [reflexivity|]. split; [|split; apply parseParty_contact].
    unfold Parser.nonEmptyList.
    destruct (map Parser.parsePaymentMeansElement _) as [|pm rest]; cbn; split;
      try reflexivity; discriminate.
Qed.

Lemma parsed_optionals_filled_witness :
  exists ubl,
    Fixture.parseUblInvoice (Fixture.serialize Fixture.attachmentInvoice)
    = JS.Normal (Some ubl)
    /\ Props.absentOrNonEmpty (UblInvoice.attachments ubl)
    /\ option_map (@List.length _) (UblInvoice.attachments ubl) = Some 1%nat.
Proof.
  eexists.
  assert (H : Fixture.parseUblInvoice (Fixture.serialize Fixture.attachmentInvoice)
              = JS.Normal (Some ?[ubl])) by (vm_compute; reflexivity).
  split; [exact H|]. split; [|vm_compute; reflexivity].
  exact (proj1 (parsed_optionals_filled Fixture.parseFromString _ _ H)).
Defined.

(** ** Invariants of the DTO *)

Section DtoInvariants.

Variable Date_parse : string -> JS.Number.
Variable Date_toISOString : JS.Number -> string.

Lemma toNumberOrNull_finite (value : option JS.Number) :
  Props.nullOrFinite (Normalize.toNumberOrNull value).
Proof.
  rewrite toNumberOrNull_option. destruct value as [x|]; [|exact I].
  unfold Spec.numberOrNull. destruct (Spec.finite x) eqn:F; [exact F|exact I].
Qed.

Lemma nullish_finite (a b : option JS.Number) :
  Props.nullOrFinite a -> Props.nullOrFinite b -> Props.nullOrFinite (JS.nullish a b).
Proof. now destruct a. Qed.

Lemma lineItem_numbers (line : UblLine.t) :
  Props.numbersOfItem (Normalize.lineItem line).
Proof.
  unfold Props.numbersOfItem.
  cbn [Normalize.lineItem LineItem.quantity LineItem.unit_price LineItem.amount
       LineItem.tax_amount LineItem.tax_rate LineItem.discount_amount LineItem.extra
       LineExtra.charge_amount].
  repeat split; apply toNumberOrNull_finite.
Qed.

Lemma invoice_numbers (ubl : UblInvoice.t) (documentId : string) :
  Props.numbersOfInvoice
    (Spec.dtoInvoice
       (Normalize.normalizeParsed Date_parse Date_toISOString ubl documentId)).
Proof.
  unfold Props.numbersOfInvoice, Spec.dtoInvoice.
  cbn [Normalize.normalizeParsed NormalizeResult.extracted InvoiceExtractionDTO.invoice
       InvoiceDto.subtotal InvoiceDto.tax_total InvoiceDto.total InvoiceDto.amount_due
       InvoiceDto.amount_paid InvoiceDto.discount_total InvoiceDto.shipping_total].
  repeat (apply conj);
    repeat (apply nullish_finite); try apply toNumberOrNull_finite.
  - destruct (JS.nullish _ _) as [total|]; [|exact I].
    destruct (Normalize.toNumberOrNull _) as [due|]; [|exact I].
    destruct (JS.gt total due); [apply toNumberOrNull_finite|exact I].
  - destruct (0 <? _)%nat; [apply toNumberOrNull_finite|exact I].
  - destruct (0 <? _)%nat; [apply toNumberOrNull_finite|exact I].
Qed.

End DtoInvariants.

(** X6. Every Number of the DTO is null or finite: the seven amounts of the
    invoice, and the quantity, unit price, amount, tax amount, tax rate,
    discount amount and charge amount of every line item. *)
Theorem dto_numbers_null_or_finite :
  forall (Date_parse : string -> JS.Number) (Date_toISOString : JS.Number -> string)
         (ubl : UblInvoice.t) (documentId : string),
    let result := Normalize.normalizeParsed Date_parse Date_toISOString ubl documentId in
    Props.numbersOfInvoice (Spec.dtoInvoice result)
    /\ Forall Props.numbersOfItem
         (InvoiceExtractionDTO.line_items (NormalizeResult.extracted result)).
Proof.
  intros Date_parse Date_toISOString ubl documentId result. subst result.
  split; [apply invoice_numbers|].
  cbn [Normalize.normalizeParsed NormalizeResult.extracted
       InvoiceExtractionDTO.line_items].
  apply Forall_forall. intros item I. apply in_map_iff in I.
  destruct I as [line [<- _]]. apply lineItem_numbers.
Qed.

Lemma ltb_irreflexive (x : JS.Number) : PrimFloat.ltb x x = false.
Proof.
  rewrite FloatAxioms.ltb_spec. unfold SFltb.
  destruct (Prim2SF x) as [s|s| |s m e]; cbn [SFcompare].
  - reflexivity.
  - now destruct s.
  - reflexivity.
  - destruct s; rewrite Z.compare_refl, Pos.compare_cont_refl; reflexivity.
Qed.

(** X7. [amount_paid] is the prepaid amount when that is present and
    finite; otherwise it is the total less the amount due when both are
    known, the total is the larger and the difference is finite, and null
    when not. Without a prepaid amount and with a payable amount equal to a
    finite tax-inclusive amount it is null. *)
Theorem amount_paid_derivation :
  forall (Date_parse : string -> JS.Number) (Date_toISOString : JS.Number -> string)
         (ubl : UblInvoice.t) (documentId : string),
    let dto :=
      Spec.dtoInvoice
        (Normalize.normalizeParsed Date_parse Date_toISOString ubl documentId) in
    let monetaryTotal := UblInvoice.monetaryTotal ubl in
    InvoiceDto.amount_paid dto = Props.paidAmount ubl
    /\ (UblMonetaryTotal.prepaidAmount monetaryTotal = None ->
        UblMonetaryTotal.payableAmount monetaryTotal
        = UblMonetaryTotal.taxInclusiveAmount monetaryTotal ->
        InvoiceDto.amount_paid dto = None).
Proof.
  intros Date_parse Date_toISOString ubl documentId dto monetaryTotal.
  subst dto monetaryTotal.
  split; [apply amount_paid_derived|].
  intros P E. rewrite amount_paid_derived, P.
  unfold Spec.paidByDifference. cbv zeta. rewrite E.
  destruct (Spec.numberOrNull _) as [total|]; [|reflexivity].
  now rewrite ltb_irreflexive.
Qed.

Lemma amount_paid_derivation_witness :
  (exists ubl,
     Fixture.parsed Fixture.minimalInvoice = Some ubl
     /\ UblMonetaryTotal.prepaidAmount (UblInvoice.monetaryTotal ubl) = None
     /\ UblMonetaryTotal.payableAmount (UblInvoice.monetaryTotal ubl) = 121%float
     /\ InvoiceDto.amount_paid
          (Spec.dtoInvoice
             (Normalize.normalizeParsed Fixture.Date_parse Fixture.Date_toISOString
                ubl "doc")) = None)
  /\ (exists ubl,
        Fixture.parsed Fixture.overflowDifferenceInvoice = Some ubl
        /\ UblMonetaryTotal.taxInclusiveAmount (UblInvoice.monetaryTotal ubl)
           = 1e308%float
        /\ UblMonetaryTotal.payableAmount (UblInvoice.monetaryTotal ubl)
           = (- 1e308)%float
        /\ PrimFloat.is_infinity (1e308 - - 1e308)%float = true
        /\ InvoiceDto.amount_paid
             (Spec.dtoInvoice
                (Normalize.normalizeParsed Fixture.Date_parse Fixture.Date_toISOString
                   ubl "doc")) = None).
Proof.
  split.
  - eexists. split; [vm_compute; reflexivity|]. split; [reflexivity|].
    split; [reflexivity|].
    refine (proj2 (amount_paid_derivation Fixture.Date_parse Fixture.Date_toISOString
                     _ "doc") _ _); reflexivity.
  - eexists. split; [vm_compute; reflexivity|]. split; [vm_compute; reflexivity|].
    split; [vm_compute; reflexivity|]. split; [vm_compute; reflexivity|].
    rewrite (proj1 (amount_paid_derivation Fixture.Date_parse Fixture.Date_toISOString
                      _ "doc")).
    vm_compute. reflexivity.
Defined.

Lemma normalizeText_of_trimmed (text : string) :
  text <> "" -> JS.trim text = text ->
  Normalize.normalizeText (Some text)
  = if Props.notAvailable text then None else Some text.
Proof.
  intros N T. unfold Normalize.normalizeText, JS.nonEmpty, Props.notAvailable.
  rewrite T. apply String.eqb_neq in N. rewrite N. cbn [negb].
  now rewrite toUpperCase_NA, toUpperCase_N_A.
Qed.

Section EndToEnd.

Variable parseFromString : string -> Dom.ParseOutcome.
Variable Date_parse : string -> JS.Number.
Variable Date_toISOString : JS.Number -> string.

Lemma normalize_some (xml documentId : string) (result : NormalizeResult.t) :
  Normalize.normalizeUblResponse parseFromString Date_parse Date_toISOString
    xml documentId = JS.Normal result ->
  exists ubl,
    Parser.parseUblInvoice parseFromString xml = JS.Normal (Some ubl)
    /\ result = Normalize.normalizeParsed Date_parse Date_toISOString ubl documentId.
Proof.
  unfold Normalize.normalizeUblResponse.
  destruct (Parser.parseUblInvoice parseFromString xml) as [[ubl|]|message];
    cbn [JS.bind]; try discriminate.
  intros H. injection H as <-. now exists ubl.
Qed.

Lemma normalize_from_root (xml documentId : string) (result : NormalizeResult.t) :
  Normalize.normalizeUblResponse parseFromString Date_parse Date_toISOString
    xml documentId = JS.Normal result ->
  exists ubl root,
    parseFromString xml = Dom.WellFormed root
    /\ Props.parsedFrom root ubl
    /\ UblInvoice.id ubl <> ""
    /\ result = Normalize.normalizeParsed Date_parse Date_toISOString ubl documentId.
Proof.
  intros H. destruct (normalize_some xml documentId result H) as [ubl [P R]].
  destruct (parse_some parseFromString xml ubl P) as [root [E [_ [F N]]]].
  now exists ubl, root.
Qed.

End EndToEnd.

(** X8. In every result of [normalizeUblResponse] the document id is the
    caller's, and the invoice number is the id of the document, which is
    the trimmed text of the first ID below the root; it is null only when
    that id is NA or N/A in some casing. *)
Theorem invoice_number_is_document_id :
  forall (parseFromString : string -> Dom.ParseOutcome)
         (Date_parse : string -> JS.Number) (Date_toISOString : JS.Number -> string)
         (xml documentId : string) (result : NormalizeResult.t),
    Normalize.normalizeUblResponse parseFromString Date_parse Date_toISOString
      xml documentId = JS.Normal result ->
    exists root,
      parseFromString xml = Dom.WellFormed root
      /\ InvoiceExtractionDTO.document_id (NormalizeResult.extracted result) = documentId
      /\ UblInvoice.id (RawPayload.invoice (NormalizeResult.rawPayload result))
         = Parser.cbcText root "ID"
      /\ InvoiceDto.invoice_number (Spec.dtoInvoice result)
         = if Props.notAvailable (Parser.cbcText root "ID") then None
           else Some (Parser.cbcText root "ID").
Proof.
  intros parseFromString Date_parse Date_toISOString xml documentId result H.
  destruct (normalize_from_root _ _ _ _ _ _ H) as [ubl [root [E [F [N ->]]]]].
  exists root. destruct F. split; [exact E|]. split; [reflexivity|].
  split; [exact parsed_id|].
  unfold Spec.dtoInvoice.
  cbn [Normalize.normalizeParsed NormalizeResult.extracted InvoiceExtractionDTO.invoice
       InvoiceDto.invoice_number].
  rewrite parsed_id in *. apply normalizeText_of_trimmed; [exact N|apply cbcText_trimmed].
Qed.

Lemma invoice_number_is_document_id_witness :
  exists result root,
    Fixture.normalizeUblResponse (Fixture.serialize Fixture.minimalInvoice) "doc"
    = JS.Normal result
    /\ Fixture.parseFromString (Fixture.serialize Fixture.minimalInvoice)
       = Dom.WellFormed root
    /\ InvoiceDto.invoice_number (Spec.dtoInvoice result)
       = if Props.notAvailable (Parser.cbcText root "ID") then None
         else Some (Parser.cbcText root "ID").
Proof.
  eexists.
  assert (H : Fixture.normalizeUblResponse
                (Fixture.serialize Fixture.minimalInvoice) "doc"
              = JS.Normal ?[result]) by (vm_compute; reflexivity).
  destruct (invoice_number_is_document_id _ _ _ _ _ _ H) as [root [E [_ [_ I]]]].
  exists root. split; [exact H|]. split; [exact E|exact I].
Defined.

(** X9. In every result of [normalizeUblResponse] the list of payment
    means of the DTO has one entry for each PaymentMeans element of the
    document, in document order; [payment_means] is the first of them, and
    the IBAN and BIC of the supplier are those of the first. *)
Theorem payment_means_in_document_order :
  forall (parseFromString : string -> Dom.ParseOutcome)
         (Date_parse : string -> JS.Number) (Date_toISOString : JS.Number -> string)
         (xml documentId : string) (result : NormalizeResult.t),
    Normalize.normalizeUblResponse parseFromString Date_parse Date_toISOString
      xml documentId = JS.Normal result ->
    exists root,
      parseFromString xml = Dom.WellFormed root
      /\ InvoiceExtra.payment_means_list (Props.extraOf result)
         = map Normalize.paymentMeansDto (Props.paymentMeansOf root)
      /\ InvoiceExtra.payment_means (Props.extraOf result)
         = hd_error (map Normalize.paymentMeansDto (Props.paymentMeansOf root))
      /\ SupplierDto.iban (InvoiceDto.supplier (Spec.dtoInvoice result))
         = match hd_error (Props.paymentMeansOf root) with
           | Some first => Normalize.normalizeText (UblPaymentMeans.iban first)
           | None => None
           end
      /\ SupplierDto.bic (InvoiceDto.supplier (Spec.dtoInvoice result))
         = match hd_error (Props.paymentMeansOf root) with
           | Some first => Normalize.normalizeText (UblPaymentMeans.bic first)
           | None => None
           end.
Proof.
  intros parseFromString Date_parse Date_toISOString xml documentId result H.
  destruct (normalize_from_root _ _ _ _ _ _ H) as [ubl [root [E [F [N ->]]]]].
  exists root. destruct F. split; [exact E|].
  unfold Props.extraOf, Spec.dtoInvoice.
  cbn [Normalize.normalizeParsed NormalizeResult.extracted InvoiceExtractionDTO.invoice
       InvoiceDto.extra InvoiceDto.supplier InvoiceExtra.payment_means_list
       InvoiceExtra.payment_means SupplierDto.iban SupplierDto.bic].
  rewrite parsed_paymentMeansList, parsed_paymentMeans.
  unfold Parser.parsePaymentMeansList, Parser.nonEmptyList, Parser.cacElements.
  fold (Props.paymentMeansOf root).
  destruct (Props.paymentMeansOf root) as [|first rest]; cbn; repeat split.
Qed.

Lemma payment_means_in_document_order_witness :
  exists result root,
    Fixture.normalizeUblResponse (Fixture.serialize Fixture.twoPaymentMeansInvoice) "doc"
    = JS.Normal result
    /\ Fixture.parseFromString (Fixture.serialize Fixture.twoPaymentMeansInvoice)
       = Dom.WellFormed root
    /\ map UblPaymentMeans.code (Props.paymentMeansOf root) = ["30"; "58"]
    /\ InvoiceExtra.payment_means_list (Props.extraOf result)
       = map Normalize.paymentMeansDto (Props.paymentMeansOf root)
    /\ map PaymentMeansDto.iban (InvoiceExtra.payment_means_list (Props.extraOf result))
       = [Some "BE68539007547034"; Some "NL91ABNA0417164300"]
    /\ option_map PaymentMeansDto.code (InvoiceExtra.payment_means (Props.extraOf result))
       = Some (Some "30")
    /\ SupplierDto.iban (InvoiceDto.supplier (Spec.dtoInvoice result))
       = Some "BE68539007547034"
    /\ SupplierDto.bic (InvoiceDto.supplier (Spec.dtoInvoice result))
       = Some "GKCCBEBB".
Proof.
  eexists.
  assert (H : Fixture.normalizeUblResponse
                (Fixture.serialize Fixture.twoPaymentMeansInvoice) "doc"
              = JS.Normal ?[result]) by (vm_compute; reflexivity).
  destruct (payment_means_in_document_order _ _ _ _ _ _ H) as [root [E [L _]]].
  exists root. split; [exact H|]. split; [exact E|].
  assert (R : root = Fixture.twoPaymentMeansInvoice).
  { assert (E' : Fixture.parseFromString (Fixture.serialize Fixture.twoPaymentMeansInvoice)
                 = Dom.WellFormed Fixture.twoPaymentMeansInvoice)
      by (vm_compute; reflexivity).
    rewrite E in E'. now injection E'. }
  split; [rewrite R; vm_compute; reflexivity|]. split; [exact L|].
  repeat split; vm_compute; reflexivity.
Defined.

(** X10. The description of a line item of the DTO is the normalized
    description of the line, else the normalized name of the item, else the
    text [Line item]; so it is never empty and has no white space at its
    ends. *)
Theorem line_item_description_filled :
  forall line : UblLine.t,
    LineItem.description (Normalize.lineItem line)
    = match Spec.normalizedText (Some (UblLine.description line)) with
      | Some description => description
      | None =>
          match Spec.normalizedText (UblLine.itemName line) with
          | Some name => name
          | None => "Line item"
          end
      end
    /\ LineItem.description (Normalize.lineItem line) <> ""
    /\ Props.trimmed (LineItem.description (Normalize.lineItem line))
    /\ (Normalize.normalizeText (Some (UblLine.description line)) = None ->
        Normalize.normalizeText (UblLine.itemName line) = None ->
        LineItem.description (Normalize.lineItem line) = "Line item").
Proof.
  intros line. split.
  { cbn [Normalize.lineItem LineItem.description].
    rewrite <- !normalizeText_normalized.
    destruct (Normalize.normalizeText (Some (UblLine.description line)));
      [reflexivity|].
    now destruct (Normalize.normalizeText (UblLine.itemName line)). }
  cbn [Normalize.lineItem LineItem.description]. unfold Props.trimmed.
  destruct (Normalize.normalizeText (Some (UblLine.description line))) as [d|] eqn:D;
    cbn [JS.nullish JS.nullishOr].
  - destruct (normalizeText_some _ _ D) as [N [T _]]. repeat split; try assumption.
    discriminate.
  - destruct (Normalize.normalizeText (UblLine.itemName line)) as [n|] eqn:I;
      cbn [JS.nullishOr].
    + destruct (normalizeText_some _ _ I) as [N [T _]]. repeat split; try assumption.
      discriminate.
    + repeat split; discriminate.
Qed.

Lemma line_item_description_filled_witness :
  (Normalize.normalizeText (Some "  ") = None
   /\ LineItem.description
        (Normalize.lineItem (Parser.parseLine "InvoicedQuantity"
                               (Fixture.cac "InvoiceLine" [Fixture.cbc "ID" "1"])))
      = "Line item")
  /\ (UblLine.description (Parser.parseLine "InvoicedQuantity" Fixture.namedLine)
      = "N/A"
      /\ UblLine.itemName (Parser.parseLine "InvoicedQuantity" Fixture.namedLine)
         = Some "Consulting"
      /\ LineItem.description
           (Normalize.lineItem (Parser.parseLine "InvoicedQuantity" Fixture.namedLine))
         = "Consulting")
  /\ LineItem.description
       (Normalize.lineItem (Parser.parseLine "InvoicedQuantity" (Fixture.line [])))
     = "Consulting services".
Proof.
  split.
  { split; [reflexivity|].
    apply (proj2 (proj2 (proj2 (line_item_description_filled
                                  (Parser.parseLine "InvoicedQuantity"
                                     (Fixture.cac "InvoiceLine" [Fixture.cbc "ID" "1"]))))));
      reflexivity. }
  split.
  { split; [reflexivity|]. split; [reflexivity|].
    rewrite (proj1 (line_item_description_filled _)). reflexivity. }
  rewrite (proj1 (line_item_description_filled _)). reflexivity.
Defined.

(** ** Sizes, addresses and dates *)

Section Base64.

Lemma length_list_ascii (s : string) :
  List.length (list_ascii_of_string s) = String.length s.
Proof. induction s as [|c r IH]; cbn; [reflexivity|now rewrite IH]. Qed.

Lemma removeWhiteSpace_length (s : string) :
  (String.length (JS.removeWhiteSpace s) <= String.length s)%nat.
Proof.
  induction s as [|c r IH]; cbn; [lia|].
  destruct (JS.isWhiteSpace c); cbn; lia.
Qed.

Lemma removeWhiteSpace_append (a b : string) :
  JS.removeWhiteSpace (a ++ b) = JS.removeWhiteSpace a ++ JS.removeWhiteSpace b.
Proof.
  induction a as [|c r IH]; cbn; [reflexivity|].
  destruct (JS.isWhiteSpace c); cbn; now rewrite IH.
Qed.

Lemma padding_bounds (text : string) :
  0 <= Spec.padding text <= 2
  /\ Spec.padding text <= Z.of_nat (String.length text).
Proof.
  unfold Spec.padding. rewrite <- length_list_ascii, <- length_rev.
  destruct (rev (list_ascii_of_string text)) as [|c [|d r]]; cbn [List.length].
  - lia.
  - each_code_unit c; lia.
  - each_code_unit c; try lia; each_code_unit d; lia.
Qed.

End Base64.

(** X11. The size that [base64ByteLength] reports lies between -1 and
    three quarters of the length of the content, and white space anywhere
    in the content does not change it. *)
Theorem base64ByteLength_bounds :
  (forall content : string,
     -1 <= Normalize.base64ByteLength content
     /\ Normalize.base64ByteLength content
        <= Z.of_nat (String.length content) * 3 / 4)
  /\ (forall before space after : string,
        JS.removeWhiteSpace space = "" ->
        Normalize.base64ByteLength (before ++ space ++ after)
        = Normalize.base64ByteLength (before ++ after)).
Proof.
  split.
  - intros content. rewrite base64ByteLength_spec. unfold Spec.decodedLength.
    rewrite <- removeWhiteSpace_spec.
    pose proof (removeWhiteSpace_length content) as L.
    destruct (padding_bounds (JS.removeWhiteSpace content)) as [[P0 P2] PL].
    set (n := Z.of_nat (String.length (JS.removeWhiteSpace content))) in *.
    assert (N : 0 <= n) by (subst n; lia).
    split.
    + assert (D : Spec.padding (JS.removeWhiteSpace content) - 1 <= n * 3 / 4).
      { apply Z.div_le_lower_bound; lia. }
      lia.
    + assert (D : n * 3 / 4 <= Z.of_nat (String.length content) * 3 / 4).
      { apply Z.div_le_mono; lia. }
      lia.
  - intros before space after H. unfold Normalize.base64ByteLength.
    now rewrite !removeWhiteSpace_append, H.
Qed.

Lemma base64ByteLength_bounds_witness :
  JS.removeWhiteSpace JS.newline = ""
  /\ Normalize.base64ByteLength ("SGVs" ++ JS.newline ++ "bG8=")
     = Normalize.base64ByteLength ("SGVs" ++ "bG8=").
Proof.
  split; [reflexivity|].
  apply (proj2 base64ByteLength_bounds "SGVs" JS.newline "bG8="). reflexivity.
Defined.

Section Addresses.

Lemma append_filled (a b : string) : a <> "" -> a ++ b <> "".
Proof. destruct a; [congruence|discriminate]. Qed.

Lemma join_filled (sep : string) (parts : list string) :
  parts <> [] -> Forall (fun part => part <> "") parts -> JS.join sep parts <> "".
Proof.
  destruct parts as [|p rest]; [congruence|]. intros _ F.
  apply Forall_inv in F. cbn [JS.join].
  destruct rest; [exact F|now apply append_filled].
Qed.

Lemma filledParts_filled (parts : list (option string)) :
  Forall (fun part => part <> "") (Normalize.filledParts parts).
Proof.
  induction parts as [|[p|] rest IH]; cbn [Normalize.filledParts]; auto.
  unfold JS.nonEmpty.
  destruct (String.eqb_spec p "") as [E|E]; cbn [negb andb]; [exact IH|].
  destruct (0 <? String.length (JS.trim p))%nat; auto.
Qed.

(** A line of the address text is not empty as soon as one of its parts
    has a text that normalizes. *)
Lemma filledParts_keeps (parts : list (option string)) (part text : string) :
  In (Some part) parts ->
  Normalize.normalizeText (Some part) = Some text ->
  JS.join " " (Normalize.filledParts parts) <> "".
Proof.
  intros I N. apply join_filled; [|apply filledParts_filled].
  assert (K : JS.nonEmpty part && (0 <? String.length (JS.trim part))%nat = true).
  { revert N. unfold Normalize.normalizeText, JS.nonEmpty.
    destruct (part =? "")%string; cbn [negb andb]; [discriminate|].
    destruct (JS.trim part) as [|c r]; [discriminate|reflexivity]. }
  induction parts as [|[p|] rest IH]; [destruct I| |].
  - cbn [Normalize.filledParts]. destruct I as [[= ->]|I].
    + rewrite K. discriminate.
    + destruct (JS.nonEmpty p && _); [discriminate|now apply IH].
  - destruct I as [|I]; [discriminate|]. now apply IH.
Qed.

Lemma normalizeText_of_line (line text : string) :
  Normalize.normalizeText (Some line) = Some text -> line <> "".
Proof. destruct line; [discriminate|discriminate]. Qed.

End Addresses.

(** X12. The text of an address is never the empty text, the second line
    of a structured address is never set, and whenever an address has a
    structured form it has a text as well. *)
Theorem address_text_and_structure :
  forall address : UblAddress.t,
    (forall text, Normalize.addressToString (Some address) = Some text -> text <> "")
    /\ (forall structured,
          Normalize.addressToStructured (Some address) = Some structured ->
          StructuredAddress.line2 structured = None
          /\ Normalize.addressToString (Some address) <> None).
Proof.
  intros address. split.
  - intros text. cbn [Normalize.addressToString].
    set (lines := filter _ _).
    destruct (0 <? List.length lines)%nat eqn:L; [|discriminate].
    intros H. injection H as <-. apply join_filled.
    + destruct lines; [discriminate|discriminate].
    + apply Forall_forall. intros line I. apply filter_In in I. destruct I as [_ I].
      destruct line; [discriminate|discriminate].
  - intros structured. cbn [Normalize.addressToStructured Normalize.addressToString].
    set (street := JS.join " " _).
    set (cityLine := JS.join " " (Normalize.filledParts
                                    [Some (UblAddress.postalZone address);
                                     Some (UblAddress.city address)])).
    set (countryLine := JS.join " " (Normalize.filledParts
                                       [UblAddress.countrySubentity address;
                                        Some (UblAddress.countryCode address)])).
    destruct (existsb _ _) eqn:V; [|discriminate].
    intros H. injection H as <-. split; [reflexivity|].
    assert (K : street <> "" \/ cityLine <> "" \/ countryLine <> "").
    { cbn [existsb StructuredAddress.line1 StructuredAddress.line2 StructuredAddress.city
           StructuredAddress.state StructuredAddress.postal_code StructuredAddress.country
           Normalize.truthyText] in V.
      destruct (Normalize.normalizeText (Some street)) as [t|] eqn:N1.
      { left. now apply (normalizeText_of_line street t). }
      destruct (Normalize.normalizeText (Some (UblAddress.city address))) as [t|] eqn:N2.
      { right. left. apply (filledParts_keeps _ (UblAddress.city address) t);
          [cbn; auto|exact N2]. }
      destruct (Normalize.normalizeText (UblAddress.countrySubentity address))
        as [t|] eqn:N3.
      { right. right. destruct (UblAddress.countrySubentity address) as [s|] eqn:S;
          [|discriminate].
        apply (filledParts_keeps _ s t); [cbn; auto|exact N3]. }
      destruct (Normalize.normalizeText (Some (UblAddress.postalZone address)))
        as [t|] eqn:N4.
      { right. left. apply (filledParts_keeps _ (UblAddress.postalZone address) t);
          [cbn; auto|exact N4]. }
      destruct (Normalize.normalizeText (Some (UblAddress.countryCode address)))
        as [t|] eqn:N5.
      { right. right. apply (filledParts_keeps _ (UblAddress.countryCode address) t);
          [cbn; auto|exact N5]. }
      cbn in V. discriminate. }
    destruct street as [|c1 r1]; destruct cityLine as [|c2 r2];
      destruct countryLine as [|c3 r3]; cbn; try discriminate.
    destruct K as [K|[K|K]]; congruence.
Qed.

Lemma address_text_and_structure_witness :
  Normalize.addressToString (Some Sample.address)
  = Some ("Main Street 10" ++ JS.newline ++ "1000 Brussels" ++ JS.newline ++ "BE")
  /\ "Main Street 10" ++ JS.newline ++ "1000 Brussels" ++ JS.newline ++ "BE" <> "".
Proof.
  split; [reflexivity|].
  refine (proj1 (address_text_and_structure Sample.address) _ _). reflexivity.
Defined.

Example address_not_available :
  Normalize.addressToString (Some Sample.unavailableAddress) = Some "NA"
  /\ Normalize.addressToStructured (Some Sample.unavailableAddress) = None.
Proof. split; reflexivity. Qed.

Lemma substring_length (n : nat) : forall s : string,
  (String.length (substring 0 n s) <= n)%nat.
Proof.
  induction n as [|n IH]; intros [|c r]; cbn; try lia.
  specialize (IH r). lia.
Qed.

(** X13. [parseDate] reads its input through the trimmed text only; it
    gives null for a missing or blank input and for a text that
    [Date.parse] does not read; a date it returns is the ISO text of the
    parsed time cut after ten characters. *)
Theorem parseDate_trimmed_prefix :
  forall (Date_parse : string -> JS.Number) (Date_toISOString : JS.Number -> string),
    (forall text : string,
       Normalize.parseDate Date_parse Date_toISOString (Some text)
       = Normalize.parseDate Date_parse Date_toISOString (Some (JS.trim text)))
    /\ (forall text : string,
          JS.trim text = "" \/ PrimFloat.is_nan (Date_parse (JS.trim text)) = true ->
          Normalize.parseDate Date_parse Date_toISOString (Some text) = None)
    /\ (forall (value : option string) (date : string),
          Normalize.parseDate Date_parse Date_toISOString value = Some date ->
          (String.length date <= 10)%nat
          /\ exists text,
               value = Some text
               /\ date = substring 0 10 (Date_toISOString (Date_parse (JS.trim text)))).
Proof.
  intros Date_parse Date_toISOString. split; [|split].
  - intros text. unfold Normalize.parseDate, JS.nonEmpty.
    rewrite trim_idempotent.
    destruct (String.eqb_spec text "") as [->|N]; [reflexivity|].
    cbn [negb]. destruct (JS.trim text =? "")%string; reflexivity.
  - intros text H. unfold Normalize.parseDate, JS.nonEmpty, JS.Number_isNaN.
    destruct (text =? "")%string; cbn [negb]; [reflexivity|].
    destruct H as [-> | ->]; [reflexivity|].
    now destruct (JS.trim text =? "")%string.
  - intros [text|] date; [|discriminate].
    unfold Normalize.parseDate, JS.nonEmpty, JS.Number_isNaN, JS.sliceTo.
    destruct (text =? "")%string; cbn [negb]; [discriminate|].
    destruct (JS.trim text =? "")%string; cbn [negb]; [discriminate|].
    destruct (PrimFloat.is_nan _); [discriminate|].
    intros H. injection H as <-. split; [apply substring_length|].
    now exists text.
Qed.

Lemma parseDate_trimmed_prefix_witness :
  Normalize.parseDate Sample.Date_parse Sample.Date_toISOString (Some " 2026-02-25 ")
  = Some "2026-02-25"
  /\ (String.length "2026-02-25" <= 10)%nat.
Proof.
  split; [reflexivity|].
  refine (proj1 (proj2 (proj2 (parseDate_trimmed_prefix
                                 Sample.Date_parse Sample.Date_toISOString))
                  (Some " 2026-02-25 ") "2026-02-25" _)).
  reflexivity.
Defined.

(** ** Missing aggregates and allowance/charges *)

Section Edges.

Variable parseFromString : string -> Dom.ParseOutcome.
Variable Date_parse : string -> JS.Number.
Variable Date_toISOString : JS.Number -> string.

(** The result of the normalizer on a text that the parser reads as the
    tree [root]. *)
Lemma normalize_of_root (xml documentId : string) (result : NormalizeResult.t)
  (root : Dom.Element) :
  parseFromString xml = Dom.WellFormed root ->
  Normalize.normalizeUblResponse parseFromString Date_parse Date_toISOString
    xml documentId = JS.Normal result ->
  exists ubl,
    Props.parsedFrom root ubl
    /\ result = Normalize.normalizeParsed Date_parse Date_toISOString ubl documentId.
Proof.
  intros E H.
  destruct (normalize_from_root _ _ _ _ _ _ H) as [ubl [root' [E' [F [_ R]]]]].
  rewrite E in E'. injection E' as <-. now exists ubl.
Qed.

End Edges.

Lemma parseAllowanceCharges_direct (parent : Dom.Element) :
  Parser.parseAllowanceCharges parent = Props.lineCharges parent.
Proof.
  unfold Parser.parseAllowanceCharges, Props.lineCharges, Parser.cacDirectElements.
  now rewrite childElementsByTagNs_spec.
Qed.

Lemma line_sum_fold (indicator : bool) (charges : list UblAllowanceCharge.t) :
  forall start,
    fold_left (fun sum charge =>
                 if Bool.eqb (UblAllowanceCharge.chargeIndicator charge) indicator
                 then (sum + JS.Math_abs (UblAllowanceCharge.amount charge))%float
                 else sum) charges start
    = fold_left PrimFloat.add
        (map (fun charge => PrimFloat.abs (UblAllowanceCharge.amount charge))
             (filter (fun charge =>
                        Bool.eqb (UblAllowanceCharge.chargeIndicator charge) indicator)
                     charges)) start.
Proof.
  induction charges as [|c l IH]; intros start; cbn; [reflexivity|].
  destruct (Bool.eqb (UblAllowanceCharge.chargeIndicator c) indicator); cbn; apply IH.
Qed.

Lemma parseParty_unknown (root : Dom.Element) (role : string) :
  Dom.getElementsByTagNameNS root Parser.CAC_NS role = [] ->
  Parser.parseParty root role = Parser.unknownParty.
Proof. intros N. unfold Parser.parseParty, Parser.cacElement. now rewrite N. Qed.

(** X14. When the root has no LegalMonetaryTotal child, also when one is
    nested deeper, the DTO has subtotal 0, total 0 and amount due 0, and no
    amount paid. *)
Theorem document_without_monetary_total :
  forall (parseFromString : string -> Dom.ParseOutcome)
         (Date_parse : string -> JS.Number) (Date_toISOString : JS.Number -> string)
         (xml documentId : string) (result : NormalizeResult.t) (root : Dom.Element),
    parseFromString xml = Dom.WellFormed root ->
    Normalize.normalizeUblResponse parseFromString Date_parse Date_toISOString
      xml documentId = JS.Normal result ->
    Spec.directChildren root Parser.CAC_NS "LegalMonetaryTotal" = [] ->
    InvoiceDto.subtotal (Spec.dtoInvoice result) = Some 0%float
    /\ InvoiceDto.total (Spec.dtoInvoice result) = Some 0%float
    /\ InvoiceDto.amount_due (Spec.dtoInvoice result) = Some 0%float
    /\ InvoiceDto.amount_paid (Spec.dtoInvoice result) = None.
Proof.
  intros parseFromString Date_parse Date_toISOString xml documentId result root E H D.
  destruct (normalize_of_root _ _ _ _ _ _ _ E H) as [ubl [F ->]]. destruct F.
  unfold Spec.dtoInvoice.
  cbn [Normalize.normalizeParsed NormalizeResult.extracted InvoiceExtractionDTO.invoice
       InvoiceDto.subtotal InvoiceDto.total InvoiceDto.amount_due InvoiceDto.amount_paid].
  rewrite parsed_monetaryTotal. unfold Parser.parseMonetaryTotal.
  rewrite cacDirectElement_spec, D. repeat split.
Qed.

Lemma document_without_monetary_total_witness :
  exists result,
    Sample.normalizeBare = JS.Normal result
    /\ Spec.directChildren Sample.bareInvoice Parser.CAC_NS "LegalMonetaryTotal" = []
    /\ InvoiceDto.subtotal (Spec.dtoInvoice result) = Some 0%float.
Proof.
  eexists.
  assert (H : Sample.normalizeBare = JS.Normal ?[result]) by (vm_compute; reflexivity).
  split; [exact H|]. split; [reflexivity|].
  exact (proj1 (document_without_monetary_total
                  (Sample.host Sample.bareInvoice) Sample.Date_parse
                  Sample.Date_toISOString "" "doc" _ Sample.bareInvoice
                  eq_refl H eq_refl)).
Defined.

(** X15. When the document has no AccountingSupplierParty element the
    seller is the placeholder party, and the supplier of the DTO has the
    name [Unknown] and neither address nor tax id; the same holds for the
    buyer and AccountingCustomerParty. *)
Theorem document_without_party :
  forall (parseFromString : string -> Dom.ParseOutcome)
         (Date_parse : string -> JS.Number) (Date_toISOString : JS.Number -> string)
         (xml documentId : string) (result : NormalizeResult.t) (root : Dom.Element),
    parseFromString xml = Dom.WellFormed root ->
    Normalize.normalizeUblResponse parseFromString Date_parse Date_toISOString
      xml documentId = JS.Normal result ->
    (Dom.getElementsByTagNameNS root Parser.CAC_NS "AccountingSupplierParty" = [] ->
     UblInvoice.seller (RawPayload.invoice (NormalizeResult.rawPayload result))
     = Parser.unknownParty
     /\ SupplierDto.name (InvoiceDto.supplier (Spec.dtoInvoice result)) = Some "Unknown"
     /\ SupplierDto.address (InvoiceDto.supplier (Spec.dtoInvoice result)) = None
     /\ SupplierDto.tax_id (InvoiceDto.supplier (Spec.dtoInvoice result)) = None)
    /\ (Dom.getElementsByTagNameNS root Parser.CAC_NS "AccountingCustomerParty" = [] ->
        UblInvoice.buyer (RawPayload.invoice (NormalizeResult.rawPayload result))
        = Parser.unknownParty
        /\ ReceiverDto.name (InvoiceDto.receiver (Spec.dtoInvoice result)) = Some "Unknown"
        /\ ReceiverDto.address (InvoiceDto.receiver (Spec.dtoInvoice result)) = None
        /\ ReceiverDto.tax_id (InvoiceDto.receiver (Spec.dtoInvoice result)) = None).
Proof.
  intros parseFromString Date_parse Date_toISOString xml documentId result root E H.
  destruct (normalize_of_root _ _ _ _ _ _ _ E H) as [ubl [F ->]]. destruct F.
  unfold Spec.dtoInvoice.
  cbn [Normalize.normalizeParsed NormalizeResult.extracted NormalizeResult.rawPayload
       InvoiceExtractionDTO.invoice RawPayload.invoice Normalize.sanitizeRawUbl
       UblInvoice.seller UblInvoice.buyer InvoiceDto.supplier InvoiceDto.receiver
       SupplierDto.name SupplierDto.address SupplierDto.tax_id
       ReceiverDto.name ReceiverDto.address ReceiverDto.tax_id].
  split; intros N.
  - rewrite parsed_seller, (parseParty_unknown _ _ N). repeat split.
  - rewrite parsed_buyer, (parseParty_unknown _ _ N). repeat split.
Qed.

Lemma document_without_party_witness :
  exists result,
    Sample.normalizeBare = JS.Normal result
    /\ Dom.getElementsByTagNameNS Sample.bareInvoice Parser.CAC_NS
         "AccountingSupplierParty" = []
    /\ SupplierDto.name (InvoiceDto.supplier (Spec.dtoInvoice result)) = Some "Unknown".
Proof.
  eexists.
  assert (H : Sample.normalizeBare = JS.Normal ?[result]) by (vm_compute; reflexivity).
  split; [exact H|]. split; [reflexivity|].
  exact (proj1 (proj2 (proj1 (document_without_party
                                (Sample.host Sample.bareInvoice) Sample.Date_parse
                                Sample.Date_toISOString "" "doc" _ Sample.bareInvoice
                                eq_refl H) eq_refl))).
Defined.

(** X16. The allowance/charges of a parsed line are its own AllowanceCharge
    children; its discount amount is the sum of the absolute amounts of
    those with a false indicator and its charge amount the sum of those
    with a true indicator, each kept only when it is above zero. A line
    without such a child has neither list nor amounts. *)
Theorem line_discount_and_charge :
  forall (qtyTag : string) (line : Dom.Element),
    let parsed := Parser.parseLine qtyTag line in
    let charges := Props.lineCharges line in
    UblLine.allowanceCharges parsed
    = match charges with
      | [] => None
      | _ :: _ => Some charges
      end
    /\ UblLine.discountAmount parsed = Props.aboveZero (Spec.absoluteSum charges false)
    /\ UblLine.chargeAmount parsed = Props.aboveZero (Spec.absoluteSum charges true)
    /\ (Spec.directChildren line Parser.CAC_NS "AllowanceCharge" = [] ->
        UblLine.allowanceCharges parsed = None
        /\ UblLine.discountAmount parsed = None
        /\ UblLine.chargeAmount parsed = None).
Proof.
  intros qtyTag line parsed charges. subst parsed charges.
  assert (A : UblLine.allowanceCharges (Parser.parseLine qtyTag line)
              = match Props.lineCharges line with
                | [] => None
                | _ :: _ => Some (Props.lineCharges line)
                end).
  { cbn [Parser.parseLine UblLine.allowanceCharges].
    rewrite parseAllowanceCharges_direct. unfold Parser.nonEmptyList.
    now destruct (Props.lineCharges line). }
  assert (D : UblLine.discountAmount (Parser.parseLine qtyTag line)
              = Props.aboveZero (Spec.absoluteSum (Props.lineCharges line) false)).
  { cbn [Parser.parseLine UblLine.discountAmount].
    rewrite parseAllowanceCharges_direct.
    unfold Parser.positiveOrUndefined, Props.aboveZero, JS.gt, Spec.absoluteSum,
      Spec.sumNumbers.
    rewrite <- line_sum_fold.
    assert (S : forall l start,
               fold_left (fun sum charge =>
                            if UblAllowanceCharge.chargeIndicator charge then sum
                            else (sum + JS.Math_abs (UblAllowanceCharge.amount charge))%float)
                         l start
               = fold_left (fun sum charge =>
                              if Bool.eqb (UblAllowanceCharge.chargeIndicator charge) false
                              then (sum + JS.Math_abs (UblAllowanceCharge.amount charge))%float
                              else sum) l start).
    { induction l as [|c l IH]; intros start; cbn; [reflexivity|].
      rewrite IH. now destruct (UblAllowanceCharge.chargeIndicator c). }
    now rewrite S. }
  assert (C : UblLine.chargeAmount (Parser.parseLine qtyTag line)
              = Props.aboveZero (Spec.absoluteSum (Props.lineCharges line) true)).
  { cbn [Parser.parseLine UblLine.chargeAmount].
    rewrite parseAllowanceCharges_direct.
    unfold Parser.positiveOrUndefined, Props.aboveZero, JS.gt, Spec.absoluteSum,
      Spec.sumNumbers.
    rewrite <- line_sum_fold.
    assert (S : forall l start,
               fold_left (fun sum charge =>
                            if UblAllowanceCharge.chargeIndicator charge
                            then (sum + JS.Math_abs (UblAllowanceCharge.amount charge))%float
                            else sum)
                         l start
               = fold_left (fun sum charge =>
                              if Bool.eqb (UblAllowanceCharge.chargeIndicator charge) true
                              then (sum + JS.Math_abs (UblAllowanceCharge.amount charge))%float
                              else sum) l start).
    { induction l as [|c l IH]; intros start; cbn; [reflexivity|].
      rewrite IH. now destruct (UblAllowanceCharge.chargeIndicator c). }
    now rewrite S. }
  split; [exact A|]. split; [exact D|]. split; [exact C|].
  intros N. rewrite A, D, C. unfold Props.lineCharges. rewrite N. repeat split.
Qed.

Lemma line_discount_and_charge_witness :
  Spec.directChildren (Fixture.line []) Parser.CAC_NS "AllowanceCharge" = []
  /\ UblLine.discountAmount (Parser.parseLine "InvoicedQuantity" (Fixture.line [])) = None.
Proof.
  split; [reflexivity|].
  apply (proj2 (proj2 (proj2 (line_discount_and_charge "InvoicedQuantity"
                                (Fixture.line []))))).
  reflexivity.
Defined.

Example line_discount_sample :
  let line :=
    Parser.parseLine "InvoicedQuantity"
      (Fixture.line [Fixture.allowanceCharge "false" "-10.00";
                     Fixture.allowanceCharge "false" "2.50";
                     Fixture.allowanceCharge "true" "0"]) in
  UblLine.discountAmount line = Some 12.5%float /\ UblLine.chargeAmount line = None
  /\ option_map (@List.length _) (UblLine.allowanceCharges line) = Some 3%nat.
Proof. vm_compute. repeat split. Qed.

(** X17. The header-level allowance/charges are read from the
    AllowanceCharge children of the root only: taking every other child
    out of the root, a line with allowance/charges of its own among them,
    leaves the list unchanged. *)
Theorem header_charges_direct_children :
  forall (ns p : option string) (l : string) (attrs : list (string * string))
         (children : list Dom.Node),
    Parser.parseAllowanceCharges (Dom.Elem ns p l attrs children)
    = map Parser.parseAllowanceCharge
          (filter (Dom.isNamed Parser.CAC_NS "AllowanceCharge") children)
    /\ Parser.parseAllowanceCharges (Dom.Elem ns p l attrs children)
       = Parser.parseAllowanceCharges
           (Dom.Elem ns p l attrs
              (filter (Dom.isNamed Parser.CAC_NS "AllowanceCharge") children)).
Proof.
  intros ns p l attrs children. rewrite !parseAllowanceCharges_direct.
  unfold Props.lineCharges. split; [reflexivity|]. now rewrite directChildren_only.
Qed.

(** X18. [po_number] is null when the document has no OrderReference
    element; otherwise it is the normalized ID of the first OrderReference,
    else its normalized SalesOrderID. *)
Theorem po_number_from_order_reference :
  forall (parseFromString : string -> Dom.ParseOutcome)
         (Date_parse : string -> JS.Number) (Date_toISOString : JS.Number -> string)
         (xml documentId : string) (result : NormalizeResult.t) (root : Dom.Element),
    parseFromString xml = Dom.WellFormed root ->
    Normalize.normalizeUblResponse parseFromString Date_parse Date_toISOString
      xml documentId = JS.Normal result ->
    InvoiceDto.po_number (Spec.dtoInvoice result)
    = match Parser.cacElement root "OrderReference" with
      | Some reference =>
          match Normalize.normalizeText (Some (Parser.cbcText reference "ID")) with
          | Some id => Some id
          | None =>
              Normalize.normalizeText (Some (Parser.cbcText reference "SalesOrderID"))
          end
      | None => None
      end.
Proof.
  intros parseFromString Date_parse Date_toISOString xml documentId result root E H.
  destruct (normalize_of_root _ _ _ _ _ _ _ E H) as [ubl [F ->]]. destruct F.
  unfold Spec.dtoInvoice.
  cbn [Normalize.normalizeParsed NormalizeResult.extracted InvoiceExtractionDTO.invoice
       InvoiceDto.po_number].
  rewrite parsed_orderReference, parsed_salesOrderId.
  destruct (Parser.cacElement root "OrderReference") as [reference|]; [|reflexivity].
  cbn [option_map JS.nullish].
  destruct (Normalize.normalizeText (Some (Parser.cbcText reference "ID")));
    [reflexivity|].
  unfold JS.orUndefined, JS.nonEmpty.
  destruct (String.eqb_spec (Parser.cbcText reference "SalesOrderID") "") as [->|N];
    reflexivity.
Qed.

Lemma po_number_from_order_reference_witness :
  exists result,
    Sample.normalizeBare = JS.Normal result
    /\ InvoiceDto.po_number (Spec.dtoInvoice result)
       = match Parser.cacElement Sample.bareInvoice "OrderReference" with
         | Some reference =>
             match Normalize.normalizeText (Some (Parser.cbcText reference "ID")) with
             | Some id => Some id
             | None =>
                 Normalize.normalizeText (Some (Parser.cbcText reference "SalesOrderID"))
             end
         | None => None
         end
    /\ InvoiceDto.po_number (Spec.dtoInvoice result) = Some "SO-9988".
Proof.
  eexists.
  assert (H : Sample.normalizeBare = JS.Normal ?[result]) by (vm_compute; reflexivity).
  split; [exact H|]. split; [|vm_compute; reflexivity].
  exact (po_number_from_order_reference
           (Sample.host Sample.bareInvoice) Sample.Date_parse
           Sample.Date_toISOString "" "doc" _ Sample.bareInvoice eq_refl H).
Defined.

(** ** Texts of the document and of the DTO *)

Lemma parseNotesLoop_filled (noteEls : list Dom.Element) :
  forall notes,
    Forall (fun note => note <> "") notes ->
    Forall (fun note => note <> "") (Parser.parseNotesLoop noteEls notes).
Proof.
  induction noteEls as [|el rest IH]; intros notes F; cbn [Parser.parseNotesLoop];
    [exact F|].
  unfold JS.nonEmpty.
  destruct (String.eqb_spec (JS.trim (Dom.textContent el)) "") as [E|E]; cbn [negb];
    [now apply IH|].
  apply IH. apply Forall_app. split; [exact F|]. now constructor.
Qed.

Lemma parseNotes_filled (root : Dom.Element) :
  Props.absentOrFilled (Parser.parseNotes root).
Proof.
  unfold Props.absentOrFilled, Parser.parseNotes.
  set (notes := Parser.parseNotesLoop _ []).
  assert (F : Forall (fun note => note <> "") notes)
    by (apply parseNotesLoop_filled; constructor).
  destruct notes as [|note rest]; cbn [List.length Nat.ltb Nat.leb]; [exact I|].
  apply join_filled; [discriminate|exact F].
Qed.

(** X19. In a document that [parseUblInvoice] returns the issue date and
    the currency have no white space at their ends, and the due date, the
    sales order id, the note and the payment terms note are absent rather
    than empty. *)
Theorem parsed_texts_trimmed_or_absent :
  forall (parseFromString : string -> Dom.ParseOutcome) (xml : string)
         (ubl : UblInvoice.t),
    Parser.parseUblInvoice parseFromString xml = JS.Normal (Some ubl) ->
    Props.trimmed (UblInvoice.issueDate ubl)
    /\ Props.trimmed (UblInvoice.currency ubl)
    /\ Props.absentOrFilled (UblInvoice.dueDate ubl)
    /\ Props.absentOrFilled (UblInvoice.salesOrderId ubl)
    /\ Props.absentOrFilled (UblInvoice.note ubl)
    /\ Props.absentOrFilled (UblInvoice.paymentTermsNote ubl).
Proof.
  intros parseFromString xml ubl H.
  destruct (parse_some parseFromString xml ubl H) as [root [_ [_ [F _]]]].
  destruct F.
  rewrite parsed_issueDate, parsed_currency, parsed_dueDate, parsed_salesOrderId,
    parsed_note, parsed_paymentTermsNote.
  repeat split; try apply cbcText_trimmed; try apply orUndefined_filled.
  - destruct (Parser.cacElement root "OrderReference");
      [apply orUndefined_filled|exact I].
  - apply parseNotes_filled.
  - unfold Parser.parsePaymentTermsNote.
    destruct (Parser.cacElement root "PaymentTerms");
      [apply orUndefined_filled|exact I].
Qed.

Lemma parsed_texts_trimmed_or_absent_witness :
  exists ubl,
    Parser.parseUblInvoice (Sample.host Sample.bareInvoice) "" = JS.Normal (Some ubl)
    /\ UblInvoice.currency ubl = "eur"
    /\ Props.trimmed (UblInvoice.currency ubl).
Proof.
  eexists.
  assert (H : Parser.parseUblInvoice (Sample.host Sample.bareInvoice) ""
              = JS.Normal (Some ?[ubl])) by (vm_compute; reflexivity).
  split; [exact H|]. split; [reflexivity|].
  exact (proj1 (proj2 (parsed_texts_trimmed_or_absent _ _ _ H))).
Defined.

(** X20. The currency of the DTO is the DocumentCurrencyCode of the
    document in upper case, and null when the document has none or an
    empty one; stated for a code whose letters have their upper case below
    256. *)
Theorem currency_in_upper_case :
  forall (parseFromString : string -> Dom.ParseOutcome)
         (Date_parse : string -> JS.Number) (Date_toISOString : JS.Number -> string)
         (xml documentId : string) (result : NormalizeResult.t) (root : Dom.Element),
    parseFromString xml = Dom.WellFormed root ->
    JS.upperCaseInRange (Parser.cbcText root "DocumentCurrencyCode") = true ->
    Normalize.normalizeUblResponse parseFromString Date_parse Date_toISOString
      xml documentId = JS.Normal result ->
    InvoiceDto.currency (Spec.dtoInvoice result)
    = if (Parser.cbcText root "DocumentCurrencyCode" =? "")%string then None
      else Some (JS.toUpperCase (Parser.cbcText root "DocumentCurrencyCode")).
Proof.
  intros parseFromString Date_parse Date_toISOString xml documentId result root E _ H.
  destruct (normalize_of_root _ _ _ _ _ _ _ E H) as [ubl [F ->]]. destruct F.
  unfold Spec.dtoInvoice.
  cbn [Normalize.normalizeParsed NormalizeResult.extracted InvoiceExtractionDTO.invoice
       InvoiceDto.currency].
  rewrite parsed_currency. unfold Normalize.normalizeCurrency, JS.nonEmpty.
  pose proof (cbcText_trimmed root "DocumentCurrencyCode") as T.
  unfold Props.trimmed in T. cbv zeta. rewrite T.
  destruct (Parser.cbcText root "DocumentCurrencyCode" =? "")%string; reflexivity.
Qed.

Lemma currency_in_upper_case_witness :
  exists result,
    Sample.normalizeBare = JS.Normal result
    /\ Parser.cbcText Sample.bareInvoice "DocumentCurrencyCode" = "eur"
    /\ JS.upperCaseInRange "eur" = true
    /\ InvoiceDto.currency (Spec.dtoInvoice result)
       = (if (Parser.cbcText Sample.bareInvoice "DocumentCurrencyCode" =? "")%string
          then None
          else Some (JS.toUpperCase
                       (Parser.cbcText Sample.bareInvoice "DocumentCurrencyCode")))
    /\ InvoiceDto.currency (Spec.dtoInvoice result) = Some "EUR".
Proof.
  eexists.
  assert (H : Sample.normalizeBare = JS.Normal ?[result]) by (vm_compute; reflexivity).
  split; [exact H|]. split; [reflexivity|]. split; [reflexivity|].
  split; [|vm_compute; reflexivity].
  exact (currency_in_upper_case
           (Sample.host Sample.bareInvoice) Sample.Date_parse
           Sample.Date_toISOString "" "doc" _ Sample.bareInvoice eq_refl eq_refl H).
Defined.

(** X21. The tax amount of a line item of the DTO is the resolved tax
    amount of the line when that is finite, its tax rate the tax percent of
    the line when that is finite, and its amount the line extension amount
    when that is finite; each is null otherwise. *)
Theorem line_item_tax_from_line :
  forall (qtyTag : string) (line : Dom.Element),
    let item := Normalize.lineItem (Parser.parseLine qtyTag line) in
    LineItem.tax_amount item
    = match Spec.resolvedTaxAmount line with
      | Some amount => Spec.numberOrNull amount
      | None => None
      end
    /\ LineItem.tax_rate item
       = match Spec.taxPercent line with
         | Some percent => Spec.numberOrNull percent
         | None => None
         end
    /\ LineItem.amount item
       = Spec.numberOrNull (Parser.cbcNumber line "LineExtensionAmount").
Proof.
  intros qtyTag line item. subst item.
  cbn [Normalize.lineItem LineItem.tax_amount LineItem.tax_rate LineItem.amount].
  rewrite parseLine_taxAmount, parseLine_taxPercent, !toNumberOrNull_option.
  repeat split.
Qed.
